(** * HealthSync front-end: a shallow embedding of the presentation layer

    The development follows the JavaScript sources of the repository:
    the progress tracker (renderers and tab controller), the health
    consultation module (correlation table, health-tips cache), the
    response formatter and the client-side session module.

    Strings are sequences of UTF-16 code units, as in the language.
    Numbers are integers printed digit for digit (what
    Number.prototype.toString does for the integers a number holds
    exactly) or, for the others, the digits and exponent from which
    Number.prototype.toString prints them. *)

From Stdlib Require Import ZArith NArith List Ascii String Lia ZifyNat DecimalString.
From Stdlib Require DecimalPos DecimalZ.
From stdpp Require Import base option list strings gmap.

Local Open Scope N_scope.
Local Open Scope list_scope.

(** ** JavaScript values and the conversions the sources rely on *)

Module Js.

(** A string is the list of its code units. *)
Abbreviation jstring := (list N).

Definition unit_of_ascii (a : ascii) : N := N_of_ascii a.

(** The code units of an ASCII literal. *)
Definition lit (s : string) : jstring :=
  map unit_of_ascii (list_ascii_of_string s).

(** The code units of a markup literal in which every backquote stands
    for a double quote (code unit 34); markup in the sources never
    contains a backquote of its own. *)
Definition tpl_unit (a : ascii) : N :=
  if Ascii.eqb a "`"%char then 34 else N_of_ascii a.

Definition tpl (s : string) : jstring :=
  map tpl_unit (list_ascii_of_string s).

(** Outcome of an evaluation that may raise. *)
Inductive error := TypeError | InvalidCharacterError | SyntaxError.

Inductive result (A : Type) :=
| Ok (a : A)
| Throw (e : error).
Arguments Ok {A} a.
Arguments Throw {A} e.

Definition bind {A B} (r : result A) (k : A -> result B) : result B :=
  match r with
  | Ok a => k a
  | Throw e => Throw e
  end.

Notation "'letr' x := r 'in' k" := (bind r (fun x => k))
  (at level 10, x name, r at level 200, k at level 200).

(** Primitive values carried by a parsed payload, the absence of a
    property ([VUndef]), and the two kinds of members an object literal
    inherits from [Object.prototype]: built-in functions and (under
    [__proto__]) the prototype object itself.

    A number is [VNum n] when it is the integer [n] and a number
    holds [n] exactly ([safe_integer] below); any other finite number
    is [VDec negative s n], the number [s * 10 ^ (n - k)] (negated if
    [negative]) where [k] is the number of digits of [s] and [s] is
    the shortest digit string that denotes the number: the triple of
    [Number::toString]; a numeral that overflows parses to [VInf]. *)
Inductive value :=
| VUndef
| VNull
| VBool (b : bool)
| VNum (n : Z)
| VStr (s : jstring)
| VFun (name : jstring) (arity : Z)
| VObjectPrototype
| VDec (negative : bool) (s : positive) (n : Z)
| VInf (negative : bool).

#[global] Instance value_eq_dec : EqDecision value.
Proof. solve_decision. Defined.

Definition decimal (n : Z) : jstring :=
  lit (NilZero.string_of_int (Z.to_int n)).

(** The integers that a number holds exactly and that print digit for
    digit. *)
Definition safe_integer (n : Z) : Prop := (- 2 ^ 53 < n < 2 ^ 53)%Z.

(** A value as this file writes it: [VNum] only on such an integer (any
    other number is a [VDec] or a [VInf]). *)
Definition number_wf (v : value) : Prop :=
  match v with
  | VNum n => safe_integer n
  | _ => True
  end.

Definition is_number (v : value) : bool :=
  match v with
  | VNum _ | VDec _ _ _ | VInf _ => true
  | _ => false
  end.

(** [Number::toString] on the digits [s] and the exponent [n] of a
    finite number: the digits padded with zeros, the digits around a
    decimal point, the digits after [0.] and zeros, or the exponential
    form. *)
Definition Number_toString (s : positive) (n : Z) : jstring :=
  let digits := decimal (Z.pos s) in
  let k := Z.of_nat (length digits) in
  if ((k <=? n) && (n <=? 21))%Z then digits ++ repeat 48 (Z.to_nat (n - k))
  else if ((0 <? n) && (n <=? 21))%Z
  then take (Z.to_nat n) digits ++ lit "." ++ drop (Z.to_nat n) digits
  else if ((-6 <? n) && (n <=? 0))%Z
  then lit "0." ++ repeat 48 (Z.to_nat (- n)) ++ digits
  else
    take 1 digits ++ (if (k =? 1)%Z then [] else lit "." ++ drop 1 digits)
    ++ lit "e" ++ (if (n - 1 <? 0)%Z then lit "-" else lit "+")
    ++ decimal (Z.abs (n - 1)).

(** [ToString], as applied by template literals and by [+] on strings. *)
Definition ToString (v : value) : jstring :=
  match v with
  | VUndef => lit "undefined"
  | VNull => lit "null"
  | VBool true => lit "true"
  | VBool false => lit "false"
  | VNum n => decimal n
  | VStr s => s
  | VFun name _ => lit "function " ++ name ++ lit "() { [native code] }"
  | VObjectPrototype => lit "[object Object]"
  | VDec negative s n => (if negative then lit "-" else []) ++ Number_toString s n
  | VInf negative => if negative then lit "-Infinity" else lit "Infinity"
  end.

(** [ToBoolean]. *)
Definition truthy (v : value) : bool :=
  match v with
  | VUndef | VNull => false
  | VBool b => b
  | VNum n => negb (Z.eqb n 0)
  | VStr s => negb (Nat.eqb (length s) 0)
  | VFun _ _ | VObjectPrototype => true
  | VDec _ _ _ | VInf _ => true
  end.

(** [a || b]. *)
Definition or_else (a b : value) : value := if truthy a then a else b.

(** [v === 'literal']. *)
Definition is_str (v : value) (s : jstring) : bool :=
  match v with
  | VStr t => bool_decide (t = s)
  | _ => false
  end.

(** Members every object literal inherits from [Object.prototype]. *)
Definition object_prototype_member (key : jstring) : option value :=
  if bool_decide (key = lit "constructor") then Some (VFun (lit "Object") 1)
  else if bool_decide (key = lit "hasOwnProperty") then Some (VFun key 1)
  else if bool_decide (key = lit "isPrototypeOf") then Some (VFun key 1)
  else if bool_decide (key = lit "propertyIsEnumerable") then Some (VFun key 1)
  else if bool_decide (key = lit "toLocaleString") then Some (VFun key 0)
  else if bool_decide (key = lit "toString") then Some (VFun key 0)
  else if bool_decide (key = lit "valueOf") then Some (VFun key 0)
  else if bool_decide (key = lit "__defineGetter__") then Some (VFun key 2)
  else if bool_decide (key = lit "__defineSetter__") then Some (VFun key 2)
  else if bool_decide (key = lit "__lookupGetter__") then Some (VFun key 1)
  else if bool_decide (key = lit "__lookupSetter__") then Some (VFun key 1)
  else if bool_decide (key = lit "__proto__") then Some VObjectPrototype
  else None.

(** [table[key]] for an object literal [table] whose own properties are
    string constants: own property first, then the prototype. *)
Fixpoint own_property (table : list (jstring * jstring)) (key : jstring)
  : option jstring :=
  match table with
  | [] => None
  | (k, v) :: rest => if bool_decide (k = key) then Some v else own_property rest key
  end.

Definition lookup_literal (table : list (jstring * jstring)) (key : value) : value :=
  match own_property table (ToString key) with
  | Some v => VStr v
  | None =>
      match object_prototype_member (ToString key) with
      | Some m => m
      | None => VUndef
      end
  end.

(** [xs.join(sep)] on an array of primitives. *)
Definition join_item (v : value) : jstring :=
  match v with
  | VUndef | VNull => []
  | _ => ToString v
  end.

Fixpoint join (sep : jstring) (xs : list value) : jstring :=
  match xs with
  | [] => []
  | [x] => join_item x
  | x :: rest => join_item x ++ sep ++ join sep rest
  end.

End Js.
Import Js.

(** ** The progress tracker (ProgressTracker object) *)

Module ProgressTracker.

(** *** Payloads, as the analytics service documents them.  A scalar
    property is a [value] ([VUndef] when the property is missing); a
    nested object or array is optional ([None] when missing or null). *)

Record Measurement := {
  date : value;
  weight_kg : value
}.

Record WeightTrend := {
  wt_status : value;
  wt_message : value;
  first_measurement : option Measurement;
  latest_measurement : option Measurement;
  total_change_kg : value;
  percent_change : value;
  weekly_change_rate_kg : value;
  wt_trend : value;
  wt_insights : option (list value)
}.

Record BloodPressureTrend := {
  bp_status : value;
  bp_message : value;
  average_systolic : value;
  average_diastolic : value;
  min_systolic : value;
  min_diastolic : value;
  max_systolic : value;
  max_diastolic : value;
  category : value;
  data_points : value;
  bp_insights : option (list value)
}.

Record GoalProgress := {
  gp_status : value;
  gp_message : value;
  goal_type : value;
  target_value : value;
  initial_value : value;
  current_value : value;
  progress_percentage : value;
  gp_insights : option (list value)
}.

Record UserInfo := {
  name : value;
  age : value;
  gender : value;
  height_cm : value;
  current_weight_kg : value
}.

Record Summary := {
  data_points_collected : value;
  days_tracked : value;
  metrics_tracked : option (list value)
}.

Record WeightAnalysis := {
  wa_total_change_kg : value;
  wa_percent_change : value;
  wa_weekly_change_rate_kg : value;
  wa_trend : value
}.

Record BloodPressureAnalysis := {
  ba_average_systolic : value;
  ba_average_diastolic : value;
  ba_category : value
}.

(** [meal_frequency] is given as the entries [Object.entries] lists. *)
Record NutritionSummary := {
  ns_status : value;
  average_daily_calories : value;
  ns_days_tracked : value;
  meal_frequency : option (list (jstring * value))
}.

Record TimePattern := {
  tp_symptom : value;
  tp_time : value
}.

(** An entry of [most_frequent_symptoms] is an array [[symptom, count]]. *)
Record SymptomPatterns := {
  sp_status : value;
  most_frequent_symptoms : option (list (list value));
  time_patterns : option (list TimePattern)
}.

Record HealthReport := {
  hr_status : value;
  hr_message : value;
  user_info : option UserInfo;
  report_date : value;
  summary : option Summary;
  weight_analysis : option WeightAnalysis;
  blood_pressure_analysis : option BloodPressureAnalysis;
  nutrition_summary : option NutritionSummary;
  symptom_patterns : option SymptomPatterns;
  recommendations : option (list value)
}.

(** *** The page: markup per selector, chart objects, tab classes and
    the requests handed to [fetch]. *)

Record Chart := {
  chart_type : jstring;
  chart_labels : list jstring;
  chart_datasets : list (jstring * list value)
}.

Record world := {
  userId : value;
  currentDays : value;
  charts : gmap string Chart;
  innerHTML : gmap string jstring;
  activeTabs : gset jstring;
  requests : list jstring
}.

Definition set_innerHTML (sel : string) (h : jstring) (w : world) : world :=
  {| userId := userId w; currentDays := currentDays w; charts := charts w;
     innerHTML := <[sel := h]> (innerHTML w);
     activeTabs := activeTabs w; requests := requests w |}.

Definition set_chart (name : string) (c : Chart) (w : world) : world :=
  {| userId := userId w; currentDays := currentDays w;
     charts := <[name := c]> (charts w);
     innerHTML := innerHTML w;
     activeTabs := activeTabs w; requests := requests w |}.

Definition fetch (url : jstring) (w : world) : world :=
  {| userId := userId w; currentDays := currentDays w; charts := charts w;
     innerHTML := innerHTML w;
     activeTabs := activeTabs w; requests := requests w ++ [url] |}.

Definition apiBase : jstring := lit "/progress".

(** [xs.forEach(x => { html += `<li>${x}</li>` })]. *)
Definition append_items (html : jstring) (xs : list value) : jstring :=
  fold_left (fun html x => html ++ tpl "<li>" ++ ToString x ++ tpl "</li>") xs html.

(** The insights block shared by the three insight renderers:
    [if (data.insights && data.insights.length > 0) { ... }]. *)
Definition append_insights (html : jstring) (insights : option (list value)) : jstring :=
  match insights with
  | Some ((_ :: _) as xs) =>
      let html := html ++ tpl "<h5>Insights:</h5>" in
      let html := html ++ tpl "<ul>" in
      let html := append_items html xs in
      html ++ tpl "</ul>"
  | _ => html
  end.

(** Map category to human-readable text. *)
Definition categoryMap : list (jstring * jstring) :=
  [ (lit "normal", lit "Normal");
    (lit "elevated", lit "Elevated");
    (lit "hypertension_stage_1", lit "Hypertension Stage 1");
    (lit "hypertension_stage_2", lit "Hypertension Stage 2");
    (lit "hypertensive_crisis", lit "Hypertensive Crisis");
    (lit "unknown", lit "Unknown") ].

(** [categoryMap[c] || c], and the text it is printed as. *)
Definition categoryValue (c : value) : value :=
  or_else (lookup_literal categoryMap c) c.

Definition categoryLabel (c : value) : jstring := ToString (categoryValue c).

(** Map goal type to human-readable text. *)
Definition goalTypeMap : list (jstring * jstring) :=
  [ (lit "weight", lit "Weight");
    (lit "blood_sugar", lit "Blood Sugar");
    (lit "blood_pressure", lit "Blood Pressure") ].

Definition goalTypeLabel (g : value) : jstring :=
  ToString (or_else (lookup_literal goalTypeMap g) g).

Section Builtins.

(** Locale- and Unicode-dependent built-ins are left abstract:
    [new Date(v).toLocaleDateString()] and [String.prototype.toUpperCase]. *)
Variable toLocaleDateString : value -> jstring.
Variable toUpperCase : jstring -> jstring.

(** [s.charAt(0).toUpperCase() + s.slice(1)]; a receiver that is not a
    string has no [charAt]. *)
Definition capitalize (v : value) : result jstring :=
  match v with
  | VStr s => Ok (toUpperCase (take 1 s) ++ drop 1 s)
  | _ => Throw TypeError
  end.

(** **** Weight *)

Definition renderWeightChart (data : WeightTrend) (w : world) : world :=
  let w := set_innerHTML "#weight-chart-container"
             (tpl "<canvas id=`weight-chart`></canvas>") w in
  let '(labels, weightData) :=
    match first_measurement data, latest_measurement data with
    | Some first, Some latest =>
        let labels := [toLocaleDateString (date first)] in
        let weightData := [weight_kg first] in
        if bool_decide (date first <> date latest)
        then (labels ++ [toLocaleDateString (date latest)],
              weightData ++ [weight_kg latest])
        else (labels, weightData)
    | _, _ => ([], [])
    end in
  set_chart "weightChart"
    {| chart_type := lit "line";
       chart_labels := labels;
       chart_datasets := [(lit "Weight (kg)", weightData)] |} w.

Definition renderWeightInsights_html (data : WeightTrend) : result jstring :=
  let html := tpl "<div class=`card`>" in
  let html := html ++ tpl "<div class=`card-header`>Weight Insights</div>" in
  let html := html ++ tpl "<div class=`card-body`>" in
  letr html :=
    (if is_str (wt_status data) (lit "success") then
       let html := html ++ tpl "<p><strong>Total Change:</strong> "
                     ++ ToString (total_change_kg data) ++ tpl " kg ("
                     ++ ToString (percent_change data) ++ tpl "%)</p>" in
       let html := html ++ tpl "<p><strong>Weekly Change Rate:</strong> "
                     ++ ToString (weekly_change_rate_kg data) ++ tpl " kg/week</p>" in
       letr trend := capitalize (wt_trend data) in
       let html := html ++ tpl "<p><strong>Trend:</strong> " ++ trend ++ tpl "</p>" in
       Ok (append_insights html (wt_insights data))
     else
       Ok (html ++ tpl "<p>" ++ ToString (wt_message data) ++ tpl "</p>")) in
  Ok (html ++ tpl "</div></div>").

Definition weight_error_alert : jstring :=
  tpl "<div class=`alert alert-danger`>Error loading weight data. Please try again later.</div>".

(** [loadWeightTrend]: the request, and what the promise chain does
    with the parsed response (or with a failure of [fetch]/[json]). *)
Definition loadWeightTrend (w : world) : world :=
  fetch (apiBase ++ lit "/user/" ++ ToString (userId w)
           ++ lit "/weight-trend?days=" ++ ToString (currentDays w)) w.

Definition loadWeightTrend_settled (resp : result WeightTrend) (w : world) : world :=
  match resp with
  | Ok data =>
      if is_str (wt_status data) (lit "success") then
        let w := renderWeightChart data w in
        match renderWeightInsights_html data with
        | Ok html => set_innerHTML "#weight-insights" html w
        | Throw _ => set_innerHTML "#weight-chart-container" weight_error_alert w
        end
      else
        let w := set_innerHTML "#weight-chart-container"
                   (tpl "<div class=`alert alert-info`>" ++ ToString (wt_message data)
                      ++ tpl "</div>") w in
        set_innerHTML "#weight-insights" [] w
  | Throw _ => set_innerHTML "#weight-chart-container" weight_error_alert w
  end.

(** **** Blood pressure *)

Definition renderBloodPressureChart (data : BloodPressureTrend) (w : world) : world :=
  let w := set_innerHTML "#bp-chart-container"
             (tpl "<canvas id=`bp-chart`></canvas>") w in
  set_chart "bpChart"
    {| chart_type := lit "bar";
       chart_labels := [lit "Systolic"; lit "Diastolic"];
       chart_datasets :=
         [ (lit "Average", [average_systolic data; average_diastolic data]);
           (lit "Min", [min_systolic data; min_diastolic data]);
           (lit "Max", [max_systolic data; max_diastolic data]) ] |} w.

Definition renderBloodPressureInsights_html (data : BloodPressureTrend) : jstring :=
  let html := tpl "<div class=`card`>" in
  let html := html ++ tpl "<div class=`card-header`>Blood Pressure Insights</div>" in
  let html := html ++ tpl "<div class=`card-body`>" in
  let html :=
    if is_str (bp_status data) (lit "success") then
      let html := html ++ tpl "<p><strong>Average:</strong> "
                    ++ ToString (average_systolic data) ++ tpl "/"
                    ++ ToString (average_diastolic data) ++ tpl " mmHg</p>" in
      let html := html ++ tpl "<p><strong>Category:</strong> "
                    ++ categoryLabel (category data) ++ tpl "</p>" in
      let html := html ++ tpl "<p><strong>Data Points:</strong> "
                    ++ ToString (data_points data) ++ tpl "</p>" in
      append_insights html (bp_insights data)
    else
      html ++ tpl "<p>" ++ ToString (bp_message data) ++ tpl "</p>" in
  html ++ tpl "</div></div>".

Definition bp_error_alert : jstring :=
  tpl "<div class=`alert alert-danger`>Error loading blood pressure data. Please try again later.</div>".

Definition loadBloodPressureTrend (w : world) : world :=
  fetch (apiBase ++ lit "/user/" ++ ToString (userId w)
           ++ lit "/blood-pressure-trend?days=" ++ ToString (currentDays w)) w.

Definition loadBloodPressureTrend_settled (resp : result BloodPressureTrend) (w : world)
  : world :=
  match resp with
  | Ok data =>
      if is_str (bp_status data) (lit "success") then
        let w := renderBloodPressureChart data w in
        set_innerHTML "#bp-insights" (renderBloodPressureInsights_html data) w
      else
        let w := set_innerHTML "#bp-chart-container"
                   (tpl "<div class=`alert alert-info`>" ++ ToString (bp_message data)
                      ++ tpl "</div>") w in
        set_innerHTML "#bp-insights" [] w
  | Throw _ => set_innerHTML "#bp-chart-container" bp_error_alert w
  end.

(** **** Goal progress *)

(** The progress bar: width, aria value and visible label all print the
    supplied percentage. *)
Definition append_progress_bar (html : jstring) (percentage : value) : jstring :=
  let html := html ++ tpl "<div class=`progress` style=`height: 25px;`>" in
  let html := html ++ tpl "<div class=`progress-bar` role=`progressbar` style=`width: "
                ++ ToString percentage ++ tpl "%` " in
  let html := html ++ tpl "aria-valuenow=`" ++ ToString percentage
                ++ tpl "` aria-valuemin=`0` aria-valuemax=`100`>" in
  html ++ ToString percentage ++ tpl "%</div></div>".

Definition renderGoalProgress_html (data : GoalProgress) : jstring :=
  if is_str (gp_status data) (lit "success") then
    let html := tpl "<div class=`card`>" in
    let html := html ++ tpl "<div class=`card-header`>Goal Progress</div>" in
    let html := html ++ tpl "<div class=`card-body`>" in
    let html := html ++ tpl "<p><strong>Goal Type:</strong> "
                  ++ goalTypeLabel (goal_type data) ++ tpl "</p>" in
    let html := html ++ tpl "<p><strong>Target Value:</strong> "
                  ++ ToString (target_value data) ++ tpl "</p>" in
    let html := html ++ tpl "<p><strong>Initial Value:</strong> "
                  ++ ToString (initial_value data) ++ tpl "</p>" in
    let html := html ++ tpl "<p><strong>Current Value:</strong> "
                  ++ ToString (current_value data) ++ tpl "</p>" in
    let html := append_progress_bar html (progress_percentage data) in
    let html := html ++ tpl "<p class=`mt-2`></p>" in
    let html := append_insights html (gp_insights data) in
    html ++ tpl "</div></div>"
  else
    tpl "<div class=`alert alert-info`>" ++ ToString (gp_message data) ++ tpl "</div>".

Definition renderGoalProgress (data : GoalProgress) (w : world) : world :=
  set_innerHTML "#goal-progress-container" (renderGoalProgress_html data) w.

Definition goal_error_alert : jstring :=
  tpl "<div class=`alert alert-danger`>Error tracking goal progress. Please try again later.</div>".

Definition trackGoalProgress (goalType targetValue : value) (w : world) : world :=
  fetch (apiBase ++ lit "/user/" ++ ToString (userId w)
           ++ lit "/goal-progress?goal_type=" ++ ToString goalType
           ++ lit "&target_value=" ++ ToString targetValue) w.

Definition trackGoalProgress_settled (resp : result GoalProgress) (w : world) : world :=
  match resp with
  | Ok data => renderGoalProgress data w
  | Throw _ => set_innerHTML "#goal-progress-container" goal_error_alert w
  end.

(** **** Health report *)

(** Reading a property of a missing object raises. *)
Definition required {A} (o : option A) : result A :=
  match o with
  | Some a => Ok a
  | None => Throw TypeError
  end.

Definition append_user_info (html : jstring) (data : HealthReport) : result jstring :=
  letr info := required (user_info data) in
  let html := html ++ tpl "<div class=`card mb-3`>" in
  let html := html ++ tpl "<div class=`card-header`>User Information</div>" in
  let html := html ++ tpl "<div class=`card-body`>" in
  let html := html ++ tpl "<p><strong>Name:</strong> " ++ ToString (name info) ++ tpl "</p>" in
  let html :=
    if truthy (age info)
    then html ++ tpl "<p><strong>Age:</strong> " ++ ToString (age info) ++ tpl "</p>"
    else html in
  let html := html ++ tpl "<p><strong>Gender:</strong> " ++ ToString (gender info)
                ++ tpl "</p>" in
  let html := html ++ tpl "<p><strong>Height:</strong> " ++ ToString (height_cm info)
                ++ tpl " cm</p>" in
  let html :=
    if truthy (current_weight_kg info)
    then html ++ tpl "<p><strong>Current Weight:</strong> "
           ++ ToString (current_weight_kg info) ++ tpl " kg</p>"
    else html in
  Ok (html ++ tpl "</div></div>").

Definition append_summary (html : jstring) (data : HealthReport) : result jstring :=
  let html := html ++ tpl "<div class=`card mb-3`>" in
  let html := html ++ tpl "<div class=`card-header`>Summary</div>" in
  let html := html ++ tpl "<div class=`card-body`>" in
  let html := html ++ tpl "<p><strong>Report Date:</strong> "
                ++ toLocaleDateString (report_date data) ++ tpl "</p>" in
  letr sm := required (summary data) in
  let html := html ++ tpl "<p><strong>Data Points Collected:</strong> "
                ++ ToString (data_points_collected sm) ++ tpl "</p>" in
  let html := html ++ tpl "<p><strong>Days Tracked:</strong> "
                ++ ToString (days_tracked sm) ++ tpl "</p>" in
  letr metrics := required (metrics_tracked sm) in
  let html := html ++ tpl "<p><strong>Metrics Tracked:</strong> "
                ++ join (lit ", ") metrics ++ tpl "</p>" in
  Ok (html ++ tpl "</div></div>").

Definition append_weight_analysis (html : jstring) (data : HealthReport) : result jstring :=
  match weight_analysis data with
  | Some wa =>
      let html := html ++ tpl "<div class=`card mb-3`>" in
      let html := html ++ tpl "<div class=`card-header`>Weight Analysis</div>" in
      let html := html ++ tpl "<div class=`card-body`>" in
      let html := html ++ tpl "<p><strong>Total Change:</strong> "
                    ++ ToString (wa_total_change_kg wa) ++ tpl " kg ("
                    ++ ToString (wa_percent_change wa) ++ tpl "%)</p>" in
      let html := html ++ tpl "<p><strong>Weekly Change Rate:</strong> "
                    ++ ToString (wa_weekly_change_rate_kg wa) ++ tpl " kg/week</p>" in
      letr trend := capitalize (wa_trend wa) in
      let html := html ++ tpl "<p><strong>Trend:</strong> " ++ trend ++ tpl "</p>" in
      Ok (html ++ tpl "</div></div>")
  | None => Ok html
  end.

Definition append_blood_pressure_analysis (html : jstring) (data : HealthReport) : jstring :=
  match blood_pressure_analysis data with
  | Some ba =>
      let html := html ++ tpl "<div class=`card mb-3`>" in
      let html := html ++ tpl "<div class=`card-header`>Blood Pressure Analysis</div>" in
      let html := html ++ tpl "<div class=`card-body`>" in
      let html := html ++ tpl "<p><strong>Average:</strong> "
                    ++ ToString (ba_average_systolic ba) ++ tpl "/"
                    ++ ToString (ba_average_diastolic ba) ++ tpl " mmHg</p>" in
      let html := html ++ tpl "<p><strong>Category:</strong> "
                    ++ categoryLabel (ba_category ba) ++ tpl "</p>" in
      html ++ tpl "</div></div>"
  | None => html
  end.

Definition append_meal (html : jstring) (entry : jstring * value) : jstring :=
  let '(mealType, count) := entry in
  html ++ tpl "<li>" ++ toUpperCase (take 1 mealType) ++ drop 1 mealType
    ++ tpl ": " ++ ToString count ++ tpl "</li>".

Definition append_nutrition_summary (html : jstring) (data : HealthReport) : jstring :=
  match nutrition_summary data with
  | Some ns =>
      if is_str (ns_status ns) (lit "success") then
        let html := html ++ tpl "<div class=`card mb-3`>" in
        let html := html ++ tpl "<div class=`card-header`>Nutrition Summary</div>" in
        let html := html ++ tpl "<div class=`card-body`>" in
        let html := html ++ tpl "<p><strong>Average Daily Calories:</strong> "
                      ++ ToString (average_daily_calories ns) ++ tpl "</p>" in
        let html := html ++ tpl "<p><strong>Days Tracked:</strong> "
                      ++ ToString (ns_days_tracked ns) ++ tpl "</p>" in
        let html :=
          match meal_frequency ns with
          | Some entries =>
              let html := html ++ tpl "<p><strong>Meal Frequency:</strong></p>" in
              let html := html ++ tpl "<ul>" in
              let html := fold_left append_meal entries html in
              html ++ tpl "</ul>"
          | None => html
          end in
        html ++ tpl "</div></div>"
      else html
  | None => html
  end.

Definition append_symptom (html : jstring) (entry : list value) : jstring :=
  html ++ tpl "<li>" ++ ToString (nth 0 entry VUndef) ++ tpl ": "
    ++ ToString (nth 1 entry VUndef) ++ tpl " occurrences</li>".

Definition append_time_pattern (html : jstring) (pattern : TimePattern) : jstring :=
  html ++ tpl "<li>" ++ ToString (tp_symptom pattern) ++ tpl " tends to occur in the "
    ++ ToString (tp_time pattern) ++ tpl "</li>".

Definition append_symptom_patterns (html : jstring) (data : HealthReport) : jstring :=
  match symptom_patterns data with
  | Some sp =>
      if is_str (sp_status sp) (lit "success") then
        let html := html ++ tpl "<div class=`card mb-3`>" in
        let html := html ++ tpl "<div class=`card-header`>Symptom Patterns</div>" in
        let html := html ++ tpl "<div class=`card-body`>" in
        let html :=
          match most_frequent_symptoms sp with
          | Some ((_ :: _) as entries) =>
              let html := html ++ tpl "<p><strong>Most Frequent Symptoms:</strong></p>" in
              let html := html ++ tpl "<ul>" in
              let html := fold_left append_symptom entries html in
              html ++ tpl "</ul>"
          | _ => html
          end in
        let html :=
          match time_patterns sp with
          | Some ((_ :: _) as patterns) =>
              let html := html ++ tpl "<p><strong>Time Patterns:</strong></p>" in
              let html := html ++ tpl "<ul>" in
              let html := fold_left append_time_pattern patterns html in
              html ++ tpl "</ul>"
          | _ => html
          end in
        html ++ tpl "</div></div>"
      else html
  | None => html
  end.

Definition append_recommendations (html : jstring) (data : HealthReport) : jstring :=
  match recommendations data with
  | Some ((_ :: _) as recs) =>
      let html := html ++ tpl "<div class=`card mb-3`>" in
      let html := html ++ tpl "<div class=`card-header`>Recommendations</div>" in
      let html := html ++ tpl "<div class=`card-body`>" in
      let html := html ++ tpl "<ul>" in
      let html := append_items html recs in
      let html := html ++ tpl "</ul>" in
      html ++ tpl "</div></div>"
  | _ => html
  end.

Definition renderHealthReport_html (data : HealthReport) : result jstring :=
  if is_str (hr_status data) (lit "success") then
    let html := tpl "<div class=`health-report`>" in
    letr html := append_user_info html data in
    letr html := append_summary html data in
    letr html := append_weight_analysis html data in
    let html := append_blood_pressure_analysis html data in
    let html := append_nutrition_summary html data in
    let html := append_symptom_patterns html data in
    let html := append_recommendations html data in
    Ok (html ++ tpl "</div>")
  else
    Ok (tpl "<div class=`alert alert-info`>" ++ ToString (hr_message data) ++ tpl "</div>").

Definition report_error_alert : jstring :=
  tpl "<div class=`alert alert-danger`>Error loading health report. Please try again later.</div>".

Definition loadHealthReport (w : world) : world :=
  fetch (apiBase ++ lit "/user/" ++ ToString (userId w) ++ lit "/health-report") w.

Definition loadHealthReport_settled (resp : result HealthReport) (w : world) : world :=
  match letr data := resp in renderHealthReport_html data with
  | Ok html => set_innerHTML "#health-report-container" html w
  | Throw _ => set_innerHTML "#health-report-container" report_error_alert w
  end.

(** **** Tabs, time range and forms ([init], [setupEventListeners]) *)

(** Identifiers of the elements of class [progress-tab], in document
    order; the page is assumed to hold the elements the handlers query. *)
Variable progressTabs : list jstring.

Definition set_activeTabs (tabs : gset jstring) (w : world) : world :=
  {| userId := userId w; currentDays := currentDays w; charts := charts w;
     innerHTML := innerHTML w;
     activeTabs := tabs; requests := requests w |}.

Definition set_userId (u : value) (w : world) : world :=
  {| userId := u; currentDays := currentDays w; charts := charts w;
     innerHTML := innerHTML w;
     activeTabs := activeTabs w; requests := requests w |}.

Definition set_currentDays (d : value) (w : world) : world :=
  {| userId := userId w; currentDays := d; charts := charts w;
     innerHTML := innerHTML w;
     activeTabs := activeTabs w; requests := requests w |}.

(** [document.querySelector('.progress-tab.active')]: the first tab, in
    document order, that carries the class. *)
Definition queryActiveTab (w : world) : option jstring :=
  find (fun id => bool_decide (id ∈ activeTabs w)) progressTabs.

(** The state object literal, on a page none of whose tabs is active. *)
Definition initial : world :=
  {| userId := VNull; currentDays := VNum 30; charts := ∅;
     innerHTML := ∅; activeTabs := ∅; requests := [] |}.

Definition init (user : value) (w : world) : world :=
  let w := set_userId user w in
  let w := loadWeightTrend w in
  set_activeTabs ({[ lit "weight-tab" ]} ∪ activeTabs w) w.

(** Click on a tab whose identifier is [tabId].  [loadGoalProgress] is
    not a member of the object: the call on the goals tab raises, which
    ends the handler. *)
Definition onTabClick (tabId : jstring) (w : world) : world :=
  let w := set_activeTabs ∅ w in
  let w := set_activeTabs
             (if bool_decide (tabId ∈ progressTabs) then {[ tabId ]} else ∅) w in
  if bool_decide (tabId = lit "weight-tab") then loadWeightTrend w
  else if bool_decide (tabId = lit "blood-pressure-tab") then loadBloodPressureTrend w
  else if bool_decide (tabId = lit "goals-tab") then w
  else if bool_decide (tabId = lit "report-tab") then loadHealthReport w
  else w.

(** Change of a time-range selector whose value parses to [days]. *)
Definition onTimeRangeChange (days : Z) (w : world) : world :=
  let w := set_currentDays (VNum days) w in
  match queryActiveTab w with
  | None => w
  | Some activeTab =>
      if bool_decide (activeTab = lit "weight-tab") then loadWeightTrend w
      else if bool_decide (activeTab = lit "blood-pressure-tab")
      then loadBloodPressureTrend w
      else w
  end.

(** Submission of the goal form; [None] is a target that does not parse
    to a number, which is refused before any request. *)
Definition onGoalFormSubmit (goalType : value) (targetValue : option Z) (w : world)
  : world :=
  match targetValue with
  | None => w
  | Some t => trackGoalProgress goalType (VNum t) w
  end.

(** [logProgress]: the POST, and the reload its success schedules. *)
Definition logProgress (w : world) : world :=
  fetch (apiBase ++ lit "/log") w.

Definition logProgress_settled (ok : bool) (w : world) : world :=
  if ok
  then set_innerHTML "#progress-log-message"
         (tpl "<div class=`alert alert-success`>Progress logged successfully!</div>") w
  else set_innerHTML "#progress-log-message"
         (tpl "<div class=`alert alert-danger`>Error logging progress. Please try again.</div>") w.

Definition logProgress_timeout (w : world) : world :=
  match queryActiveTab w with
  | None => w
  | Some activeTab =>
      let w :=
        if bool_decide (activeTab = lit "weight-tab") then loadWeightTrend w
        else if bool_decide (activeTab = lit "blood-pressure-tab")
        then loadBloodPressureTrend w
        else w in
      set_innerHTML "#progress-log-message" [] w
  end.

(** What can happen to the page after [init]. *)
Inductive event :=
| TabClick (tabId : jstring)
| TimeRangeChange (days : Z)
| GoalFormSubmit (goalType : value) (targetValue : option Z)
| LogFormSubmit
| WeightTrendSettled (resp : result WeightTrend)
| BloodPressureTrendSettled (resp : result BloodPressureTrend)
| GoalProgressSettled (resp : result GoalProgress)
| HealthReportSettled (resp : result HealthReport)
| LogProgressSettled (ok : bool)
| LogProgressTimeout.

Definition handle (w : world) (e : event) : world :=
  match e with
  | TabClick tabId => onTabClick tabId w
  | TimeRangeChange days => onTimeRangeChange days w
  | GoalFormSubmit goalType targetValue => onGoalFormSubmit goalType targetValue w
  | LogFormSubmit => logProgress w
  | WeightTrendSettled resp => loadWeightTrend_settled resp w
  | BloodPressureTrendSettled resp => loadBloodPressureTrend_settled resp w
  | GoalProgressSettled resp => trackGoalProgress_settled resp w
  | HealthReportSettled resp => loadHealthReport_settled resp w
  | LogProgressSettled ok => logProgress_settled ok w
  | LogProgressTimeout => logProgress_timeout w
  end.

(** The states the controller can be in: [init], then any events. *)
Definition reached (user : value) (events : list event) : world :=
  fold_left handle events (init user initial).

End Builtins.

End ProgressTracker.

(** ** The health consultation module *)

Module Consultation.

Record Correlation := {
  food : value;
  symptom : value;
  confidence : value;
  correlation_percentage : value;
  occurrences : value
}.

Record Correlations := {
  correlations : option (list Correlation)
}.

Record Tip := {
  importance : value;
  title : value;
  description : value
}.

(** A response body of the health-tips endpoint, and more generally an
    argument of [renderHealthTips]: an array of tip objects, or a
    primitive (a null body is [TipsOther VNull]). *)
Inductive tips :=
| TipsArray (items : list Tip)
| TipsOther (v : value).

(** A request awaiting its response, with the category it was made for. *)
Record page := {
  elements : gmap string jstring;
  healthTips : gmap jstring tips;
  fetched : list jstring;
  pending : list jstring
}.

Definition set_element (id : string) (h : jstring) (p : page) : page :=
  {| elements := <[id := h]> (elements p); healthTips := healthTips p;
     fetched := fetched p; pending := pending p |}.

Definition confidenceClassMap : list (jstring * jstring) :=
  [ (lit "low", lit "text-muted");
    (lit "medium", lit "text-warning");
    (lit "high", lit "text-danger") ].

(** The three indicator glyphs, by their code units in the source file. *)
Definition icon_low : jstring := [226; 353; 170].
Definition icon_medium : jstring := [240; 376; 376; 161].
Definition icon_high : jstring := [240; 376; 8221; 180].

Definition confidenceIconMap : list (jstring * jstring) :=
  [ (lit "low", icon_low);
    (lit "medium", icon_medium);
    (lit "high", icon_high) ].

Definition confidenceClass (c : value) : jstring :=
  ToString (or_else (lookup_literal confidenceClassMap c) (VStr (lit "text-muted"))).

Definition confidenceIcon (c : value) : jstring :=
  ToString (or_else (lookup_literal confidenceIconMap c) (VStr icon_low)).

Definition append_correlation (html : jstring) (corr : Correlation) : jstring :=
  html ++ tpl "
                <tr>
                    <td>" ++ ToString (food corr) ++ tpl "</td>
                    <td>" ++ ToString (symptom corr) ++ tpl "</td>
                    <td class=`" ++ confidenceClass (confidence corr) ++ tpl "`>" ++ confidenceIcon (confidence corr) ++ tpl " " ++ ToString (confidence corr) ++ tpl "</td>
                    <td>" ++ ToString (correlation_percentage corr) ++ tpl "% (" ++ ToString (occurrences corr) ++ tpl " occurrences)</td>
                </tr>
            ".

Definition correlations_table_open : jstring := tpl "
            <div class=`mb-3`>
                <p class=`text-muted`>The following food items may be associated with your symptoms:</p>
                <div class=`table-responsive`>
                    <table class=`table table-hover`>
                        <thead>
                            <tr>
                                <th>Food</th>
                                <th>Symptom</th>
                                <th>Confidence</th>
                                <th>Correlation</th>
                            </tr>
                        </thead>
                        <tbody>
        ".

Definition correlations_table_close : jstring := tpl "
                        </tbody>
                    </table>
                </div>
                <div class=`alert alert-info mt-3`>
                    <p class=`mb-0`><strong>Note:</strong> Correlation does not necessarily imply causation. These associations are based on your logged data and may require further investigation.</p>
                </div>
            </div>
        ".

Definition no_correlations_message : jstring := tpl "
            <div class=`alert alert-info`>
                <p class=`mb-0`>No significant food-symptom correlations found. Continue logging your meals and symptoms for more insights.</p>
            </div>
        ".

Definition renderCorrelations_html (data : Correlations) : jstring :=
  let html := [] in
  match correlations data with
  | Some ((_ :: _) as entries) =>
      let html := html ++ correlations_table_open in
      let html := fold_left append_correlation entries html in
      html ++ correlations_table_close
  | _ => no_correlations_message
  end.

(** [renderCorrelations(data)]; [None] is a null payload. *)
Definition renderCorrelations (data : option Correlations) (p : page) : page :=
  match elements p !! "correlations-content"%string, data with
  | Some _, Some data =>
      set_element "correlations-content" (renderCorrelations_html data) p
  | _, _ => p
  end.

(** **** Health tips *)

Definition importanceClassMap : list (jstring * jstring) :=
  [ (lit "high", lit "text-danger");
    (lit "medium", lit "text-warning");
    (lit "low", lit "text-muted") ].

Definition importanceClass (i : value) : jstring :=
  ToString (or_else (lookup_literal importanceClassMap i) (VStr (lit "text-muted"))).

Definition star : jstring := [226; 732; 8230; 32].

Definition append_tip (html : jstring) (entry : nat * Tip) : jstring :=
  let '(index, tip) := entry in
  let idx := decimal (Z.of_nat index) in
  html ++ tpl "
            <div class=`accordion-item`>
                <h2 class=`accordion-header` id=`heading" ++ idx ++ tpl "`>
                    <button class=`accordion-button " ++ (if Nat.ltb 0 index then lit "collapsed" else []) ++ tpl "` type=`button` data-bs-toggle=`collapse` data-bs-target=`#collapse" ++ idx ++ tpl "` aria-expanded=`" ++ (if Nat.eqb index 0 then lit "true" else lit "false") ++ tpl "` aria-controls=`collapse" ++ idx ++ tpl "`>
                        <span class=`" ++ importanceClass (importance tip) ++ tpl "`>" ++ (if is_str (importance tip) (lit "high") then star else []) ++ ToString (title tip) ++ tpl "</span>
                    </button>
                </h2>
                <div id=`collapse" ++ idx ++ tpl "` class=`accordion-collapse collapse " ++ (if Nat.eqb index 0 then lit "show" else []) ++ tpl "` aria-labelledby=`heading" ++ idx ++ tpl "` data-bs-parent=`#healthTipsAccordion`>
                    <div class=`accordion-body`>
                        " ++ ToString (description tip) ++ tpl "
                    </div>
                </div>
            </div>
        ".

(** [!tips]. *)
Definition tips_truthy (t : tips) : bool :=
  match t with
  | TipsArray _ => true
  | TipsOther v => truthy v
  end.

(** [tips.length === 0]. *)
Definition tips_length_is_zero (t : tips) : bool :=
  match t with
  | TipsArray items => Nat.eqb (length items) 0
  | TipsOther (VStr s) => Nat.eqb (length s) 0
  | TipsOther (VFun _ arity) => Z.eqb arity 0
  | TipsOther _ => false
  end.

Definition no_tips_message : jstring :=
  tpl "<p class=`text-muted`>No health tips available for this category.</p>".

(** [renderHealthTips(tips)]; only an array has [forEach]. *)
Definition renderHealthTips (t : tips) (p : page) : result page :=
  match elements p !! "health-tips-content"%string with
  | None => Ok p
  | Some _ =>
      if negb (tips_truthy t) then Ok p
      else if tips_length_is_zero t
      then Ok (set_element "health-tips-content" no_tips_message p)
      else
        let html := tpl "<div class=`accordion` id=`healthTipsAccordion`>" in
        match t with
        | TipsArray items =>
            let html := fold_left append_tip (zip (seq 0 (length items)) items) html in
            let html := html ++ tpl "</div>" in
            Ok (set_element "health-tips-content" html p)
        | TipsOther _ => Throw TypeError
        end
  end.

(** [STATE.healthTips[category]]: an own property, else what the empty
    object literal inherits. *)
Definition cached (p : page) (category : jstring) : tips :=
  match healthTips p !! category with
  | Some t => t
  | None =>
      match object_prototype_member category with
      | Some m => TipsOther m
      | None => TipsOther VUndef
      end
  end.

Definition tips_loading : jstring := tpl "
        <div class=`text-center`>
            <div class=`spinner-border text-success` role=`status`>
                <span class=`visually-hidden`>Loading...</span>
            </div>
            <p>Loading health tips...</p>
        </div>
    ".

Definition tips_error : jstring := tpl "
            <div class=`alert alert-danger`>
                <p>Unable to load health tips. Please try again later.</p>
            </div>
        ".

Definition HEALTH_TIPS : jstring := lit "/consultation/health-tips/".

(** [loadHealthTips(category)] up to its first [await]: either served
    from the cache, or a request is issued and left pending. *)
Definition loadHealthTips (category : jstring) (p : page) : page :=
  match elements p !! "health-tips-content"%string with
  | None => p
  | Some _ =>
      if tips_truthy (cached p category) then
        match renderHealthTips (cached p category) p with
        | Ok p => p
        | Throw _ => p
        end
      else
        let p := set_element "health-tips-content" tips_loading p in
        {| elements := elements p; healthTips := healthTips p;
           fetched := fetched p ++ [HEALTH_TIPS ++ category];
           pending := pending p ++ [category] |}
  end.

(** The rest of [loadHealthTips] for the pending request number [i],
    once its response arrived: [Ok body] for a response that is [ok]
    and parses, [Throw] otherwise. *)
Definition loadHealthTips_settled (i : nat) (resp : result tips) (p : page) : page :=
  match pending p !! i with
  | None => p
  | Some category =>
      let p := {| elements := elements p; healthTips := healthTips p;
                  fetched := fetched p; pending := delete i (pending p) |} in
      match resp with
      | Ok data =>
          let p := {| elements := elements p;
                      healthTips := <[category := data]> (healthTips p);
                      fetched := fetched p; pending := pending p |} in
          match renderHealthTips data p with
          | Ok p => p
          | Throw _ => set_element "health-tips-content" tips_error p
          end
      | Throw _ => set_element "health-tips-content" tips_error p
      end
  end.

Inductive event :=
| LoadHealthTips (category : jstring)
| HealthTipsSettled (i : nat) (resp : result tips).

Definition handle (p : page) (e : event) : page :=
  match e with
  | LoadHealthTips category => loadHealthTips category p
  | HealthTipsSettled i resp => loadHealthTips_settled i resp p
  end.

(** A page holding the health-tips element, before any request. *)
Definition initial : page :=
  {| elements := {[ "health-tips-content"%string := [] ]};
     healthTips := ∅; fetched := []; pending := [] |}.

Definition run (events : list event) : page := fold_left handle events initial.

(** Number of requests issued so far for a category. *)
Definition fetches (category : jstring) (p : page) : nat :=
  length (filter (fun url => url = HEALTH_TIPS ++ category) (fetched p)).

(** **** [formatKey] *)

(** [\w]: an ASCII letter, digit or underscore. *)
Definition word_unit (u : N) : bool :=
  ((48 <=? u) && (u <=? 57)) || ((65 <=? u) && (u <=? 90))
  || ((97 <=? u) && (u <=? 122)) || (u =? 95).

(** [l.toUpperCase()] for [l] a single unit of [\w]. *)
Definition upper_unit (u : N) : N :=
  if (97 <=? u) && (u <=? 122) then u - 32 else u.

(** [.replace(/_/g, ' ')]. *)
Definition underscores_to_spaces (s : jstring) : jstring :=
  map (fun u => if u =? 95 then 32 else u) s.

(** [.replace(/\b\w/g, l => l.toUpperCase())]: a word boundary precedes
    a unit of [\w] exactly when the unit before it (if any) is not of
    [\w]; [after_word] tells whether the previous unit was. *)
Fixpoint capitalize_words (after_word : bool) (s : jstring) : jstring :=
  match s with
  | [] => []
  | u :: s' =>
      (if word_unit u && negb after_word then upper_unit u else u)
      :: capitalize_words (word_unit u) s'
  end.

Definition formatKey (key : jstring) : jstring :=
  capitalize_words false (underscores_to_spaces key).

End Consultation.

(** ** The response formatter ([formatResponse]) *)

Module Formatter.

(** *** The regular expressions of the formatter

    Each is a sequence of single-unit classes, taken once, lazily any
    number of times ([*?]) or greedily at least once ([+]).  A match
    reports the text each class consumed, from which the capture groups
    are read. *)

Inductive quantifier := Once | LazyStar | GreedyPlus.

Record atom := {
  accepts : N -> bool;
  quant : quantifier
}.

Definition regex := list atom.

Definition is_unit (c u : N) : bool := N.eqb u c.

(** Line terminators, which [.] does not match. *)
Definition line_terminator (u : N) : bool :=
  N.eqb u 10 || N.eqb u 13 || N.eqb u 8232 || N.eqb u 8233.

Definition dot (u : N) : bool := negb (line_terminator u).

(** [\s]: white space and line terminators. *)
Definition white_space (u : N) : bool :=
  N.eqb u 9 || N.eqb u 10 || N.eqb u 11 || N.eqb u 12 || N.eqb u 13
  || N.eqb u 32 || N.eqb u 160 || N.eqb u 5760
  || (N.leb 8192 u && N.leb u 8202)
  || N.eqb u 8232 || N.eqb u 8233 || N.eqb u 8239 || N.eqb u 8287
  || N.eqb u 12288 || N.eqb u 65279.

(** [\d]. *)
Definition digit (u : N) : bool := N.leb 48 u && N.leb u 57.

(** [[^...]]. *)
Definition none_of (cs : list N) (u : N) : bool := negb (existsb (N.eqb u) cs).

Definition one (p : N -> bool) : atom := {| accepts := p; quant := Once |}.
Definition lazy_star (p : N -> bool) : atom := {| accepts := p; quant := LazyStar |}.
Definition greedy_plus (p : N -> bool) : atom := {| accepts := p; quant := GreedyPlus |}.

Definition star_ : N := 42.
Definition hash_ : N := 35.
Definition newline : N := 10.
Definition lt_ : N := 60.
Definition gt_ : N := 62.
Definition period : N := 46.

Definition matched := (list jstring * jstring)%type.

Definition skip_atom (m : matched) : matched := ([] :: fst m, snd m).

Definition take_unit (u : N) (m : matched) : matched :=
  match fst m with
  | seg :: segs => ((u :: seg) :: segs, snd m)
  | [] => ([[u]], snd m)
  end.

(** A lazy star of class [p] followed by the rest of the expression
    [k]: first try to stop, then to take one more unit. *)
Fixpoint lazy_loop (p : N -> bool) (k : jstring -> option matched) (s : jstring)
  : option matched :=
  match k s with
  | Some m => Some (skip_atom m)
  | None =>
      match s with
      | u :: s' => if p u then take_unit u <$> lazy_loop p k s' else None
      | [] => None
      end
  end.

(** A greedy repetition of class [p] followed by the rest [k]: first
    try to take one more unit, then to stop. *)
Fixpoint greedy_loop (p : N -> bool) (k : jstring -> option matched) (s : jstring)
  : option matched :=
  match
    match s with
    | u :: s' => if p u then take_unit u <$> greedy_loop p k s' else None
    | [] => None
    end
  with
  | Some m => Some m
  | None => skip_atom <$> k s
  end.

(** Backtracking match of [r] at the start of [s], with the priorities
    of the language.  Returns the text consumed by each atom and the
    text left over. *)
Fixpoint match_here (r : regex) (s : jstring) : option matched :=
  match r with
  | [] => Some ([], s)
  | a :: r' =>
      match quant a with
      | Once =>
          match s with
          | u :: s' =>
              if accepts a u
              then take_unit u <$> (skip_atom <$> match_here r' s')
              else None
          | [] => None
          end
      | LazyStar => lazy_loop (accepts a) (match_here r') s
      | GreedyPlus =>
          match s with
          | u :: s' =>
              if accepts a u
              then take_unit u <$> greedy_loop (accepts a) (match_here r') s'
              else None
          | [] => None
          end
      end
  end.

(** Text consumed by atom number [i]. *)
Definition seg (i : nat) (segs : list jstring) : jstring := nth i segs [].

(** [s.replace(/r/g, ...)]: matches are sought left to right and do not
    overlap; [skip] counts the units of the current match still to be
    passed over.  (No expression of the formatter matches the empty
    string.) *)
Fixpoint replace_from (r : regex) (by_ : list jstring -> jstring) (skip : nat)
  (s : jstring) : jstring :=
  match s with
  | [] => []
  | u :: s' =>
      match skip with
      | S k => replace_from r by_ k s'
      | O =>
          match match_here r s with
          | Some (segs, rest) =>
              by_ segs ++ replace_from r by_ (length s - length rest - 1) s'
          | None => u :: replace_from r by_ 0 s'
          end
      end
  end.

Definition replace (r : regex) (by_ : list jstring -> jstring) (s : jstring) : jstring :=
  replace_from r by_ 0 s.

(** [/\*\*(.*?)\*\*/g] *)
Definition bold : regex :=
  [one (is_unit star_); one (is_unit star_); lazy_star dot;
   one (is_unit star_); one (is_unit star_)].

(** [/\*\s(.*?)\n/g] *)
Definition bullet : regex :=
  [one (is_unit star_); one white_space; lazy_star dot; one (is_unit newline)].

(** [/###\s(.*?)\n/g], [/##\s(.*?)\n/g], [/#\s(.*?)\n/g] *)
Definition heading3 : regex :=
  [one (is_unit hash_); one (is_unit hash_); one (is_unit hash_); one white_space;
   lazy_star dot; one (is_unit newline)].
Definition heading2 : regex :=
  [one (is_unit hash_); one (is_unit hash_); one white_space;
   lazy_star dot; one (is_unit newline)].
Definition heading1 : regex :=
  [one (is_unit hash_); one white_space; lazy_star dot; one (is_unit newline)].

(** [/(\d+)\.\s(.*?)\n/g] *)
Definition numbered : regex :=
  [greedy_plus digit; one (is_unit period); one white_space; lazy_star dot;
   one (is_unit newline)].

(** [/([^\n<>][^\n<>]*?)\n\n/g] *)
Definition paragraph : regex :=
  [one (none_of [newline; lt_; gt_]); lazy_star (none_of [newline; lt_; gt_]);
   one (is_unit newline); one (is_unit newline)].

(** [/\n\n/g] *)
Definition double_break : regex := [one (is_unit newline); one (is_unit newline)].

(** [/([^>])\n([^<])/g] *)
Definition single_break : regex :=
  [one (none_of [gt_]); one (is_unit newline); one (none_of [lt_])].

(** The bullet glyph of the replacement text (U+2022). *)
Definition bullet_glyph : jstring := [8226].

(** The last three replacements: paragraphs and line breaks. *)
Definition collapseBreaks (text : jstring) : jstring :=
  let text := replace paragraph
                (fun g => lit "<p>" ++ seg 0 g ++ seg 1 g ++ lit "</p>") text in
  let text := replace double_break (fun _ => []) text in
  let text := replace single_break (fun g => seg 0 g ++ lit " " ++ seg 2 g) text in
  text.

(** The first six replacements: bold, bullets, headings, numbered lists. *)
Definition applyMarkers (text : jstring) : jstring :=
  let text := replace bold (fun g => lit "<strong>" ++ seg 2 g ++ lit "</strong>") text in
  let text := replace bullet
                (fun g => lit "<p>" ++ bullet_glyph ++ lit " " ++ seg 2 g ++ lit "</p>") text in
  let text := replace heading3 (fun g => lit "<h3>" ++ seg 4 g ++ lit "</h3>") text in
  let text := replace heading2 (fun g => lit "<h2>" ++ seg 3 g ++ lit "</h2>") text in
  let text := replace heading1 (fun g => lit "<h1>" ++ seg 2 g ++ lit "</h1>") text in
  let text := replace numbered
                (fun g => lit "<p>" ++ seg 0 g ++ lit ". " ++ seg 3 g ++ lit "</p>") text in
  text.

Definition formatResponse (text : jstring) : jstring :=
  collapseBreaks (applyMarkers text).

End Formatter.

(** ** The client-side session module ([auth.js]) *)

Module Auth.

(** *** [btoa] and [atob] *)

(** The Base64 alphabet: the character of a sextet, and back. *)
Definition b64_char (n : N) : N :=
  if n <? 26 then 65 + n
  else if n <? 52 then 97 + (n - 26)
  else if n <? 62 then 48 + (n - 52)
  else if n =? 62 then 43
  else 47.

Definition b64_index (c : N) : option N :=
  if (65 <=? c) && (c <=? 90) then Some (c - 65)
  else if (97 <=? c) && (c <=? 122) then Some (c - 97 + 26)
  else if (48 <=? c) && (c <=? 57) then Some (c - 48 + 52)
  else if c =? 43 then Some 62
  else if c =? 47 then Some 63
  else None.

Definition pad : N := 61.

Fixpoint b64_encode (bytes : list N) : jstring :=
  match bytes with
  | [] => []
  | [a] =>
      [b64_char (a / 4); b64_char (a mod 4 * 16); pad; pad]
  | [a; b] =>
      [b64_char (a / 4); b64_char (a mod 4 * 16 + b / 16);
       b64_char (b mod 16 * 4); pad]
  | a :: b :: c :: rest =>
      [b64_char (a / 4); b64_char (a mod 4 * 16 + b / 16);
       b64_char (b mod 16 * 4 + c / 64); b64_char (c mod 64)]
      ++ b64_encode rest
  end.

(** [btoa]: refuses a string with a code unit above 255. *)
Definition btoa (s : jstring) : result jstring :=
  if forallb (fun u => u <=? 255) s then Ok (b64_encode s)
  else Throw InvalidCharacterError.

Definition ascii_whitespace (u : N) : bool :=
  (u =? 9) || (u =? 10) || (u =? 12) || (u =? 13) || (u =? 32).

(** If the data ends with one or two [=], remove them. *)
Definition strip_padding (data : jstring) : jstring :=
  match rev data with
  | a :: r =>
      if a =? pad then
        match r with
        | b :: r' => if b =? pad then rev r' else rev r
        | [] => rev r
        end
      else data
  | [] => data
  end.

Fixpoint b64_decode (sextets : list N) : list N :=
  match sextets with
  | s1 :: s2 :: s3 :: s4 :: rest =>
      [s1 * 4 + s2 / 16; s2 mod 16 * 16 + s3 / 4; s3 mod 4 * 64 + s4]
      ++ b64_decode rest
  | [s1; s2; s3] => [s1 * 4 + s2 / 16; s2 mod 16 * 16 + s3 / 4]
  | [s1; s2] => [s1 * 4 + s2 / 16]
  | _ => []
  end.

Fixpoint sextets_of (data : jstring) : option (list N) :=
  match data with
  | [] => Some []
  | c :: rest =>
      match b64_index c, sextets_of rest with
      | Some n, Some ns => Some (n :: ns)
      | _, _ => None
      end
  end.

(** [atob]: the forgiving Base64 decoding of the HTML standard. *)
Definition atob (data : jstring) : result jstring :=
  let data := filter (fun u => negb (ascii_whitespace u) = true) data in
  let data := if (length data mod 4 =? 0)%nat then strip_padding data else data in
  if (length data mod 4 =? 1)%nat then Throw InvalidCharacterError
  else
    match sextets_of data with
    | Some ns => Ok (b64_decode ns)
    | None => Throw InvalidCharacterError
    end.

(** *** [encrypt] and [decrypt] *)

(** [secretKey.charCodeAt(i % secretKey.length)], as [^] reads it: a
    position outside the key gives NaN, which [^] takes as 0. *)
Definition key_unit (secretKey : jstring) (i : nat) : N :=
  match secretKey !! (i mod length secretKey)%nat with
  | Some k => k
  | None => 0
  end.

(** [String.fromCharCode]. *)
Definition fromCharCode (n : N) : N := n mod 65536.

Definition xor_units (text secretKey : jstring) : jstring :=
  imap (fun i u => fromCharCode (N.lxor u (key_unit secretKey i))) text.

Definition encrypt (text secretKey : jstring) : result jstring :=
  btoa (xor_units text secretKey).

(** [decrypt] catches what [atob] raises and returns null ([None]). *)
Definition decrypt (encoded secretKey : jstring) : option jstring :=
  match atob encoded with
  | Ok text => Some (xor_units text secretKey)
  | Throw _ => None
  end.

(** *** The [Auth] class *)

Definition AUTH_TOKEN_KEY : jstring := lit "healthsync_auth_token".
Definition USER_DATA_KEY : jstring := lit "healthsync_user_data".
Definition SECRET_KEY : jstring := lit "healthsync_secure_key_2023".

Section Session.

(** [JSON.parse] is left abstract: parsed values other than null are
    elements of [json], null is [None]. *)
Variable json : Type.
Variable JSON_parse : jstring -> result (option json).

Record session := {
  localStorage : gmap jstring jstring;
  isAuthenticated : bool;
  currentUser : option json
}.

(** [JSON.parse(x)] for [x] a string or null: the argument is first
    converted to a string. *)
Definition JSON_parse_arg (x : option jstring) : result (option json) :=
  match x with
  | Some s => JSON_parse s
  | None => JSON_parse (lit "null")
  end.

Definition logout (a : session) : session :=
  {| localStorage := delete USER_DATA_KEY (delete AUTH_TOKEN_KEY (localStorage a));
     isAuthenticated := false;
     currentUser := None |}.

(** [token && userData] holds when both items exist and neither is the
    empty string. *)
Definition checkAuth (a : session) : bool * session :=
  let token := localStorage a !! AUTH_TOKEN_KEY in
  let userData := localStorage a !! USER_DATA_KEY in
  match token, userData with
  | Some (_ :: _), Some ((_ :: _) as userData) =>
      match JSON_parse_arg (decrypt userData SECRET_KEY) with
      | Ok user =>
          (true, {| localStorage := localStorage a;
                    isAuthenticated := true;
                    currentUser := user |})
      | Throw _ => (false, logout a)
      end
  | _, _ => (false, a)
  end.

(** [getAllUsers]: the stored user list, the empty array when the item
    is missing or empty or when parsing raises. *)
Variable empty_array : json.

Definition USERS_KEY : jstring := lit "healthsync_users".

Definition getAllUsers (a : session) : option json :=
  match localStorage a !! USERS_KEY with
  | Some ((_ :: _) as usersData) =>
      match JSON_parse_arg (decrypt usersData SECRET_KEY) with
      | Ok users => users
      | Throw _ => Some empty_array
      end
  | _ => Some empty_array
  end.

End Session.

End Auth.

(** ** Reference definitions used by the statements below *)

Module Reference.
Import ProgressTracker.

(** *** Pieces of markup named by the statements *)

(** A decimal digit or the minus sign. *)
Definition digit_or_minus (u : N) : Prop := (48 <= u <= 57) \/ u = 45.

(** The informational notice shown for a failed analysis. *)
Definition notice (message : value) : jstring :=
  tpl "<div class=`alert alert-info`>" ++ ToString message ++ tpl "</div>".

(** An insights card holding a message and nothing else. *)
Definition message_card (heading : string) (message : value) : jstring :=
  tpl "<div class=`card`>" ++ tpl "<div class=`card-header`>" ++ lit heading
  ++ tpl "</div>" ++ tpl "<div class=`card-body`>"
  ++ tpl "<p>" ++ ToString message ++ tpl "</p>" ++ tpl "</div></div>".

(** One list item. *)
Definition list_item (x : value) : jstring :=
  tpl "<li>" ++ ToString x ++ tpl "</li>".

(** The percentage clamped into [0,100], and a payload with its
    percentage replaced. *)
Definition clamp (p : Z) : Z := Z.max 0 (Z.min 100 p).

Definition with_percentage (p : value) (data : GoalProgress) : GoalProgress :=
  {| gp_status := gp_status data; gp_message := gp_message data;
     goal_type := goal_type data; target_value := target_value data;
     initial_value := initial_value data; current_value := current_value data;
     progress_percentage := p; gp_insights := gp_insights data |}.

(** Markup of a successful goal card before and after the progress bar. *)
Definition goal_card_head (data : GoalProgress) : jstring :=
  tpl "<div class=`card`>" ++ tpl "<div class=`card-header`>Goal Progress</div>"
  ++ tpl "<div class=`card-body`>"
  ++ tpl "<p><strong>Goal Type:</strong> " ++ goalTypeLabel (goal_type data) ++ tpl "</p>"
  ++ tpl "<p><strong>Target Value:</strong> " ++ ToString (target_value data) ++ tpl "</p>"
  ++ tpl "<p><strong>Initial Value:</strong> " ++ ToString (initial_value data) ++ tpl "</p>"
  ++ tpl "<p><strong>Current Value:</strong> " ++ ToString (current_value data) ++ tpl "</p>".

Definition goal_card_tail (data : GoalProgress) : jstring :=
  tpl "<p class=`mt-2`></p>" ++ append_insights [] (gp_insights data)
  ++ tpl "</div></div>".

(** Whether a number lies in [0,100]; [VDec] is compared exactly, as
    the fraction it stands for. *)
Definition in_range (v : value) : bool :=
  match v with
  | VNum p => ((0 <=? p) && (p <=? 100))%Z
  | VDec negative s n =>
      let k := Z.of_nat (length (decimal (Z.pos s))) in
      negb negative
      && (Z.pos s * 10 ^ Z.max 0 (n - k) <=? 100 * 10 ^ Z.max 0 (k - n))%Z
  | _ => false
  end.

(** A number clamped into [0,100]. *)
Definition clamp_number (v : value) : value :=
  match v with
  | VNum p => VNum (clamp p)
  | VDec negative _ _ => if in_range v then v else VNum (if negative then 0 else 100)
  | VInf negative => VNum (if negative then 0 else 100)
  | _ => v
  end.

(** The visible label of the progress bar, on the text shown as the
    percentage. *)
Definition progress_label (shown : jstring) : jstring := shown ++ tpl "%".

Definition progress_bar (shown : jstring) : jstring :=
  tpl "<div class=`progress` style=`height: 25px;`>"
  ++ tpl "<div class=`progress-bar` role=`progressbar` style=`width: "
  ++ shown ++ tpl "%` "
  ++ tpl "aria-valuenow=`" ++ shown ++ tpl "` aria-valuemin=`0` aria-valuemax=`100`>"
  ++ progress_label shown ++ tpl "</div></div>".

Definition goal_payload_150 : GoalProgress :=
  {| gp_status := VStr (lit "success"); gp_message := VUndef;
     goal_type := VStr (lit "weight"); target_value := VNum 70;
     initial_value := VNum 80; current_value := VNum 65;
     progress_percentage := VNum 150; gp_insights := Some [] |}.


(** *** The report, as the specification words it: seven sections in a
    fixed order, each emitted when its data is there. *)

Inductive section_id :=
| UserInformation
| ReportSummary
| WeightAnalysisCard
| BloodPressureAnalysisCard
| NutritionSummaryCard
| SymptomPatternsCard
| RecommendationsCard.

Definition report_order : list section_id :=
  [ UserInformation; ReportSummary; WeightAnalysisCard; BloodPressureAnalysisCard;
    NutritionSummaryCard; SymptomPatternsCard; RecommendationsCard ].

Definition section_title (id : section_id) : jstring :=
  match id with
  | UserInformation => lit "User Information"
  | ReportSummary => lit "Summary"
  | WeightAnalysisCard => lit "Weight Analysis"
  | BloodPressureAnalysisCard => lit "Blood Pressure Analysis"
  | NutritionSummaryCard => lit "Nutrition Summary"
  | SymptomPatternsCard => lit "Symptom Patterns"
  | RecommendationsCard => lit "Recommendations"
  end.

(** Identity and summary always; the analyses if present; nutrition and
    symptoms if present and their own status is 'success';
    recommendations if non-empty. *)
Definition section_due (data : HealthReport) (id : section_id) : bool :=
  match id with
  | UserInformation | ReportSummary => true
  | WeightAnalysisCard => bool_decide (is_Some (weight_analysis data))
  | BloodPressureAnalysisCard => bool_decide (is_Some (blood_pressure_analysis data))
  | NutritionSummaryCard =>
      match nutrition_summary data with
      | Some ns => bool_decide (ns_status ns = VStr (lit "success"))
      | None => false
      end
  | SymptomPatternsCard =>
      match symptom_patterns data with
      | Some sp => bool_decide (sp_status sp = VStr (lit "success"))
      | None => false
      end
  | RecommendationsCard =>
      match recommendations data with
      | Some recs => bool_decide (recs <> [])
      | None => false
      end
  end.

(** Opening of a card with the given title. *)
Definition card_open (title_ : jstring) : jstring :=
  tpl "<div class=`card mb-3`>" ++ tpl "<div class=`card-header`>" ++ title_
  ++ tpl "</div>".

(** Concatenation of markups, raising if one of them raises. *)
Fixpoint collect (cards : list (result jstring)) : result jstring :=
  match cards with
  | [] => Ok []
  | c :: rest =>
      letr a := c in
      letr b := collect rest in
      Ok (a ++ b)
  end.

(** The payload has what the renderer reads without a guard. *)
Definition report_well_formed (data : HealthReport) : bool :=
  match user_info data, summary data with
  | Some _, Some sm =>
      match metrics_tracked sm with
      | Some _ =>
          match weight_analysis data with
          | Some wa => match wa_trend wa with VStr _ => true | _ => false end
          | None => true
          end
      | None => false
      end
  | _, _ => false
  end.

Section Cards.

Variable toLocaleDateString : value -> jstring.
Variable toUpperCase : jstring -> jstring.

(** The markup of one section: what its block of the renderer adds to
    an empty accumulator. *)
Definition section_card (data : HealthReport) (id : section_id) : result jstring :=
  match id with
  | UserInformation => append_user_info [] data
  | ReportSummary => append_summary toLocaleDateString [] data
  | WeightAnalysisCard => append_weight_analysis toUpperCase [] data
  | BloodPressureAnalysisCard => Ok (append_blood_pressure_analysis [] data)
  | NutritionSummaryCard => Ok (append_nutrition_summary toUpperCase [] data)
  | SymptomPatternsCard => Ok (append_symptom_patterns [] data)
  | RecommendationsCard => Ok (append_recommendations [] data)
  end.

Definition report_spec (data : HealthReport) : result jstring :=
  letr cards := collect (map (section_card data) (filter (section_due data) report_order)) in
  Ok (tpl "<div class=`health-report`>" ++ cards ++ tpl "</div>").

End Cards.

(** *** The correlation table *)










(** Whether [pat] occurs in [s]. *)
Fixpoint starts_with (pat s : jstring) : bool :=
  match pat, s with
  | [], _ => true
  | a :: pat', b :: s' => N.eqb a b && starts_with pat' s'
  | _ :: _, [] => false
  end.

Fixpoint occurs (pat s : jstring) : bool :=
  starts_with pat s ||
  match s with
  | [] => false
  | _ :: s' => occurs pat s'
  end.




(** *** Sample runs of the health-tips loader *)

Definition tips_a : Consultation.tips :=
  Consultation.TipsArray
    [ {| Consultation.importance := VStr (lit "high");
         Consultation.title := VStr (lit "Drink water");
         Consultation.description := VStr (lit "Eight glasses a day.") |} ].

Definition tips_b : Consultation.tips := Consultation.TipsArray [].

(** Two loads of one category before the first response arrives. *)
Definition overlapping_loads : list Consultation.event :=
  [ Consultation.LoadHealthTips (lit "nutrition");
    Consultation.LoadHealthTips (lit "nutrition");
    Consultation.HealthTipsSettled 0 (Ok tips_a);
    Consultation.HealthTipsSettled 0 (Ok tips_b) ].

(** *** Base64: the sextets and the padding of an encoding *)

Fixpoint b64_sextets (bytes : list N) : list N :=
  match bytes with
  | [] => []
  | [a] => [a / 4; a mod 4 * 16]
  | [a; b] => [a / 4; a mod 4 * 16 + b / 16; b mod 16 * 4]
  | a :: b :: c :: rest =>
      [a / 4; a mod 4 * 16 + b / 16; b mod 16 * 4 + c / 64; c mod 64]
      ++ b64_sextets rest
  end.

Fixpoint b64_padding (bytes : list N) : jstring :=
  match bytes with
  | [] => []
  | [_] => [Auth.pad; Auth.pad]
  | [_; _] => [Auth.pad]
  | _ :: _ :: _ :: rest => b64_padding rest
  end.

(** *** Sessions *)

(** Whether [atob] accepts a string. *)
Definition valid_base64 (s : jstring) : bool :=
  match Auth.atob s with
  | Ok _ => true
  | Throw _ => false
  end.

(** A stand-in for [JSON.parse] that knows the literal null only, for
    runs in which nothing else is parsed. *)
Definition parse_null_only (s : jstring) : result (option Empty_set) :=
  if bool_decide (s = lit "null") then Ok None else Throw SyntaxError.

(** Storage with an empty token and user data that is not Base64. *)
Definition empty_token_session : Auth.session Empty_set :=
  {| Auth.localStorage :=
       <[Auth.AUTH_TOKEN_KEY := []]> (<[Auth.USER_DATA_KEY := lit "!"]> ∅);
     Auth.isAuthenticated := false;
     Auth.currentUser := None |}.

(** Storage with a token and user data that is not Base64. *)
Definition tampered_session : Auth.session Empty_set :=
  {| Auth.localStorage :=
       <[Auth.AUTH_TOKEN_KEY := lit "k3q9"]> (<[Auth.USER_DATA_KEY := lit "!"]> ∅);
     Auth.isAuthenticated := false;
     Auth.currentUser := None |}.

(** *** Markdown markers *)

(** A marker starts here: [**], [*] or [#] before white space, or a
    digit before a period and white space. *)
Definition marker_at (t : jstring) : bool :=
  match t with
  | a :: b :: rest =>
      (N.eqb a Formatter.star_ && (N.eqb b Formatter.star_ || Formatter.white_space b))
      || (N.eqb a Formatter.hash_ && Formatter.white_space b)
      || (Formatter.digit a && N.eqb b Formatter.period
          && match rest with
             | c :: _ => Formatter.white_space c
             | [] => false
             end)
  | _ => false
  end.

Fixpoint marker_free (s : jstring) : bool :=
  match s with
  | [] => true
  | _ :: s' => negb (marker_at s) && marker_free s'
  end.

Definition no_line_break (s : jstring) : bool :=
  forallb (fun u => negb (N.eqb u Formatter.newline)) s.

(** A numbered item followed by an empty line. *)
Definition numbered_item : jstring :=
  lit "1. x" ++ [Formatter.newline; Formatter.newline].

(** Bold text, a lone marker and an unclosed marker on one line. *)
Definition bold_line : jstring := lit "**a** * b **c".

(** Two asterisks at the start of a text. *)
Definition two_stars_at (t : jstring) : bool :=
  match t with
  | a :: b :: _ => N.eqb a Formatter.star_ && N.eqb b Formatter.star_
  | _ => false
  end.

(** No match of the expression starts anywhere in the text. *)
Fixpoint unmatched (r : Formatter.regex) (t : jstring) : Prop :=
  Formatter.match_here r t = None
  /\ match t with
     | [] => True
     | _ :: t' => unmatched r t'
     end.

(** *** Sample payloads and stand-ins for the abstract built-ins *)

(** ASCII-only upper-casing, and dates printed as received. *)
Definition upper_ascii (s : jstring) : jstring :=
  map (fun u => if (97 <=? u) && (u <=? 122) then u - 32 else u) s.

Definition plain_date (v : value) : jstring := ToString v.

Definition four_tabs : list jstring :=
  [lit "weight-tab"; lit "blood-pressure-tab"; lit "goals-tab"; lit "report-tab"].

Definition failed_weight : WeightTrend :=
  {| wt_status := VStr (lit "insufficient_data");
     wt_message := VStr (lit "Not enough weight data");
     first_measurement := None; latest_measurement := None;
     total_change_kg := VUndef; percent_change := VUndef;
     weekly_change_rate_kg := VUndef; wt_trend := VUndef; wt_insights := None |}.

Definition failed_pressure : BloodPressureTrend :=
  {| bp_status := VStr (lit "insufficient_data");
     bp_message := VStr (lit "Not enough blood pressure data");
     average_systolic := VUndef; average_diastolic := VUndef;
     min_systolic := VUndef; min_diastolic := VUndef;
     max_systolic := VUndef; max_diastolic := VUndef;
     category := VUndef; data_points := VUndef; bp_insights := None |}.

(** A successful reading whose category is the string 'constructor'. *)
Definition pressure_with_constructor : BloodPressureTrend :=
  {| bp_status := VStr (lit "success"); bp_message := VUndef;
     average_systolic := VNum 120; average_diastolic := VNum 80;
     min_systolic := VNum 110; min_diastolic := VNum 70;
     max_systolic := VNum 130; max_diastolic := VNum 90;
     category := VStr (lit "constructor"); data_points := VNum 5;
     bp_insights := None |}.

Definition failed_goal : GoalProgress :=
  {| gp_status := VStr (lit "error"); gp_message := VStr (lit "No data for this goal");
     goal_type := VUndef; target_value := VUndef; initial_value := VUndef;
     current_value := VUndef; progress_percentage := VUndef; gp_insights := None |}.

Definition half_way_goal : GoalProgress :=
  {| gp_status := VStr (lit "success"); gp_message := VUndef;
     goal_type := VStr (lit "weight"); target_value := VNum 70;
     initial_value := VNum 80; current_value := VNum 75;
     progress_percentage := VNum 50;
     gp_insights := Some [VStr (lit "Half way there")] |}.

(** A successful report with the user information but no summary. *)
Definition report_without_summary : HealthReport :=
  {| hr_status := VStr (lit "success"); hr_message := VUndef;
     user_info := Some {| name := VStr (lit "Asha"); age := VNum 41;
                          gender := VStr (lit "female"); height_cm := VNum 165;
                          current_weight_kg := VNum 62 |};
     report_date := VStr (lit "2024-03-01");
     summary := None; weight_analysis := None; blood_pressure_analysis := None;
     nutrition_summary := None; symptom_patterns := None;
     recommendations := Some [VStr (lit "Keep logging your meals")] |}.

(** A goal two thirds of the way: 66.7 percent. *)
Definition two_thirds_goal : GoalProgress :=
  {| gp_status := VStr (lit "success"); gp_message := VUndef;
     goal_type := VStr (lit "weight"); target_value := VNum 70;
     initial_value := VNum 85; current_value := VNum 75;
     progress_percentage := VDec false 667 2;
     gp_insights := None |}.

Definition sample_report : HealthReport :=
  {| hr_status := VStr (lit "success"); hr_message := VUndef;
     user_info := Some {| name := VStr (lit "Asha"); age := VNum 41;
                          gender := VStr (lit "female"); height_cm := VNum 165;
                          current_weight_kg := VNull |};
     report_date := VStr (lit "2024-03-01");
     summary := Some {| data_points_collected := VNum 12; days_tracked := VNum 30;
                        metrics_tracked := Some [VStr (lit "weight")] |};
     weight_analysis := Some {| wa_total_change_kg := VNum (-2);
                                wa_percent_change := VNum (-3);
                                wa_weekly_change_rate_kg := VNum 0;
                                wa_trend := VStr (lit "decreasing") |};
     blood_pressure_analysis := None;
     nutrition_summary := Some {| ns_status := VStr (lit "no_data");
                                  average_daily_calories := VUndef;
                                  ns_days_tracked := VUndef;
                                  meal_frequency := None |};
     symptom_patterns := None;
     recommendations := Some [VStr (lit "Keep logging your meals")] |}.

(** *** Histories of the controller *)

(** The tab of the last click, if any, and the day count of the last
    change of the time range (30 before any). *)
Definition last_click (events : list event) : option jstring :=
  fold_left (fun acc e => match e with TabClick t => Some t | _ => acc end) events None.

Definition last_range (events : list event) : Z :=
  fold_left (fun acc e => match e with TimeRangeChange d => d | _ => acc end)
    events 30%Z.

(** Events that deliver the response to a request. *)
Definition is_settlement (e : event) : bool :=
  match e with
  | WeightTrendSettled _ | BloodPressureTrendSettled _ | GoalProgressSettled _
  | HealthReportSettled _ | LogProgressSettled _ => true
  | _ => false
  end.

(** The series of the weight chart, if one was built. *)
Definition weight_points (w : world) : option (list jstring * list value) :=
  match charts w !! "weightChart"%string with
  | Some c =>
      match chart_datasets c with
      | [(_, points)] => Some (chart_labels c, points)
      | _ => None
      end
  | None => None
  end.

(** *** Line breaks *)

Definition starts_with_break (s : jstring) : bool :=
  match s with
  | b :: _ => N.eqb b Formatter.newline
  | [] => false
  end.

(** No two line breaks in a row. *)
Fixpoint no_adjacent_breaks (s : jstring) : bool :=
  match s with
  | a :: s' =>
      match s' with
      | b :: _ =>
          negb (N.eqb a Formatter.newline && N.eqb b Formatter.newline)
          && no_adjacent_breaks s'
      | [] => true
      end
  | [] => true
  end.

(** *** More sample data *)

(** A successful weight payload without a trend. *)
Definition weight_without_trend : WeightTrend :=
  {| wt_status := VStr (lit "success"); wt_message := VUndef;
     first_measurement := Some {| date := VStr (lit "2024-01-01"); weight_kg := VNum 80 |};
     latest_measurement := Some {| date := VStr (lit "2024-02-01"); weight_kg := VNum 78 |};
     total_change_kg := VNum (-2); percent_change := VNum (-3);
     weekly_change_rate_kg := VNum 0; wt_trend := VUndef; wt_insights := None |}.

(** A successful report without user information. *)
Definition report_without_user : HealthReport :=
  {| hr_status := VStr (lit "success"); hr_message := VUndef;
     user_info := None; report_date := VStr (lit "2024-03-01");
     summary := None; weight_analysis := None; blood_pressure_analysis := None;
     nutrition_summary := None; symptom_patterns := None; recommendations := None |}.

(** The text of a stored user and its encoding under the module's key. *)
Definition user_text : jstring := tpl "{`id`:7,`name`:`Asha`}".

Definition user_encoded : jstring :=
  Auth.b64_encode (Auth.xor_units user_text Auth.SECRET_KEY).

Definition logged_in_session : Auth.session Empty_set :=
  {| Auth.localStorage :=
       <[Auth.AUTH_TOKEN_KEY := lit "k3q9"]> (<[Auth.USER_DATA_KEY := user_encoded]> ∅);
     Auth.isAuthenticated := false;
     Auth.currentUser := None |}.

(** Storage whose users item is not Base64. *)
Definition bad_users_session : Auth.session unit :=
  {| Auth.localStorage := <[Auth.USERS_KEY := lit "!"]> ∅;
     Auth.isAuthenticated := false;
     Auth.currentUser := None |}.

Definition parse_null_only_unit (s : jstring) : result (option unit) :=
  if bool_decide (s = lit "null") then Ok None else Throw SyntaxError.

End Reference.

(** * Properties *)

(** ** Conversions *)

Module JsFacts.
Import Reference (digit_or_minus).

Example decimal_samples :
  decimal 0 = lit "0" /\ decimal 150 = lit "150" /\ decimal (-3) = lit "-3".
Proof. repeat split; vm_compute; reflexivity. Qed.

Example ToString_samples :
  ToString VUndef = lit "undefined" /\ ToString VNull = lit "null"
  /\ ToString (VBool true) = lit "true" /\ ToString (VNum 42) = lit "42"
  /\ ToString (VStr (lit "x")) = lit "x".
Proof. repeat split; vm_compute; reflexivity. Qed.

(** Numbers that are no safe integers, as they print: a fraction, a
    small and a large magnitude, and the two integers 2^60 and 10^21. *)
Example Number_toString_samples :
  ToString (VDec false 667 2) = lit "66.7"
  /\ ToString (VDec true 5 0) = lit "-0.5"
  /\ ToString (VDec false 1 (-6)) = lit "1e-7"
  /\ ToString (VDec false 15 301) = lit "1.5e+300"
  /\ ToString (VDec false 1152921504606847 19) = lit "1152921504606847000"
  /\ ToString (VDec false 1 22) = lit "1e+21"
  /\ ToString (VInf false) = lit "Infinity".
Proof. repeat split; vm_compute; reflexivity. Qed.

Lemma is_str_false (v : value) (s : jstring) : v <> VStr s -> is_str v s = false.
Proof.
  destruct v; simpl; try reflexivity.
  intros H. apply bool_decide_eq_false. congruence.
Qed.

Lemma is_str_true (v : value) (s : jstring) : is_str v s = true <-> v = VStr s.
Proof.
  destruct v; simpl; try (split; [discriminate | congruence]).
  rewrite bool_decide_eq_true. split; congruence.
Qed.

Lemma string_of_uint_digits (d : Decimal.uint) :
  Forall digit_or_minus (lit (NilEmpty.string_of_uint d)).
Proof.
  induction d; simpl; try constructor; try assumption;
    left; vm_compute; split; discriminate.
Qed.

Lemma decimal_digits (n : Z) : Forall digit_or_minus (decimal n).
Proof.
  unfold decimal, NilZero.string_of_int, NilZero.string_of_uint.
  destruct (Z.to_int n) as [d | d].
  - destruct d; try apply string_of_uint_digits.
    repeat constructor; vm_compute; discriminate.
  - change (Forall digit_or_minus (45 :: lit
      (match d with Decimal.Nil => "0"%string | _ => NilEmpty.string_of_uint d end))).
    constructor; [right; reflexivity |].
    destruct d; try apply string_of_uint_digits.
    repeat constructor; vm_compute; discriminate.
Qed.

(** The decimal form of an integer holds no percent sign. *)
Lemma decimal_plain (n : Z) : Forall (fun u => u <> 37) (decimal n).
Proof.
  eapply Forall_impl; [apply decimal_digits |].
  intros u [[? ?] | ?]; lia.
Qed.

Lemma repeat_plain (m : nat) : Forall (fun u => u <> 37) (repeat 48 m).
Proof. induction m; constructor; [lia | assumption]. Qed.

(** The string form of a number holds no percent sign. *)
Lemma number_plain (v : value) :
  is_number v = true -> Forall (fun u => u <> 37) (ToString v).
Proof.
  destruct v as [| | | n | | | | negative s n | negative]; try discriminate; intros _.
  - apply decimal_plain.
  - cbn [ToString]. apply Forall_app. split.
    { destruct negative; repeat constructor. discriminate. }
    unfold Number_toString.
    pose proof (decimal_plain (Z.pos s)) as Hd.
    repeat case_match; rewrite ?Forall_app; repeat split;
      try apply decimal_plain; try apply repeat_plain;
      try (by apply Forall_take); try (by apply Forall_drop);
      try constructor; try (vm_compute; repeat constructor; discriminate).
  - destruct negative; vm_compute; repeat constructor; discriminate.
Qed.

Lemma decimal_nonempty (n : Z) : decimal n <> [].
Proof.
  unfold decimal, NilZero.string_of_int, NilZero.string_of_uint.
  destruct (Z.to_int n) as [d | d]; destruct d; cbn; discriminate.
Qed.

Lemma lit_inj (s t : string) : lit s = lit t -> s = t.
Proof.
  unfold lit. intros H.
  rewrite <- (string_of_list_ascii_of_string s), <- (string_of_list_ascii_of_string t).
  f_equal. revert H.
  generalize (list_ascii_of_string s) (list_ascii_of_string t).
  induction l as [| a l IH]; intros [| b l']; cbn [map]; try discriminate; [done |].
  intros H. injection H as Hab Hl. f_equal; [| by apply IH].
  unfold unit_of_ascii in Hab.
  by rewrite <- (ascii_N_embedding a), <- (ascii_N_embedding b), Hab.
Qed.

(** Different integers print differently. *)
Lemma decimal_inj (p q : Z) : decimal p = decimal q -> p = q.
Proof.
  intros H%lit_inj.
  assert (forall z, NilZero.int_of_string (NilZero.string_of_int (Z.to_int z))
                    = Some (Z.to_int z)) as Hisi.
  { intros z. apply NilZero.isi; destruct z as [| x | x]; try discriminate.
    - intros [= Hx]. by apply (DecimalPos.Unsigned.to_uint_nonnil x).
    - intros [= Hx]. by apply (DecimalPos.Unsigned.to_uint_nonnil x). }
  apply DecimalZ.to_int_inj.
  pose proof (Hisi p) as Hp. rewrite H, Hisi in Hp. congruence.
Qed.

(** Two texts that agree up to and after their first percent sign. *)
Lemma split_at_percent (a b x y : jstring) :
  Forall (fun u => u <> 37) a -> Forall (fun u => u <> 37) b ->
  a ++ 37 :: x = b ++ 37 :: y -> a = b.
Proof.
  revert b. induction a as [| u a IH]; intros [| w b] Ha Hb; cbn [app]; intros H.
  - reflexivity.
  - injection H as Hu _. inversion Hb; subst. congruence.
  - injection H as Hu _. inversion Ha; subst. congruence.
  - injection H as -> H. inversion Ha; inversion Hb; subst. f_equal. by eapply IH.
Qed.

(** A loop that appends to an accumulator appends the concatenation of
    what each round adds. *)
Lemma fold_left_append {A} (f : A -> jstring) (xs : list A) (html : jstring) :
  fold_left (fun html x => html ++ f x) xs html = html ++ concat (map f xs).
Proof.
  revert html. induction xs as [| x xs IH]; intros html; cbn [fold_left map concat].
  - by rewrite app_nil_r.
  - by rewrite IH, app_assoc.
Qed.

End JsFacts.

(** ** The progress tracker *)

Module ProgressTrackerFacts.
Import ProgressTracker JsFacts.
Import Reference (notice, message_card, list_item, clamp, with_percentage, goal_card_head,
  goal_card_tail, progress_label, progress_bar, goal_payload_150, in_range, clamp_number).

Section Renderers.

Variable toLocaleDateString : value -> jstring.
Variable toUpperCase : jstring -> jstring.

Abbreviation loadWeightTrend_settled :=
  (loadWeightTrend_settled toLocaleDateString toUpperCase).

(** C1.  For a payload whose status is not 'success', each of the three
    metric renderers (weight trend, blood-pressure trend, goal progress)
    writes the notice built from the message alone to its surface: the
    chart container (resp. the goal container) holds the message and
    nothing else of the payload, the insights surface is emptied, and
    no chart object is created or changed.  The two insight renderers,
    handed such a payload, likewise print a card with the message only. *)
Theorem failure_renders_only_message
  (wt : WeightTrend) (bp : BloodPressureTrend) (gp : GoalProgress) (w : world) :
  wt_status wt <> VStr (lit "success") ->
  bp_status bp <> VStr (lit "success") ->
  gp_status gp <> VStr (lit "success") ->
  (loadWeightTrend_settled (Ok wt) w =
     {| userId := userId w; currentDays := currentDays w; charts := charts w;
        innerHTML := <["#weight-insights"%string := []]>
                       (<["#weight-chart-container"%string := notice (wt_message wt)]>
                          (innerHTML w));
        activeTabs := activeTabs w; requests := requests w |})
  /\ (loadBloodPressureTrend_settled (Ok bp) w =
     {| userId := userId w; currentDays := currentDays w; charts := charts w;
        innerHTML := <["#bp-insights"%string := []]>
                       (<["#bp-chart-container"%string := notice (bp_message bp)]>
                          (innerHTML w));
        activeTabs := activeTabs w; requests := requests w |})
  /\ (trackGoalProgress_settled (Ok gp) w =
     {| userId := userId w; currentDays := currentDays w; charts := charts w;
        innerHTML := <["#goal-progress-container"%string := notice (gp_message gp)]>
                       (innerHTML w);
        activeTabs := activeTabs w; requests := requests w |})
  /\ renderWeightInsights_html toUpperCase wt
      = Ok (message_card "Weight Insights" (wt_message wt))
  /\ renderBloodPressureInsights_html bp
      = message_card "Blood Pressure Insights" (bp_message bp).
Proof.
  intros Hwt Hbp Hgp.
  apply is_str_false in Hwt, Hbp, Hgp.
  unfold loadWeightTrend_settled, loadBloodPressureTrend_settled,
    trackGoalProgress_settled, renderGoalProgress, renderGoalProgress_html,
    renderWeightInsights_html, renderBloodPressureInsights_html.
  rewrite Hwt, Hbp, Hgp. cbn [bind].
  split; [reflexivity |]. split; [reflexivity |]. split; [reflexivity |].
  split; [f_equal |]; unfold message_card.
  - change (tpl "<div class=`card-header`>Weight Insights</div>")
      with (tpl "<div class=`card-header`>" ++ lit "Weight Insights" ++ tpl "</div>").
    rewrite <- ?app_assoc. reflexivity.
  - change (tpl "<div class=`card-header`>Blood Pressure Insights</div>")
      with (tpl "<div class=`card-header`>" ++ lit "Blood Pressure Insights"
              ++ tpl "</div>").
    rewrite <- ?app_assoc. reflexivity.
Qed.

End Renderers.

(** *** Goal progress *)

(** C2, as stated, fails: a success payload carrying 150 is rendered
    with 150, not with the clamped value 100. *)
Lemma goal_percentage_not_clamped :
  gp_status goal_payload_150 = VStr (lit "success")
  /\ progress_percentage goal_payload_150 = VNum 150
  /\ renderGoalProgress_html goal_payload_150
      <> renderGoalProgress_html (with_percentage (VNum (clamp 150)) goal_payload_150).
Proof.
  split; [reflexivity | split; [reflexivity |]].
  vm_compute. discriminate.
Qed.

Lemma append_items_concat (html : jstring) (xs : list value) :
  append_items html xs = html ++ concat (map list_item xs).
Proof. unfold append_items. apply (fold_left_append list_item). Qed.

Lemma append_insights_acc (html : jstring) (insights : option (list value)) :
  append_insights html insights = html ++ append_insights [] insights.
Proof.
  destruct insights as [[| x xs] |]; cbn [append_insights];
    try by rewrite app_nil_r.
  rewrite !append_items_concat. by rewrite <- !app_assoc.
Qed.

(** The text shown as the percentage can be read off the markup. *)
Lemma progress_bar_inj (a b x y : jstring) :
  Forall (fun u => u <> 37) a -> Forall (fun u => u <> 37) b ->
  progress_bar a ++ x = progress_bar b ++ y -> a = b.
Proof.
  intros Ha Hb. unfold progress_bar.
  rewrite <- !app_assoc. intros H.
  do 2 apply app_inv_head in H.
  change (tpl "%` ") with (37 :: tpl "` ") in H. cbn [app] in H.
  by eapply split_at_percent.
Qed.

Lemma with_percentage_same (data : GoalProgress) :
  with_percentage (progress_percentage data) data = data.
Proof. by destruct data. Qed.

(** The ways of writing [100] as digits followed by zeros. *)
Lemma hundred_split (s : positive) (m : nat) :
  [49; 48; 48] = decimal (Z.pos s) ++ repeat 48 m ->
  (s = 1%positive /\ m = 2%nat) \/ (s = 10%positive /\ m = 1%nat)
  \/ (s = 100%positive /\ m = 0%nat).
Proof.
  intros Hm. pose proof (decimal_nonempty (Z.pos s)) as Hne.
  assert (forall q : positive, decimal (Z.pos s) = decimal (Z.pos q) -> s = q) as Hinj.
  { intros q Hq%decimal_inj. congruence. }
  destruct (decimal (Z.pos s)) as [| d1 [| d2 [| d3 [| d4 rest]]]] eqn:Hd; [done | | | |].
  - destruct m as [| [| [| m]]]; try discriminate.
    injection Hm as <-. left. split; [| done]. by apply Hinj.
  - destruct m as [| [| m]]; try discriminate.
    injection Hm as <- <-. right. left. split; [| done]. by apply Hinj.
  - destruct m as [| m]; try discriminate.
    injection Hm as <- <- <-. right. right. split; [| done]. by apply Hinj.
  - discriminate.
Qed.

(** A number outside [0,100] does not print as its clamped value. *)
Lemma clamp_number_shown (v : value) :
  is_number v = true ->
  ToString (clamp_number v) = ToString v -> in_range v = true.
Proof.
  destruct v as [| | | p | | | | negative s n | negative]; try discriminate; intros _.
  - cbn [clamp_number ToString in_range]. intros H%decimal_inj.
    unfold clamp in H. apply andb_true_iff. split; apply Z.leb_le; lia.
  - cbn [clamp_number]. destruct (in_range (VDec negative s n)) eqn:Hin; [done |].
    intros H. exfalso. destruct negative.
    + cbn [ToString] in H. vm_compute in H. discriminate.
    + cbn [ToString app] in H. change (decimal 100) with [49; 48; 48] in H.
      cbn [in_range negb andb] in Hin. unfold Number_toString in H.
      assert (forall (l : jstring) c, [49; 48; 48] = l -> c ∈ l ->
                c = 49 \/ c = 48) as Hunits.
      { intros l c <- Hc. rewrite !elem_of_cons, elem_of_nil in Hc. tauto. }
      destruct ((Z.of_nat (length (decimal (Z.pos s))) <=? n) && (n <=? 21))%Z eqn:H1.
      { apply andb_true_iff in H1 as [H1 _]. apply Z.leb_le in H1.
        apply (f_equal length) in H as Hlen.
        rewrite length_app, repeat_length in Hlen. cbn [length] in Hlen.
        assert (n = 3%Z) as -> by lia.
        destruct (hundred_split _ _ H) as [[-> _] | [[-> _] | [-> _]]];
          vm_compute in Hin; discriminate. }
      destruct ((0 <? n) && (n <=? 21))%Z.
      { destruct (Hunits _ 46 H) as [? | ?]; [| lia | lia].
        rewrite !elem_of_app. right. left. by apply elem_of_cons; left. }
      destruct ((-6 <? n) && (n <=? 0))%Z.
      { cbn [app] in H. change (lit "0.") with [48; 46] in H. discriminate. }
      destruct (Hunits _ 101 H) as [? | ?]; [| lia | lia].
      rewrite !elem_of_app. right. right. left. by apply elem_of_cons; left.
  - destruct negative; vm_compute; discriminate.
Qed.

(** C2, amended.  For a success payload the goal renderer prints the
    percentage as supplied: bar width, aria value and visible label all
    carry the string form of the supplied value, the label being that
    string form followed by a percent sign.  When the supplied value is
    a number the label holds exactly one percent sign, and the markup
    is the one the clamped number would give exactly when the number
    lies in [0,100].  (The percentage is written as this file writes
    values, [number_wf]: an integer is a [VNum] only when a number holds
    it exactly, so that every number prints as the program prints it.) *)
Theorem goal_percentage_as_supplied (data : GoalProgress) :
  gp_status data = VStr (lit "success") ->
  number_wf (progress_percentage data) ->
  let shown := ToString (progress_percentage data) in
  renderGoalProgress_html data
    = goal_card_head data ++ progress_bar shown ++ goal_card_tail data
  /\ (is_number (progress_percentage data) = true ->
      count_occ N.eq_dec (progress_label shown) 37 = 1%nat
      /\ (renderGoalProgress_html data
           = renderGoalProgress_html
               (with_percentage (clamp_number (progress_percentage data)) data)
          <-> in_range (progress_percentage data) = true)).
Proof.
  intros Hs _ shown.
  assert (forall d, gp_status d = VStr (lit "success") ->
            renderGoalProgress_html d
            = goal_card_head d ++ progress_bar (ToString (progress_percentage d))
                ++ goal_card_tail d) as Hshape.
  { intros d Hd.
    unfold renderGoalProgress_html, append_progress_bar, goal_card_head,
      progress_bar, progress_label, goal_card_tail.
    rewrite Hd. cbn [is_str].
    rewrite bool_decide_eq_true_2 by reflexivity.
    rewrite append_insights_acc. by rewrite <- !app_assoc. }
  split; [by apply Hshape |].
  intros Hnum. pose proof (number_plain _ Hnum) as Hplain. split.
  - unfold progress_label. rewrite count_occ_app.
    replace (count_occ N.eq_dec shown 37) with 0%nat; [reflexivity |].
    symmetry. apply count_occ_not_In. intros Hin%list_elem_of_In.
    rewrite Forall_forall in Hplain. by apply (Hplain 37).
  - split.
    + intros Heq. apply clamp_number_shown; [done |].
      rewrite (Hshape data Hs), (Hshape (with_percentage _ data) Hs) in Heq.
      change (goal_card_head (with_percentage ?v data)) with (goal_card_head data) in Heq.
      apply app_inv_head in Heq. symmetry.
      eapply progress_bar_inj; [| | exact Heq]; [done |].
      apply number_plain.
      destruct (progress_percentage data) as [| | | | | | | ? ? ? |]; try done.
      cbn [clamp_number]. by destruct (in_range _).
    + intros Hin.
      assert (clamp_number (progress_percentage data) = progress_percentage data)
        as ->; [| by rewrite with_percentage_same].
      destruct (progress_percentage data) as [| | | p | | | | ? ? ? |]; try done.
      * cbn [in_range] in Hin. apply andb_true_iff in Hin as [H0 H1].
        apply Z.leb_le in H0, H1. cbn [clamp_number]. f_equal. unfold clamp. lia.
      * cbn [clamp_number]. by rewrite Hin.
Qed.

Example goal_card_half_way :
  renderGoalProgress_html Reference.half_way_goal
  = tpl "<div class=`card`><div class=`card-header`>Goal Progress</div><div class=`card-body`><p><strong>Goal Type:</strong> Weight</p><p><strong>Target Value:</strong> 70</p><p><strong>Initial Value:</strong> 80</p><p><strong>Current Value:</strong> 75</p><div class=`progress` style=`height: 25px;`><div class=`progress-bar` role=`progressbar` style=`width: 50%` aria-valuenow=`50` aria-valuemin=`0` aria-valuemax=`100`>50%</div></div><p class=`mt-2`></p><h5>Insights:</h5><ul><li>Half way there</li></ul></div></div>".
Proof. vm_compute. reflexivity. Qed.

Example goal_card_two_thirds :
  renderGoalProgress_html Reference.two_thirds_goal
  = tpl "<div class=`card`><div class=`card-header`>Goal Progress</div><div class=`card-body`><p><strong>Goal Type:</strong> Weight</p><p><strong>Target Value:</strong> 70</p><p><strong>Initial Value:</strong> 85</p><p><strong>Current Value:</strong> 75</p><div class=`progress` style=`height: 25px;`><div class=`progress-bar` role=`progressbar` style=`width: 66.7%` aria-valuenow=`66.7` aria-valuemin=`0` aria-valuemax=`100`>66.7%</div></div><p class=`mt-2`></p></div></div>".
Proof. vm_compute. reflexivity. Qed.

(** *** The blood-pressure category mapper *)

(** The six keys of the table map to their labels; the lookup is exact
    and case-sensitive. *)
Lemma categoryLabel_table :
  categoryLabel (VStr (lit "normal")) = lit "Normal"
  /\ categoryLabel (VStr (lit "elevated")) = lit "Elevated"
  /\ categoryLabel (VStr (lit "hypertension_stage_1")) = lit "Hypertension Stage 1"
  /\ categoryLabel (VStr (lit "hypertension_stage_2")) = lit "Hypertension Stage 2"
  /\ categoryLabel (VStr (lit "hypertensive_crisis")) = lit "Hypertensive Crisis"
  /\ categoryLabel (VStr (lit "unknown")) = lit "Unknown"
  /\ categoryLabel (VStr (lit "foo")) = lit "foo"
  /\ categoryLabel (VStr (lit "Normal")) = lit "Normal"
  /\ categoryLabel (VStr (lit "NORMAL")) = lit "NORMAL".
Proof. repeat split; vm_compute; reflexivity. Qed.

(** A key that is neither in the table nor a member inherited from
    [Object.prototype] is echoed. *)
Lemma categoryLabel_echo (key : jstring) :
  own_property categoryMap key = None ->
  object_prototype_member key = None ->
  categoryLabel (VStr key) = key.
Proof.
  intros Hown Hproto.
  unfold categoryLabel, categoryValue, lookup_literal. cbn [ToString].
  rewrite Hown, Hproto. reflexivity.
Qed.

(** C4.  The mapper does not echo every key outside its table: for the
    key 'constructor' the lookup [categoryMap[key]] finds the member
    inherited from [Object.prototype], which is truthy, so the fallback
    [|| key] is not taken and the printed label is the text of the
    built-in function instead of the key; the insights card of a
    reading with that category shows it. *)
Theorem categoryLabel_inherited_key :
  own_property categoryMap (lit "constructor") = None
  /\ categoryValue (VStr (lit "constructor")) = VFun (lit "Object") 1
  /\ categoryLabel (VStr (lit "constructor")) = lit "function Object() { [native code] }"
  /\ categoryLabel (VStr (lit "constructor")) <> lit "constructor"
  /\ renderBloodPressureInsights_html Reference.pressure_with_constructor
      = tpl "<div class=`card`><div class=`card-header`>Blood Pressure Insights</div><div class=`card-body`><p><strong>Average:</strong> 120/80 mmHg</p><p><strong>Category:</strong> function Object() { [native code] }</p><p><strong>Data Points:</strong> 5</p></div></div>".
Proof. repeat split; vm_compute; congruence. Qed.

(** *** The health report *)

Lemma fold_left_acc {A} (g : jstring -> A -> jstring) (xs : list A) (html : jstring) :
  (forall h x, g h x = h ++ g [] x) ->
  fold_left g xs html = html ++ fold_left g xs [].
Proof.
  intros Hg. revert html.
  induction xs as [| x xs IH]; intros html; cbn [fold_left].
  - by rewrite app_nil_r.
  - rewrite IH, (IH (g [] x)), (Hg html x). by rewrite app_assoc.
Qed.

Ltac reassoc := rewrite <- ?app_assoc; cbn [app]; try reflexivity.

Section Report.

Variable toLocaleDateString : value -> jstring.
Variable toUpperCase : jstring -> jstring.

Abbreviation section_card := (Reference.section_card toLocaleDateString toUpperCase).
Abbreviation report_spec := (Reference.report_spec toLocaleDateString toUpperCase).
Abbreviation renderHealthReport_html :=
  (renderHealthReport_html toLocaleDateString toUpperCase).

Lemma append_user_info_acc html data :
  append_user_info html data
  = letr c := append_user_info [] data in Ok (html ++ c).
Proof.
  unfold append_user_info. destruct (user_info data) as [info |]; cbn [required bind];
    [| reflexivity].
  destruct (truthy (age info)), (truthy (current_weight_kg info)); f_equal; reassoc.
Qed.

Lemma append_summary_acc html data :
  append_summary toLocaleDateString html data
  = letr c := append_summary toLocaleDateString [] data in Ok (html ++ c).
Proof.
  unfold append_summary. destruct (summary data) as [sm |]; cbn [required bind];
    [| reflexivity].
  destruct (metrics_tracked sm); cbn [required bind]; [| reflexivity].
  f_equal; reassoc.
Qed.

Lemma append_weight_analysis_acc html data :
  append_weight_analysis toUpperCase html data
  = letr c := append_weight_analysis toUpperCase [] data in Ok (html ++ c).
Proof.
  unfold append_weight_analysis. destruct (weight_analysis data) as [wa |]; cbn [bind].
  - destruct (capitalize toUpperCase (wa_trend wa)); cbn [bind]; [| reflexivity].
    f_equal; reassoc.
  - by rewrite app_nil_r.
Qed.

Lemma append_blood_pressure_analysis_acc html data :
  append_blood_pressure_analysis html data
  = html ++ append_blood_pressure_analysis [] data.
Proof.
  unfold append_blood_pressure_analysis.
  destruct (blood_pressure_analysis data); [reassoc | by rewrite app_nil_r].
Qed.

Lemma append_meal_acc h e :
  append_meal toUpperCase h e = h ++ append_meal toUpperCase [] e.
Proof. destruct e. unfold append_meal. reassoc. Qed.

Lemma append_nutrition_summary_acc html data :
  append_nutrition_summary toUpperCase html data
  = html ++ append_nutrition_summary toUpperCase [] data.
Proof.
  unfold append_nutrition_summary.
  destruct (nutrition_summary data) as [ns |]; [| by rewrite app_nil_r].
  destruct (is_str (ns_status ns) (lit "success")); [| by rewrite app_nil_r].
  destruct (meal_frequency ns) as [entries |]; [| reassoc].
  rewrite !(fold_left_acc _ entries (_ ++ _)) by apply append_meal_acc.
  reassoc.
Qed.

Lemma append_symptom_acc h e : append_symptom h e = h ++ append_symptom [] e.
Proof. unfold append_symptom. reassoc. Qed.

Lemma append_time_pattern_acc h e :
  append_time_pattern h e = h ++ append_time_pattern [] e.
Proof. unfold append_time_pattern. reassoc. Qed.

Lemma append_symptom_patterns_acc html data :
  append_symptom_patterns html data = html ++ append_symptom_patterns [] data.
Proof.
  unfold append_symptom_patterns.
  destruct (symptom_patterns data) as [sp |]; [| by rewrite app_nil_r].
  destruct (is_str (sp_status sp) (lit "success")); [| by rewrite app_nil_r].
  destruct (most_frequent_symptoms sp) as [[| e es] |];
    destruct (time_patterns sp) as [[| t ts] |];
    rewrite ?(fold_left_acc append_symptom (e :: es) (_ ++ _)) by apply append_symptom_acc;
    rewrite ?(fold_left_acc append_time_pattern (t :: ts) (_ ++ _))
      by apply append_time_pattern_acc;
    reassoc.
Qed.

Lemma append_recommendations_acc html data :
  append_recommendations html data = html ++ append_recommendations [] data.
Proof.
  unfold append_recommendations.
  destruct (recommendations data) as [[| r rs] |]; try by rewrite app_nil_r.
  rewrite !append_items_concat. reassoc.
Qed.

(** A section that is not due contributes nothing. *)
Lemma section_card_not_due data id :
  Reference.section_due data id = false -> section_card data id = Ok [].
Proof.
  destruct id; cbn [Reference.section_due Reference.section_card]; try discriminate.
  - unfold append_weight_analysis. destruct (weight_analysis data); [| reflexivity].
    intros H. apply bool_decide_eq_false in H. destruct H. by eexists.
  - unfold append_blood_pressure_analysis.
    destruct (blood_pressure_analysis data); [| reflexivity].
    intros H. apply bool_decide_eq_false in H. destruct H. by eexists.
  - unfold append_nutrition_summary. destruct (nutrition_summary data) as [ns |];
      [| reflexivity].
    intros H. apply bool_decide_eq_false in H. by rewrite (is_str_false _ _ H).
  - unfold append_symptom_patterns. destruct (symptom_patterns data) as [sp |];
      [| reflexivity].
    intros H. apply bool_decide_eq_false in H. by rewrite (is_str_false _ _ H).
  - unfold append_recommendations. destruct (recommendations data) as [[| r rs] |];
      try reflexivity.
    intros H. apply bool_decide_eq_false in H. by destruct H.
Qed.

Lemma collect_due data (ids : list Reference.section_id) :
  Reference.collect (map (section_card data) (filter (Reference.section_due data) ids))
  = Reference.collect (map (section_card data) ids).
Proof.
  induction ids as [| id ids IH]; [reflexivity |].
  destruct (Reference.section_due data id) eqn:Hdue.
  - rewrite filter_cons_True by (by rewrite Hdue).
    cbn [map Reference.collect]. by rewrite IH.
  - rewrite filter_cons_False by (rewrite Hdue; cbn; tauto).
    cbn [map Reference.collect]. rewrite (section_card_not_due _ _ Hdue), IH.
    destruct (Reference.collect (map (section_card data) ids)); reflexivity.
Qed.

Lemma Ok_inj {A} (a b : A) : Ok a = Ok b -> a = b.
Proof. congruence. Qed.

Ltac header T :=
  let full := eval vm_compute in ("<div class=`card-header`>" +:+ T +:+ "</div>") in
  change (tpl full)
    with (tpl "<div class=`card-header`>" ++ lit T ++ tpl "</div>");
  eexists; reassoc.

(** A section that is due opens with the card header of its title. *)
Lemma section_card_header data id card :
  Reference.section_due data id = true ->
  section_card data id = Ok card ->
  exists body, card = Reference.card_open (Reference.section_title id) ++ body.
Proof.
  unfold Reference.card_open.
  destruct id; cbn [Reference.section_due Reference.section_card Reference.section_title].
  - intros _. unfold append_user_info. destruct (user_info data); [| discriminate].
    cbn [required bind]. intros H%Ok_inj. subst card.
    destruct (truthy (age u)), (truthy (current_weight_kg u));
      header "User Information"%string.
  - intros _. unfold append_summary. destruct (summary data) as [sm |]; [| discriminate].
    cbn [required bind]. destruct (metrics_tracked sm); [| discriminate].
    cbn [required bind]. intros H%Ok_inj. subst card. header "Summary"%string.
  - unfold append_weight_analysis. destruct (weight_analysis data) as [wa |].
    + intros _. destruct (capitalize toUpperCase (wa_trend wa)); [| discriminate].
      cbn [bind]. intros H%Ok_inj. subst card. header "Weight Analysis"%string.
    + intros H. apply bool_decide_eq_true in H. by destruct H.
  - unfold append_blood_pressure_analysis.
    destruct (blood_pressure_analysis data).
    + intros _ H%Ok_inj. subst card. header "Blood Pressure Analysis"%string.
    + intros H. apply bool_decide_eq_true in H. by destruct H.
  - unfold append_nutrition_summary. destruct (nutrition_summary data) as [ns |];
      [| discriminate].
    intros H. apply bool_decide_eq_true, is_str_true in H. rewrite H.
    intros H'%Ok_inj. subst card.
    destruct (meal_frequency ns);
      rewrite ?(fold_left_acc _ _ (_ ++ _)) by apply append_meal_acc;
      header "Nutrition Summary"%string.
  - unfold append_symptom_patterns. destruct (symptom_patterns data) as [sp |];
      [| discriminate].
    intros H. apply bool_decide_eq_true, is_str_true in H. rewrite H.
    intros H'%Ok_inj. subst card.
    destruct (most_frequent_symptoms sp) as [[| ? ?] |],
      (time_patterns sp) as [[| ? ?] |];
      rewrite ?(fold_left_acc append_time_pattern _ (_ ++ _))
        by apply append_time_pattern_acc;
      rewrite ?(fold_left_acc append_symptom _ (_ ++ _)) by apply append_symptom_acc;
      header "Symptom Patterns"%string.
  - unfold append_recommendations. destruct (recommendations data) as [[| r rs] |];
      try discriminate.
    intros _ H%Ok_inj. subst card. rewrite append_items_concat.
    header "Recommendations"%string.
Qed.

(** The renderer is the wrapper around the cards of the due sections,
    in the order of the report. *)
Lemma renderHealthReport_collect (data : HealthReport) :
  hr_status data = VStr (lit "success") ->
  renderHealthReport_html data = report_spec data.
Proof.
  intros Hs.
  unfold ProgressTracker.renderHealthReport_html, Reference.report_spec.
  rewrite Hs. cbn [is_str]. rewrite bool_decide_eq_true_2 by reflexivity.
  rewrite collect_due.
  cbn [Reference.report_order map Reference.collect Reference.section_card].
  rewrite append_user_info_acc.
  destruct (append_user_info [] data) as [c1 |]; cbn [bind]; [| reflexivity].
  rewrite append_summary_acc.
  destruct (append_summary toLocaleDateString [] data) as [c2 |]; cbn [bind];
    [| reflexivity].
  rewrite append_weight_analysis_acc.
  destruct (append_weight_analysis toUpperCase [] data) as [c3 |]; cbn [bind];
    [| reflexivity].
  rewrite append_recommendations_acc, append_symptom_patterns_acc,
    append_nutrition_summary_acc, append_blood_pressure_analysis_acc.
  f_equal. rewrite app_nil_r. reassoc.
Qed.

(** On a payload holding what the renderer reads unguarded, markup is
    produced; on any other it raises. *)
Lemma renderHealthReport_well_formed (data : HealthReport) :
  hr_status data = VStr (lit "success") ->
  if Reference.report_well_formed data
  then exists html, renderHealthReport_html data = Ok html
  else renderHealthReport_html data = Throw TypeError.
Proof.
  intros Hs.
  unfold Reference.report_well_formed, ProgressTracker.renderHealthReport_html.
  rewrite Hs. cbn [is_str]. rewrite bool_decide_eq_true_2 by reflexivity.
  unfold append_user_info, append_summary, append_weight_analysis.
  destruct (user_info data); [| reflexivity]. cbn [required bind].
  destruct (summary data) as [sm |]; [| reflexivity]. cbn [required bind].
  destruct (metrics_tracked sm); [| reflexivity]. cbn [required bind].
  destruct (weight_analysis data) as [wa |]; cbn [bind]; [| by eexists].
  destruct (wa_trend wa); try reflexivity. cbn [capitalize bind]. by eexists.
Qed.

Lemma collect_cards (f : Reference.section_id -> result jstring)
  (ids : list Reference.section_id) (html : jstring) :
  Reference.collect (map f ids) = Ok html ->
  exists cards,
    html = concat cards /\ Forall2 (fun id card => f id = Ok card) ids cards.
Proof.
  revert html. induction ids as [| id ids IH]; cbn [map Reference.collect]; intros html H.
  - injection H as <-. exists []. split; [reflexivity | constructor].
  - destruct (f id) as [c |] eqn:Hc; cbn [bind] in H; [| discriminate].
    destruct (Reference.collect (map f ids)) as [b |]; cbn [bind] in H; [| discriminate].
    injection H as <-. destruct (IH _ eq_refl) as (cards & -> & HF).
    exists (c :: cards). split; [reflexivity | by constructor].
Qed.

(** C5, amended.  For a payload with status 'success' that holds what
    the renderer reads unguarded (the user information, the summary
    with its list of metrics and, if a weight analysis is present, a
    string trend) the report composer emits the wrapper holding, in
    this order and with nothing between them, one card for each section
    that is due: identity, summary, weight analysis if present,
    blood-pressure analysis if present, nutrition summary if present
    with its own status 'success', symptom patterns if present with
    their own status 'success', recommendations if non-empty.  Whether a
    section is due depends on that section alone, and each card opens
    with the header of its section.  On any other payload with status
    'success' the composer raises and emits nothing. *)
Theorem report_sections_in_order (data : HealthReport) :
  hr_status data = VStr (lit "success") ->
  (Reference.report_well_formed data = true ->
   exists cards,
     renderHealthReport_html data
     = Ok (tpl "<div class=`health-report`>" ++ concat cards ++ tpl "</div>")
     /\ Forall2
          (fun id card =>
             section_card data id = Ok card
             /\ exists body,
                  card = Reference.card_open (Reference.section_title id) ++ body)
          (filter (Reference.section_due data) Reference.report_order) cards)
  /\ (Reference.report_well_formed data = false ->
      renderHealthReport_html data = Throw TypeError).
Proof.
  intros Hs. pose proof (renderHealthReport_well_formed data Hs) as Hwf.
  split; intros Hform; rewrite Hform in Hwf; [| exact Hwf].
  destruct Hwf as [html Hok].
  rewrite (renderHealthReport_collect data Hs) in Hok |- *.
  unfold Reference.report_spec in Hok |- *.
  destruct (Reference.collect _) as [inner |] eqn:Hcol; [| discriminate].
  destruct (collect_cards _ _ _ Hcol) as (cards & -> & HF).
  exists cards. split; [reflexivity |].
  assert (Forall (fun id => Reference.section_due data id = true)
            (filter (Reference.section_due data) Reference.report_order)) as Hdue.
  { apply Forall_forall. intros id [Hid _]%list_elem_of_filter.
    by apply Is_true_true. }
  clear Hok Hcol. revert Hdue.
  induction HF as [| id card ids cards Hcard HF IH]; intros Hdue.
  - constructor.
  - inversion Hdue as [| ? ? Hid Hids]; subst. constructor.
    + split; [exact Hcard |]. by eapply section_card_header.
    + by apply IH.
Qed.

End Report.

(** C5, as stated, fails: a payload with status 'success' that lacks
    the summary makes the composer raise, so no section is emitted,
    not even the identity section, and the loader shows its error
    alert instead of a report. *)
Lemma report_without_summary_emits_nothing :
  hr_status Reference.report_without_summary = VStr (lit "success")
  /\ Reference.section_due Reference.report_without_summary Reference.UserInformation
     = true
  /\ is_Some (user_info Reference.report_without_summary)
  /\ renderHealthReport_html Reference.plain_date Reference.upper_ascii
       Reference.report_without_summary
     = Throw TypeError
  /\ innerHTML
       (loadHealthReport_settled Reference.plain_date Reference.upper_ascii
          (Ok Reference.report_without_summary) initial)
       !! "#health-report-container"%string
     = Some report_error_alert
  /\ Reference.occurs (lit "User Information") report_error_alert = false.
Proof.
  split; [reflexivity |]. split; [reflexivity |]. split; [by eexists |].
  split; [vm_compute; reflexivity |]. split; vm_compute; reflexivity.
Qed.

(** *** The time-range selector *)

Section Controller.

Variable toLocaleDateString : value -> jstring.
Variable toUpperCase : jstring -> jstring.
Variable progressTabs : list jstring.

Abbreviation queryActiveTab := (queryActiveTab progressTabs).
Abbreviation onTimeRangeChange := (onTimeRangeChange progressTabs).
Abbreviation reached := (reached toLocaleDateString toUpperCase progressTabs).

(** What the handler of the selector does, in any state of the page. *)
Lemma onTimeRangeChange_requests (days : Z) (w : world) :
  requests (onTimeRangeChange days w) =
    match queryActiveTab w with
    | Some tab =>
        if bool_decide (tab = lit "weight-tab")
        then requests w ++ [apiBase ++ lit "/user/" ++ ToString (userId w)
                              ++ lit "/weight-trend?days=" ++ decimal days]
        else if bool_decide (tab = lit "blood-pressure-tab")
        then requests w ++ [apiBase ++ lit "/user/" ++ ToString (userId w)
                              ++ lit "/blood-pressure-trend?days=" ++ decimal days]
        else requests w
    | None => requests w
    end.
Proof.
  unfold ProgressTracker.onTimeRangeChange.
  change (ProgressTracker.queryActiveTab progressTabs (set_currentDays (VNum days) w))
    with (queryActiveTab w).
  destruct (queryActiveTab w) as [tab |]; [| reflexivity].
  repeat case_bool_decide; reflexivity.
Qed.

Lemma onTimeRangeChange_days (days : Z) (w : world) :
  currentDays (onTimeRangeChange days w) = VNum days.
Proof.
  unfold ProgressTracker.onTimeRangeChange.
  destruct (ProgressTracker.queryActiveTab _ _) as [tab |]; [| reflexivity].
  repeat case_bool_decide; reflexivity.
Qed.

(** C7.  In every state the controller reaches, a change of the time
    range stores the new day count; it issues a request exactly when
    the active tab is the weight tab or the blood-pressure tab (one
    request, for that tab's trend over the new range), and none when
    the goals tab or the report tab is active. *)
Theorem time_range_change_loads (user : value) (events : list event) (days : Z) :
  let w := reached user events in
  let w' := onTimeRangeChange days w in
  currentDays w' = VNum days
  /\ (queryActiveTab w = Some (lit "weight-tab") ->
       requests w' = requests w ++ [apiBase ++ lit "/user/" ++ ToString (userId w)
                                      ++ lit "/weight-trend?days=" ++ decimal days])
  /\ (queryActiveTab w = Some (lit "blood-pressure-tab") ->
       requests w' = requests w ++ [apiBase ++ lit "/user/" ++ ToString (userId w)
                                      ++ lit "/blood-pressure-trend?days=" ++ decimal days])
  /\ (queryActiveTab w = Some (lit "goals-tab")
       \/ queryActiveTab w = Some (lit "report-tab") ->
       requests w' = requests w)
  /\ (requests w' <> requests w ->
       queryActiveTab w = Some (lit "weight-tab")
       \/ queryActiveTab w = Some (lit "blood-pressure-tab")).
Proof.
  intros w w'. subst w'. generalize w. clear w. intros w.
  split; [apply onTimeRangeChange_days |].
  rewrite onTimeRangeChange_requests.
  repeat split.
  - intros ->. reflexivity.
  - intros ->. reflexivity.
  - intros [-> | ->]; reflexivity.
  - destruct (queryActiveTab w) as [tab |]; [| congruence].
    repeat case_bool_decide; subst; auto; congruence.
Qed.

End Controller.

Example report_of_sample :
  ProgressTracker.renderHealthReport_html Reference.plain_date Reference.upper_ascii
    Reference.sample_report
  = Ok (tpl "<div class=`health-report`><div class=`card mb-3`><div class=`card-header`>User Information</div><div class=`card-body`><p><strong>Name:</strong> Asha</p><p><strong>Age:</strong> 41</p><p><strong>Gender:</strong> female</p><p><strong>Height:</strong> 165 cm</p></div></div><div class=`card mb-3`><div class=`card-header`>Summary</div><div class=`card-body`><p><strong>Report Date:</strong> 2024-03-01</p><p><strong>Data Points Collected:</strong> 12</p><p><strong>Days Tracked:</strong> 30</p><p><strong>Metrics Tracked:</strong> weight</p></div></div><div class=`card mb-3`><div class=`card-header`>Weight Analysis</div><div class=`card-body`><p><strong>Total Change:</strong> -2 kg (-3%)</p><p><strong>Weekly Change Rate:</strong> 0 kg/week</p><p><strong>Trend:</strong> Decreasing</p></div></div><div class=`card mb-3`><div class=`card-header`>Recommendations</div><div class=`card-body`><ul><li>Keep logging your meals</li></ul></div></div></div>").
Proof. vm_compute. reflexivity. Qed.

End ProgressTrackerFacts.

(** ** The health consultation module *)

Module ConsultationFacts.
Import Consultation JsFacts.
Import Reference (tips_a, tips_b, overlapping_loads).




(** *** The health-tips cache *)

(** C8, as stated, fails: two loads of one category started before the
    first response each issue a request, and the second response
    overwrites the entry stored by the first. *)
Lemma health_tips_fetched_twice :
  healthTips (run (take 3 overlapping_loads)) !! lit "nutrition" = Some tips_a
  /\ healthTips (run overlapping_loads) !! lit "nutrition" = Some tips_b
  /\ tips_a <> tips_b
  /\ fetches (lit "nutrition") (run overlapping_loads) = 2%nat.
Proof. repeat split; try (vm_compute; reflexivity). discriminate. Qed.

(** Rendering touches the elements of the page only. *)
Lemma renderHealthTips_elements_only (t : tips) (p p' : page) :
  renderHealthTips t p = Ok p' ->
  healthTips p' = healthTips p /\ fetched p' = fetched p /\ pending p' = pending p.
Proof.
  unfold renderHealthTips.
  destruct (elements p !! _); [| by intros [= <-]].
  destruct (negb (tips_truthy t)); [by intros [= <-] |].
  destruct (tips_length_is_zero t); [by intros [= <-] |].
  destruct t; [by intros [= <-] | discriminate].
Qed.

Lemma cached_own (p : page) (c : jstring) (t : tips) :
  healthTips p !! c = Some t -> cached p c = t.
Proof. unfold cached. by intros ->. Qed.

(** A load served from the cache. *)
Lemma loadHealthTips_hit (p : page) (c : jstring) (t : tips) :
  healthTips p !! c = Some t -> tips_truthy t = true ->
  loadHealthTips c p = match renderHealthTips t p with Ok p' => p' | Throw _ => p end
  /\ healthTips (loadHealthTips c p) = healthTips p
  /\ fetched (loadHealthTips c p) = fetched p
  /\ pending (loadHealthTips c p) = pending p.
Proof.
  intros Hc Ht. unfold loadHealthTips. rewrite (cached_own _ _ _ Hc), Ht.
  destruct (elements p !! "health-tips-content"%string) eqn:He.
  - destruct (renderHealthTips t p) as [p' |] eqn:Hr; [| done].
    by destruct (renderHealthTips_elements_only _ _ _ Hr) as (? & ? & ?).
  - unfold renderHealthTips. by rewrite He.
Qed.

Lemma fetches_other (c c' : jstring) (p : page) (urls : list jstring) :
  c' <> c ->
  length (filter (fun url => url = HEALTH_TIPS ++ c) (urls ++ [HEALTH_TIPS ++ c']))
  = length (filter (fun url => url = HEALTH_TIPS ++ c) urls).
Proof.
  intros Hne. rewrite filter_app, length_app.
  rewrite filter_cons_False; [cbn; lia |].
  intros H. by apply app_inv_head in H.
Qed.

(** With a truthy entry stored for [c] and no request for [c] in
    flight, no event changes the entry or issues a request for [c]. *)
Lemma handle_keeps_entry (p : page) (e : event) (c : jstring) (t : tips) :
  healthTips p !! c = Some t -> tips_truthy t = true -> c ∉ pending p ->
  healthTips (handle p e) !! c = Some t
  /\ (c ∉ pending (handle p e))
  /\ fetches c (handle p e) = fetches c p.
Proof.
  intros Hc Ht Hp. destruct e as [c' | i resp]; cbn [handle].
  - destruct (decide (c' = c)) as [-> | Hne].
    + destruct (loadHealthTips_hit p c t Hc Ht) as (_ & H1 & H2 & H3).
      unfold fetches. by rewrite H1, H2, H3.
    + unfold loadHealthTips.
      destruct (elements p !! "health-tips-content"%string); [| done].
      destruct (tips_truthy (cached p c')).
      * destruct (renderHealthTips (cached p c') p) as [p' |] eqn:Hr; [| done].
        destruct (renderHealthTips_elements_only _ _ _ Hr) as (H1 & H2 & H3).
        unfold fetches. by rewrite H1, H2, H3.
      * cbn [healthTips pending fetched set_element fetches].
        split; [done |]. split.
        -- rewrite elem_of_app, list_elem_of_singleton. intros [? | ?]; [done | congruence].
        -- unfold fetches. cbn [fetched]. by apply fetches_other.
  - unfold loadHealthTips_settled.
    destruct (pending p !! i) as [c' |] eqn:Hi; [| done].
    assert (c' <> c) as Hne.
    { intros ->. apply Hp. by eapply list_elem_of_lookup_2. }
    assert (c ∉ delete i (pending p)) as Hp'.
    { intros Hin. apply Hp. by eapply list_elem_of_delete_inv. }
    destruct resp as [data | err].
    + destruct (renderHealthTips data _) as [p' |] eqn:Hr.
      * destruct (renderHealthTips_elements_only _ _ _ Hr) as (H1 & H2 & H3).
        unfold fetches. rewrite H1, H2, H3. cbn [healthTips pending fetched].
        by rewrite lookup_insert_ne.
      * cbn [healthTips pending fetched set_element fetches].
        by rewrite lookup_insert_ne.
    + done.
Qed.

(** The loop over the tips appends to the markup built so far. *)
Lemma append_tips_acc (entries : list (nat * Tip)) (html : jstring) :
  exists body, fold_left append_tip entries html = html ++ body.
Proof.
  revert html. induction entries as [| [index tip] entries IH]; intros html;
    cbn [fold_left].
  - exists []. by rewrite app_nil_r.
  - destruct (IH (append_tip html (index, tip))) as [body ->].
    unfold append_tip. rewrite <- app_assoc. by eexists.
Qed.

(** Events never remove the health-tips surface. *)
Lemma renderHealthTips_surface (t : tips) (p p' : page) :
  renderHealthTips t p = Ok p' ->
  is_Some (elements p !! "health-tips-content"%string) ->
  is_Some (elements p' !! "health-tips-content"%string).
Proof.
  unfold renderHealthTips. intros H Hs.
  destruct (elements p !! _) eqn:He; [| by injection H as <-].
  destruct (negb (tips_truthy t)); [injection H as <-; by rewrite He |].
  destruct (tips_length_is_zero t);
    [injection H as <-; cbn [elements set_element]; by rewrite lookup_insert_eq |].
  destruct t; [| discriminate].
  injection H as <-. cbn [elements set_element]. by rewrite lookup_insert_eq.
Qed.

Lemma handle_keeps_surface (p : page) (e : event) :
  is_Some (elements p !! "health-tips-content"%string) ->
  is_Some (elements (handle p e) !! "health-tips-content"%string).
Proof.
  intros Hs. destruct e as [c | i resp]; cbn [handle].
  - unfold loadHealthTips. destruct (elements p !! _) eqn:He; [| done].
    destruct (tips_truthy (cached p c)).
    + destruct (renderHealthTips _ p) as [p' |] eqn:Hr; [| by rewrite He].
      eapply renderHealthTips_surface; [exact Hr | by rewrite He].
    + cbn [elements set_element]. by rewrite lookup_insert_eq.
  - unfold loadHealthTips_settled. destruct (pending p !! i); [| done].
    destruct resp as [data | err];
      [| cbn [elements set_element]; by rewrite lookup_insert_eq].
    destruct (renderHealthTips data _) as [p' |] eqn:Hr;
      [| cbn [elements set_element]; by rewrite lookup_insert_eq].
    by eapply renderHealthTips_surface.
Qed.

(** C8, amended.  On a page with the health-tips surface, once a
    truthy response is stored under a category and no request for the
    category is still in flight, then whatever happens next: the entry
    is neither removed nor overwritten, no request for the category is
    in flight and none is issued any more; a load of the category
    issues no request and hands the stored value to the renderer, which
    renders an array of tips (the notice for an empty one, the
    accordion otherwise) and raises on a truthy string, number or
    boolean (on any value but a function), in which case the page
    stays as it is. *)
Theorem cached_tips_are_served
  (p : page) (c : jstring) (t : tips) (events : list event) :
  is_Some (elements p !! "health-tips-content"%string) ->
  healthTips p !! c = Some t ->
  tips_truthy t = true ->
  c ∉ pending p ->
  let q := fold_left handle events p in
  healthTips q !! c = Some t
  /\ (c ∉ pending q)
  /\ fetches c q = fetches c p
  /\ fetched (loadHealthTips c q) = fetched q
  /\ healthTips (loadHealthTips c q) = healthTips q
  /\ pending (loadHealthTips c q) = pending q
  /\ match t with
     | TipsArray items =>
         renderHealthTips t q = Ok (loadHealthTips c q)
         /\ exists html,
              elements (loadHealthTips c q) !! "health-tips-content"%string = Some html
              /\ if bool_decide (items = []) then html = no_tips_message
                 else exists body,
                        html = tpl "<div class=`accordion` id=`healthTipsAccordion`>"
                               ++ body ++ tpl "</div>"
     | TipsOther v =>
         (forall name arity, v <> VFun name arity) ->
         renderHealthTips t q = Throw TypeError /\ loadHealthTips c q = q
     end.
Proof.
  intros Hs Hc Ht Hp q.
  assert (is_Some (elements q !! "health-tips-content"%string)
          /\ healthTips q !! c = Some t /\ (c ∉ pending q)
          /\ fetches c q = fetches c p) as (Hs' & Hc' & Hp' & Hf).
  { subst q. revert p Hs Hc Hp.
    induction events as [| e events IH]; intros p Hs Hc Hp; cbn [fold_left]; [done |].
    destruct (handle_keeps_entry p e c t Hc Ht Hp) as (H1 & H2 & H3).
    destruct (IH _ (handle_keeps_surface p e Hs) H1 H2) as (? & ? & ? & ?).
    repeat split; try done. congruence. }
  destruct (loadHealthTips_hit q c t Hc' Ht) as (Hload & H1 & H2 & H3).
  repeat (split; [done |]).
  destruct Hs' as [old Hold].
  unfold renderHealthTips in Hload |- *. rewrite Hold in Hload |- *.
  rewrite Ht in Hload |- *. cbn [negb] in Hload |- *.
  destruct t as [items | v].
  - destruct items as [| item items]; cbn [tips_length_is_zero length Nat.eqb] in *.
    + rewrite Hload. split; [reflexivity |]. eexists. split.
      * cbn [elements set_element]. by rewrite lookup_insert_eq.
      * by rewrite bool_decide_eq_true_2.
    + rewrite Hload. split; [reflexivity |]. eexists. split.
      * cbn [elements set_element]. by rewrite lookup_insert_eq.
      * rewrite bool_decide_eq_false_2 by discriminate.
        destruct (append_tips_acc (zip (seq 0 (S (length items))) (item :: items))
                    (tpl "<div class=`accordion` id=`healthTipsAccordion`>"))
          as [body ->].
        exists body. by rewrite <- app_assoc.
  - intros Hv.
    assert (tips_length_is_zero (TipsOther v) = false) as Hlen.
    { destruct v as [| | | | str | name arity | | |]; try reflexivity.
      - cbn [tips_truthy truthy] in Ht. cbn [tips_length_is_zero].
        by apply negb_true_iff in Ht.
      - by destruct (Hv name arity). }
    rewrite Hlen in Hload |- *. by rewrite Hload.
Qed.

End ConsultationFacts.

(** ** The session module *)

Module AuthFacts.
Import Auth.

Ltac cases_N :=
  repeat match goal with
  | |- context [N.leb ?a ?b] => destruct (N.leb_spec a b)
  | |- context [N.ltb ?a ?b] => destruct (N.ltb_spec a b)
  | |- context [N.eqb ?a ?b] => destruct (N.eqb_spec a b)
  end.

Ltac euclid := zify; Z.to_euclidean_division_equations; lia.

Lemma b64_index_char (n : N) : n < 64 -> b64_index (b64_char n) = Some n.
Proof.
  intros Hn. unfold b64_index, b64_char.
  cases_N; cbn [andb]; try lia; f_equal; lia.
Qed.

Lemma b64_char_not_pad (n : N) : n < 64 -> b64_char n <> pad.
Proof.
  intros Hn Heq. pose proof (b64_index_char n Hn) as H.
  rewrite Heq in H. discriminate.
Qed.

Lemma b64_char_not_whitespace (n : N) : n < 64 -> ascii_whitespace (b64_char n) = false.
Proof.
  intros Hn. destruct (ascii_whitespace (b64_char n)) eqn:Hws; [| reflexivity].
  pose proof (b64_index_char n Hn) as H.
  unfold ascii_whitespace in Hws.
  repeat (apply orb_prop in Hws; destruct Hws as [Hws | Hws]);
    apply N.eqb_eq in Hws; rewrite Hws in H; discriminate.
Qed.

Lemma list_ind3 {A} (P : list A -> Prop) :
  P [] -> (forall a, P [a]) -> (forall a b, P [a; b]) ->
  (forall a b c r, P r -> P (a :: b :: c :: r)) ->
  forall l, P l.
Proof.
  intros H0 H1 H2 H3. fix IH 1.
  intros [| a [| b [| c r]]];
    [exact H0 | exact (H1 a) | exact (H2 a b) | exact (H3 a b c r (IH r))].
Qed.

Lemma sextets_roundtrip (a b c : N) :
  a <= 255 -> b <= 255 -> c <= 255 ->
  a / 4 * 4 + (a mod 4 * 16 + b / 16) / 16 = a
  /\ (a mod 4 * 16 + b / 16) mod 16 * 16 + (b mod 16 * 4 + c / 64) / 4 = b
  /\ (b mod 16 * 4 + c / 64) mod 4 * 64 + c mod 64 = c
  /\ a / 4 < 64 /\ a mod 4 * 16 + b / 16 < 64
  /\ b mod 16 * 4 + c / 64 < 64 /\ c mod 64 < 64.
Proof. intros Ha Hb Hc. repeat split; euclid. Qed.

Lemma b64_encode_split (l : list N) :
  b64_encode l = map b64_char (Reference.b64_sextets l) ++ Reference.b64_padding l.
Proof.
  induction l as [| a | a b | a b c r IH] using list_ind3; try reflexivity.
  cbn [b64_encode Reference.b64_sextets Reference.b64_padding].
  rewrite IH, map_app, <- app_assoc. reflexivity.
Qed.

Lemma b64_sextets_bound (l : list N) :
  Forall (fun u => u <= 255) l -> Forall (fun n => n < 64) (Reference.b64_sextets l).
Proof.
  induction l as [| a | a b | a b c r IH] using list_ind3; intros H;
    cbn [Reference.b64_sextets].
  - constructor.
  - inversion_clear H. repeat constructor; euclid.
  - inversion_clear H as [| ? ? Ha H']. inversion_clear H' as [| ? ? Hb _].
    repeat constructor; euclid.
  - inversion_clear H as [| ? ? Ha H']. inversion_clear H' as [| ? ? Hb H''].
    inversion_clear H'' as [| ? ? Hc Hr].
    apply Forall_app. split; [| by apply IH].
    repeat constructor; euclid.
Qed.

Lemma b64_decode_sextets (l : list N) :
  Forall (fun u => u <= 255) l -> b64_decode (Reference.b64_sextets l) = l.
Proof.
  induction l as [| a | a b | a b c r IH] using list_ind3; intros H;
    cbn [Reference.b64_sextets b64_decode app].
  - reflexivity.
  - inversion_clear H. f_equal. euclid.
  - inversion_clear H as [| ? ? Ha H']. inversion_clear H' as [| ? ? Hb _].
    f_equal; [| f_equal]; euclid.
  - inversion_clear H as [| ? ? Ha H']. inversion_clear H' as [| ? ? Hb H''].
    inversion_clear H'' as [| ? ? Hc Hr].
    rewrite (IH Hr).
    destruct (sextets_roundtrip a b c Ha Hb Hc) as (E1 & E2 & E3 & _).
    by rewrite E1, E2, E3.
Qed.

Lemma b64_padding_cases (l : list N) :
  Reference.b64_padding l = [] \/ Reference.b64_padding l = [pad]
  \/ Reference.b64_padding l = [pad; pad].
Proof.
  induction l as [| a | a b | a b c r IH] using list_ind3; cbn; auto.
Qed.

Lemma b64_lengths (l : list N) :
  exists k, (length (b64_encode l) = 4 * k)%nat
  /\ (length (Reference.b64_sextets l) = 4 * k
       \/ length (Reference.b64_sextets l) + 2 = 4 * k
       \/ length (Reference.b64_sextets l) + 1 = 4 * k)%nat.
Proof.
  induction l as [| a | a b | a b c r IH] using list_ind3.
  - exists 0%nat. cbn. auto.
  - exists 1%nat. cbn. auto.
  - exists 1%nat. cbn. auto.
  - destruct IH as (k & H1 & H2). exists (S k).
    cbn [b64_encode Reference.b64_sextets]. rewrite !length_app. cbn [length]. lia.
Qed.

Lemma sextets_of_chars (ns : list N) :
  Forall (fun n => n < 64) ns -> sextets_of (map b64_char ns) = Some ns.
Proof.
  induction 1 as [| n ns Hn _ IH]; [reflexivity |].
  cbn [map sextets_of]. by rewrite (b64_index_char n Hn), IH.
Qed.

Lemma strip_padding_app (X P : jstring) :
  Forall (fun u => u <> pad) X ->
  P = [] \/ P = [pad] \/ P = [pad; pad] ->
  strip_padding (X ++ P) = X.
Proof.
  intros HX HP. unfold strip_padding. rewrite rev_app_distr.
  assert (forall a r, rev X = a :: r -> (a =? pad) = false) as Hlast.
  { intros a r Hr. apply N.eqb_neq. rewrite Forall_forall in HX. apply HX.
    apply list_elem_of_In, in_rev. rewrite Hr. by left. }
  destruct HP as [-> | [-> | ->]]; cbn [rev app].
  - destruct (rev X) as [| a r] eqn:Hr; [by rewrite app_nil_r |].
    by rewrite (Hlast a r eq_refl), app_nil_r.
  - rewrite N.eqb_refl. destruct (rev X) as [| b r'] eqn:Hr.
    + apply (f_equal (@rev N)) in Hr. by rewrite rev_involutive in Hr.
    + rewrite (Hlast b r' eq_refl), <- Hr. apply rev_involutive.
  - rewrite !N.eqb_refl. apply rev_involutive.
Qed.

Lemma filter_all {A} (P : A -> Prop) `{forall x, Decision (P x)} (l : list A) :
  Forall P l -> filter P l = l.
Proof.
  induction 1 as [| x l Hx _ IH]; [reflexivity |].
  by rewrite filter_cons_True, IH.
Qed.

Lemma b64_encode_no_whitespace (l : list N) :
  Forall (fun u => u <= 255) l ->
  Forall (fun u => negb (ascii_whitespace u) = true) (b64_encode l).
Proof.
  intros Hl. rewrite b64_encode_split. apply Forall_app. split.
  - apply Forall_fmap. eapply Forall_impl; [exact (b64_sextets_bound l Hl) |].
    intros n Hn. cbn. by rewrite b64_char_not_whitespace.
  - destruct (b64_padding_cases l) as [-> | [-> | ->]]; repeat constructor.
Qed.

(** [atob] undoes [btoa]. *)
Lemma atob_b64_encode (l : list N) :
  Forall (fun u => u <= 255) l -> atob (b64_encode l) = Ok l.
Proof.
  intros Hl. pose proof (b64_sextets_bound l Hl) as Hns.
  assert (Forall (fun u => u <> pad) (map b64_char (Reference.b64_sextets l))) as Hnp.
  { apply Forall_fmap. eapply Forall_impl; [exact Hns |].
    intros n Hn. by apply b64_char_not_pad. }
  destruct (b64_lengths l) as (k & Hlen & Hsx).
  unfold atob.
  rewrite (filter_all _ _ (b64_encode_no_whitespace l Hl)).
  assert ((length (b64_encode l) mod 4 =? 0)%nat = true) as ->.
  { apply Nat.eqb_eq. rewrite Hlen. euclid. }
  rewrite b64_encode_split, (strip_padding_app _ _ Hnp (b64_padding_cases l)).
  rewrite length_map.
  assert ((length (Reference.b64_sextets l) mod 4 =? 1)%nat = false) as ->.
  { apply Nat.eqb_neq. euclid. }
  by rewrite (sextets_of_chars _ Hns), (b64_decode_sextets l Hl).
Qed.

(** Applying the key twice gives the text back. *)
Lemma xor_units_involutive (text secretKey : jstring) :
  Forall (fun u => u < 65536) text ->
  (forall i u, text !! i = Some u -> N.lxor u (key_unit secretKey i) <= 255) ->
  xor_units (xor_units text secretKey) secretKey = text.
Proof.
  intros Hwf Hlow. apply list_eq. intros i. unfold xor_units.
  rewrite !list_lookup_imap. destruct (text !! i) as [u |] eqn:Hu; [| reflexivity].
  cbn [fmap option_fmap option_map]. f_equal.
  pose proof (Hlow i u Hu) as Hx.
  rewrite Forall_forall in Hwf.
  pose proof (Hwf u (list_elem_of_lookup_2 _ _ _ Hu)) as Hu16.
  unfold fromCharCode.
  rewrite (N.mod_small (N.lxor u _)) by lia.
  rewrite N.lxor_assoc, N.lxor_nilpotent, N.lxor_0_r.
  by apply N.mod_small.
Qed.

Lemma xor_units_low (text secretKey : jstring) :
  (forall i u, text !! i = Some u -> N.lxor u (key_unit secretKey i) <= 255) ->
  Forall (fun u => u <= 255) (xor_units text secretKey).
Proof.
  intros Hlow. apply Forall_lookup. intros i x. unfold xor_units.
  rewrite list_lookup_imap. destruct (text !! i) as [u |] eqn:Hu; [| discriminate].
  intros [= <-]. pose proof (Hlow i u Hu). unfold fromCharCode.
  rewrite N.mod_small; lia.
Qed.

(** C9.  [decrypt] undoes [encrypt]: for every text (a string, so each
    code unit is below 2^16) and every key, non-empty or not, such that
    each code unit of the text XORed with its key unit stays within
    0..255, [encrypt] returns an encoding and [decrypt] of that
    encoding under the same key returns the text. *)
Theorem decrypt_encrypt (text secretKey : jstring) :
  Forall (fun u => u < 65536) text ->
  (forall i u, text !! i = Some u -> N.lxor u (key_unit secretKey i) <= 255) ->
  exists encoded,
    encrypt text secretKey = Ok encoded
    /\ decrypt encoded secretKey = Some text.
Proof.
  intros Hwf Hlow. pose proof (xor_units_low text secretKey Hlow) as Hx.
  exists (b64_encode (xor_units text secretKey)). split.
  - unfold encrypt, btoa.
    assert (forallb (fun u => u <=? 255) (xor_units text secretKey) = true) as ->;
      [| reflexivity].
    apply forallb_forall. intros u Hin. apply N.leb_le.
    rewrite Forall_forall in Hx. by apply Hx, list_elem_of_In.
  - unfold decrypt. rewrite (atob_b64_encode _ Hx).
    by rewrite xor_units_involutive.
Qed.

Example atob_samples :
  atob (lit "TWFu") = Ok (lit "Man")
  /\ atob (lit "TWE=") = Ok (lit "Ma")
  /\ atob (lit " T W E ") = Ok (lit "Ma")
  /\ atob (lit "TWE==") = Throw InvalidCharacterError
  /\ atob (lit "!") = Throw InvalidCharacterError
  /\ btoa (lit "Man is d") = Ok (lit "TWFuIGlzIGQ=")
  /\ btoa [8226] = Throw InvalidCharacterError.
Proof. repeat split; vm_compute; reflexivity. Qed.

(** *** [checkAuth] *)

(** C10, as stated, fails when the token item exists but is the empty
    string: [token && userData] is then falsy and [checkAuth] returns
    false without touching the session. *)
Lemma checkAuth_empty_token :
  Reference.parse_null_only (lit "null") = Ok None
  /\ Auth.localStorage Empty_set Reference.empty_token_session !! AUTH_TOKEN_KEY = Some []
  /\ Auth.localStorage Empty_set Reference.empty_token_session !! USER_DATA_KEY
      = Some (lit "!")
  /\ Reference.valid_base64 (lit "!") = false
  /\ decrypt (lit "!") SECRET_KEY = None
  /\ checkAuth Empty_set Reference.parse_null_only Reference.empty_token_session
      = (false, Reference.empty_token_session).
Proof. repeat split; vm_compute; reflexivity. Qed.

Section Session.

Variable json : Type.
Variable JSON_parse : jstring -> result (option json).

(** C10, amended.  If localStorage holds a non-empty auth token and
    user data that is not valid Base64, then [decrypt] returns null,
    [JSON.parse] of null yields null without raising, and [checkAuth]
    returns true with [isAuthenticated] set and [currentUser] null; the
    branch calling [logout] is not taken, so the stored items stay. *)
Theorem checkAuth_accepts_undecodable_data
  (a : session json) (token userData : jstring) :
  JSON_parse (lit "null") = Ok None ->
  localStorage json a !! AUTH_TOKEN_KEY = Some token ->
  token <> [] ->
  localStorage json a !! USER_DATA_KEY = Some userData ->
  Reference.valid_base64 userData = false ->
  decrypt userData SECRET_KEY = None
  /\ checkAuth json JSON_parse a
      = (true, {| localStorage := localStorage json a;
                  isAuthenticated := true;
                  currentUser := None |}).
Proof.
  intros Hnull Htok Hne Hdata Hbad.
  assert (decrypt userData SECRET_KEY = None) as Hdec.
  { unfold decrypt. unfold Reference.valid_base64 in Hbad.
    by destruct (atob userData). }
  split; [exact Hdec |].
  unfold checkAuth. rewrite Htok, Hdata.
  destruct token as [| t0 token]; [done |].
  destruct userData as [| u0 userData]; [discriminate Hbad |].
  rewrite Hdec. cbn [JSON_parse_arg]. by rewrite Hnull.
Qed.

End Session.

End AuthFacts.

(** ** The formatter *)

Module FormatterFacts.
Import Formatter.

Example format_bold :
  formatResponse (lit "**bold** text") = lit "<strong>bold</strong> text".
Proof. vm_compute. reflexivity. Qed.

Example format_blocks :
  formatResponse (lit "# Title" ++ [newline] ++ lit "* item" ++ [newline]
                    ++ lit "12. twelve" ++ [newline] ++ lit "para" ++ [newline; newline]
                    ++ lit "end")
  = lit "<h1>Title</h1><p>" ++ bullet_glyph ++ lit " item</p><p>12. twelve</p><p>para</p>end".
Proof. vm_compute. reflexivity. Qed.

(** C3, as stated, fails: the formatter is not idempotent.  The
    replacement for a numbered item keeps the number, the period and
    the space, so when a line break is left after the item the second
    pass matches the item again and wraps it once more. *)
Lemma formatResponse_not_idempotent :
  formatResponse Reference.numbered_item = lit "<p>1. x</p>" ++ [newline]
  /\ formatResponse (formatResponse Reference.numbered_item)
     = lit "<p><p>1. x</p></p>"
  /\ formatResponse (formatResponse Reference.numbered_item)
      <> formatResponse Reference.numbered_item.
Proof. repeat split; vm_compute; congruence. Qed.

(** *** Where no match can start, a replacement changes nothing *)

Lemma replace_unchanged (Q : jstring -> Prop) (r : regex)
  (by_ : list jstring -> jstring) :
  (forall u s, Q (u :: s) -> Q s) ->
  (forall t, Q t -> match_here r t = None) ->
  forall s, Q s -> replace r by_ s = s.
Proof.
  intros Htail Hnone. unfold replace.
  induction s as [| u s IH]; intros HQ; [reflexivity |].
  cbn [replace_from]. rewrite (Hnone _ HQ). f_equal. apply IH. by eapply Htail.
Qed.

Lemma match_one (p : N -> bool) (r : regex) (s : jstring) :
  match_here (one p :: r) s =
    match s with
    | u :: s' => if p u then take_unit u <$> (skip_atom <$> match_here r s') else None
    | [] => None
    end.
Proof. reflexivity. Qed.

Lemma match_one_none (p : N -> bool) (r : regex) (u : N) (s : jstring) :
  p u = false \/ match_here r s = None -> match_here (one p :: r) (u :: s) = None.
Proof.
  rewrite match_one. intros [-> | ->]; [reflexivity |]. by destruct (p u).
Qed.

Lemma marker_free_tail (u : N) (s : jstring) :
  Reference.marker_free (u :: s) = true -> Reference.marker_free s = true.
Proof. cbn [Reference.marker_free]. by intros [_ ?]%andb_prop. Qed.

Lemma marker_free_here (s : jstring) :
  Reference.marker_free s = true -> Reference.marker_at s = false.
Proof.
  destruct s as [| u s]; [reflexivity |]. cbn [Reference.marker_free].
  intros [H _]%andb_prop. by apply negb_true_iff in H.
Qed.

(** The expressions for bold text, bullets and level-one headings need
    a marker where they start. *)
Lemma no_bold (t : jstring) :
  Reference.marker_free t = true -> match_here bold t = None.
Proof.
  intros H%marker_free_here. destruct t as [| a [| b rest]]; try reflexivity.
  - unfold bold. apply match_one_none. right. reflexivity.
  - unfold bold. rewrite match_one. unfold is_unit at 1.
    destruct (N.eqb a star_) eqn:Ha; [| reflexivity].
    rewrite match_one. unfold is_unit at 1.
    destruct (N.eqb b star_) eqn:Hb; [| reflexivity].
    cbn [Reference.marker_at] in H. by rewrite Ha, Hb in H.
Qed.

Lemma no_marker_then_space (c : N) (r : regex) (t : jstring) :
  c = star_ \/ c = hash_ ->
  Reference.marker_free t = true ->
  match_here (one (is_unit c) :: one white_space :: r) t = None.
Proof.
  intros Hc H%marker_free_here. destruct t as [| a [| b rest]]; try reflexivity.
  - apply match_one_none. right. reflexivity.
  - rewrite match_one. unfold is_unit at 1.
    destruct (N.eqb a c) eqn:Ha; [| reflexivity].
    rewrite match_one. destruct (white_space b) eqn:Hb; [| reflexivity].
    apply N.eqb_eq in Ha. subst a. cbn [Reference.marker_at] in H.
    rewrite Hb in H. destruct Hc as [-> | ->]; cbn in H;
      rewrite ?orb_true_r in H; discriminate.
Qed.

Lemma no_bullet (t : jstring) :
  Reference.marker_free t = true -> match_here bullet t = None.
Proof. apply no_marker_then_space. by left. Qed.

Lemma no_heading1 (t : jstring) :
  Reference.marker_free t = true -> match_here heading1 t = None.
Proof. apply no_marker_then_space. by right. Qed.

Lemma no_heading2 (t : jstring) :
  Reference.marker_free t = true -> match_here heading2 t = None.
Proof.
  intros H. destruct t as [| a t]; [reflexivity |].
  apply match_one_none. right. apply no_heading1. by eapply marker_free_tail.
Qed.

Lemma no_heading3 (t : jstring) :
  Reference.marker_free t = true -> match_here heading3 t = None.
Proof.
  intros H. destruct t as [| a t]; [reflexivity |].
  apply match_one_none. right. apply no_heading2. by eapply marker_free_tail.
Qed.

(** A run of digits before a period and white space ends in a marker. *)
Lemma digits_then_period (r : regex) (t : jstring) (d : N) :
  digit d = true ->
  Reference.marker_free (d :: t) = true ->
  greedy_loop digit (match_here (one (is_unit period) :: one white_space :: r)) t = None.
Proof.
  revert d. induction t as [| u t IH]; intros d Hd Hfree.
  - reflexivity.
  - cbn [greedy_loop].
    assert ((if digit u then take_unit u <$> greedy_loop digit
               (match_here (one (is_unit period) :: one white_space :: r)) t
             else None) = None) as ->.
    { destruct (digit u) eqn:Hu; [| reflexivity].
      rewrite (IH u Hu); [reflexivity |]. by eapply marker_free_tail. }
    apply marker_free_here in Hfree.
    rewrite match_one. unfold is_unit at 1.
    destruct (N.eqb u period) eqn:Hp; [| reflexivity].
    destruct t as [| w t]; [reflexivity |].
    rewrite match_one. destruct (white_space w) eqn:Hw; [| reflexivity].
    cbn [Reference.marker_at] in Hfree.
    rewrite Hd, Hp, Hw in Hfree. cbn in Hfree.
    by rewrite !orb_true_r in Hfree.
Qed.

Lemma match_plus (p : N -> bool) (r : regex) (s : jstring) :
  match_here (greedy_plus p :: r) s =
    match s with
    | u :: s' => if p u then take_unit u <$> greedy_loop p (match_here r) s' else None
    | [] => None
    end.
Proof. reflexivity. Qed.

Lemma match_lazy (p : N -> bool) (r : regex) (s : jstring) :
  match_here (lazy_star p :: r) s = lazy_loop p (match_here r) s.
Proof. reflexivity. Qed.

Lemma no_numbered (t : jstring) :
  Reference.marker_free t = true -> match_here numbered t = None.
Proof.
  intros H. destruct t as [| d t]; [reflexivity |].
  unfold numbered. rewrite match_plus.
  destruct (digit d) eqn:Hd; [| reflexivity].
  by rewrite (digits_then_period _ t d Hd H).
Qed.

Lemma applyMarkers_unchanged (text : jstring) :
  Reference.marker_free text = true -> applyMarkers text = text.
Proof.
  intros H. unfold applyMarkers.
  rewrite (replace_unchanged _ bold _ marker_free_tail no_bold text H).
  rewrite (replace_unchanged _ bullet _ marker_free_tail no_bullet text H).
  rewrite (replace_unchanged _ heading3 _ marker_free_tail no_heading3 text H).
  rewrite (replace_unchanged _ heading2 _ marker_free_tail no_heading2 text H).
  rewrite (replace_unchanged _ heading1 _ marker_free_tail no_heading1 text H).
  by rewrite (replace_unchanged _ numbered _ marker_free_tail no_numbered text H).
Qed.

(** *** Without a line break the last three replacements find nothing *)

Lemma no_line_break_tail (u : N) (s : jstring) :
  Reference.no_line_break (u :: s) = true -> Reference.no_line_break s = true.
Proof. unfold Reference.no_line_break. cbn [forallb]. by intros [_ ?]%andb_prop. Qed.

Lemma no_line_break_head (u : N) (s : jstring) :
  Reference.no_line_break (u :: s) = true -> is_unit newline u = false.
Proof.
  unfold Reference.no_line_break, is_unit. cbn [forallb].
  intros [H _]%andb_prop. by apply negb_true_iff in H.
Qed.

Lemma no_break_match (r : regex) (t : jstring) :
  Reference.no_line_break t = true -> match_here (one (is_unit newline) :: r) t = None.
Proof.
  intros H. destruct t as [| u t]; [reflexivity |].
  apply match_one_none. left. by eapply no_line_break_head.
Qed.

Lemma no_double_break (t : jstring) :
  Reference.no_line_break t = true -> match_here double_break t = None.
Proof. apply no_break_match. Qed.

Lemma no_single_break (t : jstring) :
  Reference.no_line_break t = true -> match_here single_break t = None.
Proof.
  intros H. destruct t as [| a t]; [reflexivity |].
  apply match_one_none. right. apply no_break_match. by eapply no_line_break_tail.
Qed.

Lemma lazy_loop_no_break (p : N -> bool) (r : regex) (t : jstring) :
  Reference.no_line_break t = true ->
  lazy_loop p (match_here (one (is_unit newline) :: r)) t = None.
Proof.
  induction t as [| u t IH]; intros H.
  - reflexivity.
  - cbn [lazy_loop]. rewrite (no_break_match r _ H).
    rewrite IH by (by eapply no_line_break_tail). by destruct (p u).
Qed.

Lemma no_paragraph (t : jstring) :
  Reference.no_line_break t = true -> match_here paragraph t = None.
Proof.
  intros H. destruct t as [| a t]; [reflexivity |].
  apply match_one_none. right. rewrite match_lazy.
  apply lazy_loop_no_break. by eapply no_line_break_tail.
Qed.

Lemma collapseBreaks_unchanged (text : jstring) :
  Reference.no_line_break text = true -> collapseBreaks text = text.
Proof.
  intros H. unfold collapseBreaks.
  rewrite (replace_unchanged _ paragraph _ no_line_break_tail no_paragraph text H).
  rewrite (replace_unchanged _ double_break _ no_line_break_tail no_double_break text H).
  by rewrite (replace_unchanged _ single_break _ no_line_break_tail no_single_break text H).
Qed.

(** *** Without a line break only bold text is replaced *)

Lemma greedy_loop_no_break (p : N -> bool) (r : regex) (t : jstring) :
  Reference.no_line_break t = true ->
  (forall t', Reference.no_line_break t' = true -> match_here r t' = None) ->
  greedy_loop p (match_here r) t = None.
Proof.
  intros Ht Hr. induction t as [| u t IH].
  - cbn [greedy_loop]. by rewrite Hr.
  - cbn [greedy_loop]. rewrite IH by (by eapply no_line_break_tail).
    rewrite (Hr _ Ht). by destruct (p u).
Qed.

Lemma once_no_break (p : N -> bool) (r : regex) (t : jstring) :
  Reference.no_line_break t = true ->
  (forall t', Reference.no_line_break t' = true -> match_here r t' = None) ->
  match_here (one p :: r) t = None.
Proof.
  intros Ht Hr. destruct t as [| u t]; [reflexivity |].
  apply match_one_none. right. apply Hr. by eapply no_line_break_tail.
Qed.

Lemma lazy_no_break (p : N -> bool) (t : jstring) :
  Reference.no_line_break t = true ->
  match_here [lazy_star p; one (is_unit newline)] t = None.
Proof. intros Ht. rewrite match_lazy. by apply lazy_loop_no_break. Qed.

Lemma line_bullet (t : jstring) :
  Reference.no_line_break t = true -> match_here bullet t = None.
Proof.
  intros Ht. unfold bullet.
  repeat (apply once_no_break; [done | clear t Ht; intros t Ht]).
  by apply lazy_no_break.
Qed.

Lemma line_heading3 (t : jstring) :
  Reference.no_line_break t = true -> match_here heading3 t = None.
Proof.
  intros Ht. unfold heading3.
  repeat (apply once_no_break; [done | clear t Ht; intros t Ht]).
  by apply lazy_no_break.
Qed.

Lemma line_heading2 (t : jstring) :
  Reference.no_line_break t = true -> match_here heading2 t = None.
Proof.
  intros Ht. unfold heading2.
  repeat (apply once_no_break; [done | clear t Ht; intros t Ht]).
  by apply lazy_no_break.
Qed.

Lemma line_heading1 (t : jstring) :
  Reference.no_line_break t = true -> match_here heading1 t = None.
Proof.
  intros Ht. unfold heading1.
  repeat (apply once_no_break; [done | clear t Ht; intros t Ht]).
  by apply lazy_no_break.
Qed.

Lemma line_numbered (t : jstring) :
  Reference.no_line_break t = true -> match_here numbered t = None.
Proof.
  intros Ht. unfold numbered. rewrite match_plus.
  destruct t as [| u t]; [reflexivity |].
  rewrite greedy_loop_no_break; [by destruct (digit u) | by eapply no_line_break_tail |].
  clear u t Ht. intros t Ht.
  repeat (apply once_no_break; [done | clear t Ht; intros t Ht]).
  by apply lazy_no_break.
Qed.

(** *** Matches of the expression for bold text *)

Abbreviation two_stars := [one (is_unit star_); one (is_unit star_)].
Abbreviation closing := (lazy_loop dot (match_here two_stars)).
Abbreviation strong :=
  (fun g : list jstring => lit "<strong>" ++ seg 2 g ++ lit "</strong>").
Abbreviation bolden := (replace bold strong).

Lemma match_two_stars (t : jstring) :
  match_here two_stars t =
    if Reference.two_stars_at t then Some ([[star_]; [star_]], drop 2 t) else None.
Proof.
  destruct t as [| a [| b rest]]; [reflexivity | |].
  - rewrite match_one. unfold is_unit at 1. by destruct (N.eqb a star_).
  - rewrite !match_one. unfold is_unit. cbn [Reference.two_stars_at].
    destruct (N.eqb_spec a star_) as [-> |]; [| reflexivity].
    destruct (N.eqb_spec b star_) as [-> |]; reflexivity.
Qed.

Lemma closing_step (t : jstring) :
  closing t =
    if Reference.two_stars_at t then Some ([[]; [star_]; [star_]], drop 2 t)
    else match t with
         | u :: t' => if dot u then take_unit u <$> closing t' else None
         | [] => None
         end.
Proof.
  destruct t as [| u t]; cbn [lazy_loop]; rewrite match_two_stars;
    by destruct (Reference.two_stars_at _).
Qed.

(** The closing marker found is the first one, and only units that [.]
    matches are passed over. *)
Lemma closing_found (t : jstring) (m : matched) :
  closing t = Some m ->
  exists cap rest,
    t = cap ++ star_ :: star_ :: rest
    /\ m = ([cap; [star_]; [star_]], rest)
    /\ forallb dot cap = true
    /\ forall i, (i < length cap)%nat -> Reference.two_stars_at (drop i t) = false.
Proof.
  revert m. induction t as [| u t IH]; intros m; rewrite closing_step.
  - discriminate.
  - destruct (Reference.two_stars_at (u :: t)) eqn:Hat.
    + intros [= <-]. exists [], (drop 2 (u :: t)). cbn [app length forallb].
      repeat split; [| intros i Hi; lia].
      destruct t as [| v t]; [discriminate |]. cbn [Reference.two_stars_at] in Hat.
      apply andb_prop in Hat as [->%N.eqb_eq ->%N.eqb_eq]. reflexivity.
    + destruct (dot u) eqn:Hu; [| discriminate].
      destruct (closing t) as [m' |] eqn:Hm'; [| discriminate].
      intros [= <-]. destruct (IH _ eq_refl) as (cap & rest & -> & -> & Hdots & Hmin).
      exists (u :: cap), rest. cbn [app length forallb]. rewrite Hu, Hdots.
      repeat split. intros [| i] Hi; [exact Hat |]. cbn [drop]. apply Hmin. lia.
Qed.

Lemma closing_exists (cap rest : jstring) :
  forallb dot cap = true -> is_Some (closing (cap ++ star_ :: star_ :: rest)).
Proof.
  induction cap as [| u cap IH]; cbn [app forallb]; intros Hdots; rewrite closing_step.
  - cbn [Reference.two_stars_at]. rewrite N.eqb_refl. by eexists.
  - destruct (Reference.two_stars_at _); [by eexists |].
    apply andb_prop in Hdots as [-> Hdots].
    destruct (IH Hdots) as [m ->]. by exists (take_unit u m).
Qed.

Lemma match_bold (t : jstring) :
  match_here bold t =
    match t with
    | a :: b :: t' =>
        if Reference.two_stars_at t
        then (fun m => take_unit a (skip_atom (take_unit b (skip_atom m)))) <$> closing t'
        else None
    | _ => None
    end.
Proof.
  destruct t as [| a [| b t']]; [reflexivity | |].
  - unfold bold. rewrite match_one. unfold is_unit at 1. by destruct (N.eqb a star_).
  - unfold bold. rewrite !match_one, match_lazy. unfold is_unit at 1 2.
    cbn [Reference.two_stars_at].
    destruct (N.eqb a star_); [| reflexivity].
    destruct (N.eqb b star_); [| reflexivity].
    cbn [andb]. by destruct (closing t').
Qed.

Lemma match_bold_found (t : jstring) (segs : list jstring) (rest : jstring) :
  match_here bold t = Some (segs, rest) ->
  exists cap,
    t = star_ :: star_ :: cap ++ star_ :: star_ :: rest
    /\ seg 2 segs = cap
    /\ forallb dot cap = true
    /\ forall i, (i < length cap)%nat ->
         Reference.two_stars_at (drop i (cap ++ star_ :: star_ :: rest)) = false.
Proof.
  rewrite match_bold. destruct t as [| a [| b t']]; try discriminate.
  destruct (Reference.two_stars_at (a :: b :: t')) eqn:Hat; [| discriminate].
  cbn [Reference.two_stars_at] in Hat.
  apply andb_prop in Hat as [->%N.eqb_eq ->%N.eqb_eq].
  destruct (closing t') as [m |] eqn:Hm; [| discriminate].
  destruct (closing_found _ _ Hm) as (cap & rest' & -> & -> & Hdots & Hmin).
  intros [= <- <-]. by exists cap.
Qed.

Lemma match_bold_none (t : jstring) :
  match_here bold (star_ :: star_ :: t) = None -> closing t = None.
Proof.
  rewrite match_bold. cbn [Reference.two_stars_at]. rewrite N.eqb_refl. cbn [andb].
  by destruct (closing t).
Qed.

Lemma match_bold_needs_stars (t : jstring) :
  Reference.two_stars_at t = false -> match_here bold t = None.
Proof.
  intros H. rewrite match_bold. destruct t as [| a [| b t']]; try reflexivity.
  by rewrite H.
Qed.

(** *** One pass of a replacement, match by match *)

Lemma replace_skip (r : regex) (by_ : list jstring -> jstring) (k : nat) (s : jstring) :
  replace_from r by_ k s = replace r by_ (drop k s).
Proof.
  unfold replace. revert k. induction s as [| u s IH]; intros k.
  - by destruct k.
  - destruct k as [| k]; [reflexivity |]. cbn [replace_from drop]. apply IH.
Qed.

Lemma replace_none (r : regex) (by_ : list jstring -> jstring) (u : N) (s : jstring) :
  match_here r (u :: s) = None -> replace r by_ (u :: s) = u :: replace r by_ s.
Proof. unfold replace. cbn [replace_from]. by intros ->. Qed.

Lemma replace_some (r : regex) (by_ : list jstring -> jstring)
  (u : N) (consumed rest : jstring) (segs : list jstring) :
  match_here r (u :: consumed ++ rest) = Some (segs, rest) ->
  replace r by_ (u :: consumed ++ rest) = by_ segs ++ replace r by_ rest.
Proof.
  unfold replace at 1. cbn [replace_from]. intros ->. f_equal.
  rewrite replace_skip. f_equal. cbn [length]. rewrite length_app.
  replace (S (length consumed + length rest) - length rest - 1)%nat
    with (length consumed) by lia.
  by rewrite drop_app_length.
Qed.

Lemma bolden_some (t : jstring) (segs : list jstring) (rest : jstring) :
  match_here bold t = Some (segs, rest) ->
  exists cap,
    t = star_ :: star_ :: cap ++ star_ :: star_ :: rest
    /\ bolden t = lit "<strong>" ++ cap ++ lit "</strong>" ++ bolden rest
    /\ forallb dot cap = true
    /\ forall i, (i < length cap)%nat ->
         Reference.two_stars_at (drop i (cap ++ star_ :: star_ :: rest)) = false.
Proof.
  intros Hm. destruct (match_bold_found _ _ _ Hm) as (cap & -> & Hseg & Hdots & Hmin).
  exists cap. repeat split; try done.
  assert (star_ :: star_ :: cap ++ star_ :: star_ :: rest
          = star_ :: (star_ :: cap ++ [star_; star_]) ++ rest) as Heq.
  { cbn [app]. by rewrite <- app_assoc. }
  rewrite Heq in Hm |- *. rewrite (replace_some _ _ _ _ _ _ Hm), Hseg.
  by rewrite <- !app_assoc.
Qed.

(** *** A second pass finds no bold text *)

Lemma unmatched_here (r : regex) (t : jstring) :
  Reference.unmatched r t -> match_here r t = None.
Proof. destruct t; by intros [? _]. Qed.

Lemma unmatched_tail (r : regex) (u : N) (t : jstring) :
  Reference.unmatched r (u :: t) -> Reference.unmatched r t.
Proof. by intros [_ ?]. Qed.

(** Text without asterisks in front of text in which nothing matches. *)
Lemma unmatched_plain (x t : jstring) :
  forallb (fun u => negb (N.eqb u star_)) x = true ->
  Reference.unmatched bold t -> Reference.unmatched bold (x ++ t).
Proof.
  induction x as [| u x IH]; cbn [app forallb]; [done |].
  intros [Hu Hx]%andb_prop Ht. cbn [Reference.unmatched]. split; [| by apply IH].
  apply match_bold_needs_stars. destruct (x ++ t); [reflexivity |].
  cbn [Reference.two_stars_at]. apply negb_true_iff in Hu. by rewrite Hu.
Qed.

(** The text between two markers, in front of text that does not start
    with an asterisk. *)
Lemma unmatched_between (cap rest t : jstring) :
  (forall i, (i < length cap)%nat ->
     Reference.two_stars_at (drop i (cap ++ star_ :: star_ :: rest)) = false) ->
  match t with u :: _ => N.eqb u star_ = false | [] => True end ->
  Reference.unmatched bold t -> Reference.unmatched bold (cap ++ t).
Proof.
  intros Hmin Hhead Ht. induction cap as [| u cap IH]; cbn [app]; [done |].
  cbn [Reference.unmatched]. split.
  - apply match_bold_needs_stars.
    pose proof (Hmin 0%nat ltac:(cbn [length]; lia)) as H0. cbn [drop app] in H0.
    destruct cap as [| v cap]; cbn [app] in H0 |- *.
    + destruct t as [| w t]; [reflexivity |]. cbn [Reference.two_stars_at].
      rewrite Hhead. apply andb_false_r.
    + exact H0.
  - apply IH. intros i Hi. apply (Hmin (S i)). cbn [length]. lia.
Qed.

(** The output of a pass starts with an asterisk only where the input
    does and no match starts there. *)
Lemma bolden_head (s : jstring) (t : jstring) :
  bolden s = star_ :: t ->
  exists s', s = star_ :: s' /\ match_here bold s = None /\ t = bolden s'.
Proof.
  destruct s as [| u s']; [discriminate |].
  destruct (match_here bold (u :: s')) as [[segs rest] |] eqn:Hm.
  - destruct (bolden_some _ _ _ Hm) as (cap & _ & -> & _). discriminate.
  - rewrite (replace_none _ _ _ _ Hm). intros [= -> <-]. by exists s'.
Qed.

(** A closing marker in the output of a pass was one in its input. *)
Lemma bolden_closing (s : jstring) :
  is_Some (closing (bolden s)) -> is_Some (closing s).
Proof.
  induction s as [| u s IH]; [done |].
  destruct (match_here bold (u :: s)) as [[segs rest] |] eqn:Hm.
  - intros _. destruct (match_bold_found _ _ _ Hm) as (cap & -> & _).
    rewrite closing_step. cbn [Reference.two_stars_at]. rewrite N.eqb_refl. by eexists.
  - rewrite (replace_none _ _ _ _ Hm). rewrite (closing_step (u :: bolden s)).
    destruct (Reference.two_stars_at (u :: bolden s)) eqn:Hat.
    + intros _. destruct (bolden s) as [| v t] eqn:Hb; [discriminate |].
      cbn [Reference.two_stars_at] in Hat.
      apply andb_prop in Hat as [->%N.eqb_eq ->%N.eqb_eq].
      destruct (bolden_head _ _ Hb) as (s' & -> & _).
      rewrite closing_step. cbn [Reference.two_stars_at]. rewrite N.eqb_refl.
      by eexists.
    + destruct (dot u) eqn:Hu; [| by intros [? ?]].
      destruct (closing (bolden s)) as [m |] eqn:Hc; [| by intros [? ?]].
      intros _. destruct IH as [m' Hm']; [by eexists |].
      rewrite closing_step, Hu, Hm'.
      destruct (Reference.two_stars_at (u :: s)); cbn [fmap option_fmap option_map];
        by eexists.
Qed.

(** After one pass no bold text is left. *)
Lemma bolden_unmatched (n : nat) (s : jstring) :
  (length s <= n)%nat -> Reference.unmatched bold (bolden s).
Proof.
  revert s. induction n as [| n IH]; intros s Hn.
  - destruct s; [done | cbn in Hn; lia].
  - destruct s as [| u s]; [done |]. cbn [length] in Hn.
    destruct (match_here bold (u :: s)) as [[segs rest] |] eqn:Hm.
    + destruct (bolden_some _ _ _ Hm) as (cap & Heq & -> & _ & Hmin).
      assert (length rest <= n)%nat as Hrest.
      { apply (f_equal length) in Heq. cbn [length] in Heq.
        rewrite length_app in Heq. cbn [length] in Heq. lia. }
      apply unmatched_plain; [reflexivity |].
      apply (unmatched_between cap rest); [exact Hmin | reflexivity |].
      apply unmatched_plain; [reflexivity |]. by apply IH.
    + rewrite (replace_none _ _ _ _ Hm). cbn [Reference.unmatched].
      split; [| apply IH; lia].
      destruct (match_here bold (u :: bolden s)) as [[segs rest] |] eqn:Hm'; [| done].
      exfalso. destruct (match_bold_found _ _ _ Hm') as (cap & Heq & _ & Hdots & _).
      injection Heq as -> Hb.
      destruct (bolden_head _ _ Hb) as (s' & -> & _ & Hcap).
      apply match_bold_none in Hm.
      assert (is_Some (closing s')) as [m Hs'].
      { apply bolden_closing. rewrite <- Hcap. by apply closing_exists. }
      congruence.
Qed.

(** A pass adds no line break. *)
Lemma bolden_no_line_break (n : nat) (s : jstring) :
  (length s <= n)%nat ->
  Reference.no_line_break s = true -> Reference.no_line_break (bolden s) = true.
Proof.
  unfold Reference.no_line_break.
  revert s. induction n as [| n IH]; intros s Hn Hs.
  - destruct s; [done | cbn in Hn; lia].
  - destruct s as [| u s]; [done |]. cbn [length] in Hn.
    destruct (match_here bold (u :: s)) as [[segs rest] |] eqn:Hm.
    + destruct (bolden_some _ _ _ Hm) as (cap & Heq & -> & _ & _).
      rewrite Heq in Hs. cbn [forallb] in Hs. rewrite forallb_app in Hs.
      cbn [forallb] in Hs.
      apply andb_prop in Hs as [_ [_ [Hcap [_ [_ Hrest]%andb_prop]%andb_prop
                                           ]%andb_prop]%andb_prop].
      rewrite !forallb_app, Hcap. cbn [andb].
      rewrite IH; [reflexivity | | exact Hrest].
      apply (f_equal length) in Heq. cbn [length] in Heq.
      rewrite length_app in Heq. cbn [length] in Heq. lia.
    + rewrite (replace_none _ _ _ _ Hm). cbn [forallb] in Hs |- *.
      apply andb_prop in Hs as [-> Hs]. cbn [andb]. apply IH; [lia | exact Hs].
Qed.

(** On a text without a line break the formatter is the pass for bold
    text. *)
Lemma formatResponse_line (text : jstring) :
  Reference.no_line_break text = true -> formatResponse text = bolden text.
Proof.
  intros Hline.
  pose proof (bolden_no_line_break _ text (le_n _) Hline) as Hb.
  unfold formatResponse, applyMarkers.
  rewrite (replace_unchanged _ bullet _ no_line_break_tail line_bullet _ Hb).
  rewrite (replace_unchanged _ heading3 _ no_line_break_tail line_heading3 _ Hb).
  rewrite (replace_unchanged _ heading2 _ no_line_break_tail line_heading2 _ Hb).
  rewrite (replace_unchanged _ heading1 _ no_line_break_tail line_heading1 _ Hb).
  rewrite (replace_unchanged _ numbered _ no_line_break_tail line_numbered _ Hb).
  by apply collapseBreaks_unchanged.
Qed.

(** C3, amended.  On an input without markdown markers the six marker
    replacements change nothing, so [formatResponse] returns the input
    with only the paragraph and line-break replacements applied, and
    returns it unchanged if it has no line break either.  On an input
    without a line break, markers or not, a second pass changes
    nothing.  ([formatResponse] is a total function: it returns on
    every string.) *)
Theorem formatResponse_passthrough_and_second_pass (text : jstring) :
  (Reference.marker_free text = true ->
   formatResponse text = collapseBreaks text
   /\ (Reference.no_line_break text = true -> formatResponse text = text))
  /\ (Reference.no_line_break text = true ->
      formatResponse (formatResponse text) = formatResponse text).
Proof.
  split.
  - intros Hfree.
    assert (formatResponse text = collapseBreaks text) as Hpass.
    { unfold formatResponse. by rewrite applyMarkers_unchanged. }
    split; [exact Hpass |]. intros Hline. rewrite Hpass.
    by apply collapseBreaks_unchanged.
  - intros Hline. rewrite (formatResponse_line text Hline).
    rewrite formatResponse_line by (by eapply bolden_no_line_break).
    apply (replace_unchanged (Reference.unmatched bold)).
    + apply unmatched_tail.
    + apply unmatched_here.
    + by eapply bolden_unmatched.
Qed.

End FormatterFacts.

(** ** The statements above at sample inputs *)

Module Samples.
Import ProgressTracker Reference.

Lemma failure_renders_only_message_sample :
  wt_status failed_weight <> VStr (lit "success")
  /\ bp_status failed_pressure <> VStr (lit "success")
  /\ gp_status failed_goal <> VStr (lit "success")
  /\ innerHTML (loadWeightTrend_settled plain_date upper_ascii (Ok failed_weight) initial)
       !! "#weight-chart-container"%string
     = Some (tpl "<div class=`alert alert-info`>Not enough weight data</div>")
  /\ charts (loadWeightTrend_settled plain_date upper_ascii (Ok failed_weight) initial) = ∅
  /\ innerHTML (trackGoalProgress_settled (Ok failed_goal) initial)
       !! "#goal-progress-container"%string
     = Some (tpl "<div class=`alert alert-info`>No data for this goal</div>").
Proof.
  assert (wt_status failed_weight <> VStr (lit "success")) as H1
    by (vm_compute; discriminate).
  assert (bp_status failed_pressure <> VStr (lit "success")) as H2
    by (vm_compute; discriminate).
  assert (gp_status failed_goal <> VStr (lit "success")) as H3
    by (vm_compute; discriminate).
  destruct (ProgressTrackerFacts.failure_renders_only_message plain_date upper_ascii
              failed_weight failed_pressure failed_goal initial H1 H2 H3)
    as (Hw & _ & Hg & _).
  split; [exact H1 |]. split; [exact H2 |]. split; [exact H3 |].
  rewrite Hw, Hg. repeat split; vm_compute; reflexivity.
Defined.

Lemma goal_percentage_as_supplied_sample :
  gp_status two_thirds_goal = VStr (lit "success")
  /\ number_wf (progress_percentage two_thirds_goal)
  /\ is_number (progress_percentage two_thirds_goal) = true
  /\ ToString (progress_percentage two_thirds_goal) = lit "66.7"
  /\ renderGoalProgress_html two_thirds_goal
     = goal_card_head two_thirds_goal
       ++ progress_bar (lit "66.7")
       ++ goal_card_tail two_thirds_goal
  /\ count_occ N.eq_dec (progress_label (lit "66.7")) 37 = 1%nat.
Proof.
  destruct (ProgressTrackerFacts.goal_percentage_as_supplied two_thirds_goal eq_refl I)
    as [Hshape Hnumber].
  split; [reflexivity |]. split; [exact I |]. split; [reflexivity |].
  split; [vm_compute; reflexivity |].
  split; [exact Hshape | exact (proj1 (Hnumber eq_refl))].
Defined.

Lemma report_sections_in_order_sample :
  hr_status sample_report = VStr (lit "success")
  /\ report_well_formed sample_report = true
  /\ filter (section_due sample_report) report_order
     = [UserInformation; ReportSummary; WeightAnalysisCard; RecommendationsCard]
  /\ exists cards,
       renderHealthReport_html plain_date upper_ascii sample_report
       = Ok (tpl "<div class=`health-report`>" ++ concat cards ++ tpl "</div>")
       /\ length cards = 4%nat.
Proof.
  assert (filter (section_due sample_report) report_order
          = [UserInformation; ReportSummary; WeightAnalysisCard; RecommendationsCard])
    as Hdue by (vm_compute; reflexivity).
  split; [reflexivity |]. split; [reflexivity |]. split; [exact Hdue |].
  destruct (ProgressTrackerFacts.report_sections_in_order plain_date upper_ascii
              sample_report eq_refl) as [Hok _].
  destruct (Hok eq_refl) as (cards & Hhtml & Hcards).
  exists cards. split; [exact Hhtml |].
  apply Forall2_length in Hcards. rewrite Hdue in Hcards. by symmetry.
Defined.

Lemma time_range_change_loads_sample :
  queryActiveTab four_tabs
    (reached plain_date upper_ascii four_tabs (VNum 7) [TabClick (lit "goals-tab")])
  = Some (lit "goals-tab")
  /\ requests (onTimeRangeChange four_tabs 90
       (reached plain_date upper_ascii four_tabs (VNum 7) [TabClick (lit "goals-tab")]))
     = requests (reached plain_date upper_ascii four_tabs (VNum 7)
                   [TabClick (lit "goals-tab")])
  /\ currentDays (onTimeRangeChange four_tabs 90
       (reached plain_date upper_ascii four_tabs (VNum 7) [TabClick (lit "goals-tab")]))
     = VNum 90.
Proof.
  assert (queryActiveTab four_tabs
            (reached plain_date upper_ascii four_tabs (VNum 7)
               [TabClick (lit "goals-tab")])
          = Some (lit "goals-tab")) as Hactive by (vm_compute; reflexivity).
  destruct (ProgressTrackerFacts.time_range_change_loads plain_date upper_ascii
              four_tabs (VNum 7) [TabClick (lit "goals-tab")] 90)
    as (Hdays & _ & _ & Hnone & _).
  split; [exact Hactive |]. split; [exact (Hnone (or_introl Hactive)) | exact Hdays].
Defined.


Lemma cached_tips_are_served_sample :
  is_Some (Consultation.elements
             (Consultation.run [Consultation.LoadHealthTips (lit "nutrition");
                                Consultation.HealthTipsSettled 0 (Ok tips_a)])
             !! "health-tips-content"%string)
  /\ Consultation.healthTips
       (Consultation.run [Consultation.LoadHealthTips (lit "nutrition");
                          Consultation.HealthTipsSettled 0 (Ok tips_a)])
       !! lit "nutrition" = Some tips_a
  /\ Consultation.tips_truthy tips_a = true
  /\ (lit "nutrition"
      ∉ Consultation.pending
          (Consultation.run [Consultation.LoadHealthTips (lit "nutrition");
                             Consultation.HealthTipsSettled 0 (Ok tips_a)]))
  /\ Consultation.fetches (lit "nutrition")
       (fold_left Consultation.handle
          [Consultation.LoadHealthTips (lit "exercise");
           Consultation.LoadHealthTips (lit "nutrition");
           Consultation.HealthTipsSettled 0 (Ok tips_b);
           Consultation.LoadHealthTips (lit "nutrition")]
          (Consultation.run [Consultation.LoadHealthTips (lit "nutrition");
                             Consultation.HealthTipsSettled 0 (Ok tips_a)]))
     = 1%nat
  /\ Consultation.healthTips
       (fold_left Consultation.handle
          [Consultation.LoadHealthTips (lit "exercise");
           Consultation.LoadHealthTips (lit "nutrition");
           Consultation.HealthTipsSettled 0 (Ok tips_b);
           Consultation.LoadHealthTips (lit "nutrition")]
          (Consultation.run [Consultation.LoadHealthTips (lit "nutrition");
                             Consultation.HealthTipsSettled 0 (Ok tips_a)]))
       !! lit "nutrition" = Some tips_a.
Proof.
  set (p := Consultation.run [Consultation.LoadHealthTips (lit "nutrition");
                              Consultation.HealthTipsSettled 0 (Ok tips_a)]).
  assert (is_Some (Consultation.elements p !! "health-tips-content"%string)) as Hs
    by (vm_compute; by eexists).
  assert (Consultation.healthTips p !! lit "nutrition" = Some tips_a) as Hc
    by (vm_compute; reflexivity).
  assert (lit "nutrition" ∉ Consultation.pending p) as Hp
    by (vm_compute; apply not_elem_of_nil).
  destruct (ConsultationFacts.cached_tips_are_served p (lit "nutrition") tips_a
              [Consultation.LoadHealthTips (lit "exercise");
               Consultation.LoadHealthTips (lit "nutrition");
               Consultation.HealthTipsSettled 0 (Ok tips_b);
               Consultation.LoadHealthTips (lit "nutrition")]
              Hs Hc eq_refl Hp) as (Hkept & _ & Hn & _).
  split; [exact Hs |]. split; [exact Hc |]. split; [reflexivity |].
  split; [exact Hp |]. split; [| exact Hkept].
  rewrite Hn. vm_compute. reflexivity.
Defined.

Lemma decrypt_encrypt_sample :
  Forall (fun u => u < 65536) (lit "hello world")
  /\ (forall i u, lit "hello world" !! i = Some u ->
        N.lxor u (Auth.key_unit Auth.SECRET_KEY i) <= 255)
  /\ exists encoded,
       Auth.encrypt (lit "hello world") Auth.SECRET_KEY = Ok encoded
       /\ Auth.decrypt encoded Auth.SECRET_KEY = Some (lit "hello world").
Proof.
  assert (Forall (fun u => u < 65536) (lit "hello world")) as Hwf
    by (repeat constructor).
  assert (forall i u, lit "hello world" !! i = Some u ->
            N.lxor u (Auth.key_unit Auth.SECRET_KEY i) <= 255) as Hlow.
  { intros i u.
    do 11 (destruct i as [| i]; [intros [= <-]; vm_compute; discriminate |]).
    discriminate. }
  split; [exact Hwf |]. split; [exact Hlow |].
  exact (AuthFacts.decrypt_encrypt (lit "hello world") Auth.SECRET_KEY Hwf Hlow).
Defined.

Lemma checkAuth_accepts_undecodable_data_sample :
  parse_null_only (lit "null") = Ok None
  /\ Auth.localStorage Empty_set tampered_session !! Auth.AUTH_TOKEN_KEY
      = Some (lit "k3q9")
  /\ lit "k3q9" <> []
  /\ Auth.localStorage Empty_set tampered_session !! Auth.USER_DATA_KEY = Some (lit "!")
  /\ valid_base64 (lit "!") = false
  /\ Auth.checkAuth Empty_set parse_null_only tampered_session
      = (true, {| Auth.localStorage := Auth.localStorage Empty_set tampered_session;
                  Auth.isAuthenticated := true;
                  Auth.currentUser := None |}).
Proof.
  assert (parse_null_only (lit "null") = Ok None) as H1 by (vm_compute; reflexivity).
  assert (Auth.localStorage Empty_set tampered_session !! Auth.AUTH_TOKEN_KEY
          = Some (lit "k3q9")) as H2 by (vm_compute; reflexivity).
  assert (lit "k3q9" <> []) as H3 by (vm_compute; discriminate).
  assert (Auth.localStorage Empty_set tampered_session !! Auth.USER_DATA_KEY
          = Some (lit "!")) as H4 by (vm_compute; reflexivity).
  assert (valid_base64 (lit "!") = false) as H5 by (vm_compute; reflexivity).
  repeat (split; [assumption |]).
  exact (proj2 (AuthFacts.checkAuth_accepts_undecodable_data Empty_set parse_null_only
                  tampered_session (lit "k3q9") (lit "!") H1 H2 H3 H4 H5)).
Defined.

Lemma formatResponse_passthrough_and_second_pass_sample :
  marker_free (lit "3.14 is a*b #1") = true
  /\ no_line_break (lit "3.14 is a*b #1") = true
  /\ Formatter.formatResponse (lit "3.14 is a*b #1") = lit "3.14 is a*b #1"
  /\ Formatter.formatResponse (Formatter.formatResponse (lit "3.14 is a*b #1"))
      = Formatter.formatResponse (lit "3.14 is a*b #1")
  /\ no_line_break bold_line = true
  /\ Formatter.formatResponse bold_line = lit "<strong>a</strong> * b **c"
  /\ Formatter.formatResponse (Formatter.formatResponse bold_line)
      = Formatter.formatResponse bold_line.
Proof.
  destruct (FormatterFacts.formatResponse_passthrough_and_second_pass
              (lit "3.14 is a*b #1")) as [Hpass Hsecond].
  destruct (Hpass eq_refl) as [_ Hsame].
  split; [reflexivity |]. split; [reflexivity |].
  split; [exact (Hsame eq_refl) |]. split; [exact (Hsecond eq_refl) |].
  split; [reflexivity |]. split; [vm_compute; reflexivity |].
  exact (proj2 (FormatterFacts.formatResponse_passthrough_and_second_pass bold_line)
           eq_refl).
Defined.

End Samples.

(** ** Further properties of the progress tracker *)

Module ControllerFacts.
Import ProgressTracker.

Section Controller.

Variable toLocaleDateString : value -> jstring.
Variable toUpperCase : jstring -> jstring.
Variable progressTabs : list jstring.

Abbreviation handle := (handle toLocaleDateString toUpperCase progressTabs).
Abbreviation reached := (reached toLocaleDateString toUpperCase progressTabs).
Abbreviation onTabClick := (onTabClick progressTabs).
Abbreviation queryActiveTab := (queryActiveTab progressTabs).

(** What the helpers leave alone. *)
Ltac fields :=
  unfold loadWeightTrend_settled, loadBloodPressureTrend_settled,
    trackGoalProgress_settled, loadHealthReport_settled, logProgress_settled,
    logProgress_timeout, logProgress, onGoalFormSubmit, onTimeRangeChange,
    ProgressTracker.onTabClick,
    renderWeightChart, renderBloodPressureChart, renderGoalProgress,
    loadWeightTrend, loadBloodPressureTrend, loadHealthReport, trackGoalProgress;
  repeat match goal with
  | |- context [match ?x with _ => _ end] => destruct x
  | |- context [if ?b then _ else _] => destruct b
  end;
  try reflexivity.

Lemma handle_activeTabs (w : world) (e : event) :
  activeTabs (handle w e) =
    match e with
    | TabClick t => if bool_decide (t ∈ progressTabs) then {[ t ]} else ∅
    | _ => activeTabs w
    end.
Proof. destruct e; cbn [ProgressTracker.handle]; fields. Qed.

Lemma handle_userId (w : world) (e : event) : userId (handle w e) = userId w.
Proof. destruct e; cbn [ProgressTracker.handle]; fields. Qed.

Lemma handle_currentDays (w : world) (e : event) :
  currentDays (handle w e) =
    match e with
    | TimeRangeChange d => VNum d
    | _ => currentDays w
    end.
Proof. destruct e; cbn [ProgressTracker.handle]; fields. Qed.

Lemma reached_snoc (user : value) (events : list event) (e : event) :
  reached user (events ++ [e]) = handle (reached user events) e.
Proof. unfold ProgressTracker.reached. by rewrite fold_left_app. Qed.

Lemma last_click_snoc (events : list event) (e : event) :
  Reference.last_click (events ++ [e]) =
    match e with
    | TabClick t => Some t
    | _ => Reference.last_click events
    end.
Proof. unfold Reference.last_click. by rewrite fold_left_app. Qed.

Lemma last_range_snoc (events : list event) (e : event) :
  Reference.last_range (events ++ [e]) =
    match e with
    | TimeRangeChange d => d
    | _ => Reference.last_range events
    end.
Proof. unfold Reference.last_range. by rewrite fold_left_app. Qed.

(** The tab query on a page where exactly one tab, or none, is active. *)
Lemma find_single (t : jstring) (tabs : list jstring) :
  find (fun id => bool_decide (id ∈ ({[ t ]} : gset jstring))) tabs
  = if bool_decide (t ∈ tabs) then Some t else None.
Proof.
  induction tabs as [| x tabs IH]; [reflexivity |].
  cbn [find]. destruct (decide (x = t)) as [-> | Hne].
  - rewrite bool_decide_eq_true_2 by set_solver.
    by rewrite bool_decide_eq_true_2 by set_solver.
  - rewrite (bool_decide_eq_false_2 (x ∈ _)) by set_solver.
    rewrite IH. destruct (decide (t ∈ tabs)) as [Hin | Hout].
    + rewrite (bool_decide_eq_true_2 _ Hin), bool_decide_eq_true_2; [done |].
      by constructor.
    + rewrite (bool_decide_eq_false_2 _ Hout), bool_decide_eq_false_2; [done |].
      intros Hc. inversion Hc; subst; [by apply Hne | by apply Hout].
Qed.

Lemma find_none_active (tabs : list jstring) :
  find (fun id => bool_decide (id ∈ (∅ : gset jstring))) tabs = None.
Proof.
  induction tabs as [| x tabs IH]; [reflexivity |].
  cbn [find]. by rewrite bool_decide_eq_false_2 by set_solver.
Qed.

(** X1.  In every state the controller reaches, the set of active tabs
    is the tab of the last click (none, if that click did not hit a tab
    of the page), or the weight tab when nothing was clicked yet; the
    tab query answers accordingly.  No other event changes it. *)
Theorem active_tab_follows_last_click (user : value) (events : list event) :
  activeTabs (reached user events) =
    match Reference.last_click events with
    | Some t => if bool_decide (t ∈ progressTabs) then {[ t ]} else ∅
    | None => {[ lit "weight-tab" ]}
    end
  /\ queryActiveTab (reached user events) =
    match Reference.last_click events with
    | Some t => if bool_decide (t ∈ progressTabs) then Some t else None
    | None => if bool_decide (lit "weight-tab" ∈ progressTabs)
              then Some (lit "weight-tab") else None
    end.
Proof.
  assert (activeTabs (reached user events) =
    match Reference.last_click events with
    | Some t => if bool_decide (t ∈ progressTabs) then {[ t ]} else ∅
    | None => {[ lit "weight-tab" ]}
    end) as Hactive.
  { induction events as [| e events IH] using rev_ind.
    - cbn. by rewrite union_empty_r_L.
    - rewrite reached_snoc, last_click_snoc, handle_activeTabs.
      by destruct e. }
  split; [exact Hactive |].
  unfold ProgressTracker.queryActiveTab. rewrite Hactive.
  destruct (Reference.last_click events) as [t |].
  - case_bool_decide as Ht.
    + rewrite find_single. by rewrite bool_decide_eq_true_2.
    + apply find_none_active.
  - apply find_single.
Qed.

(** X2.  In every state the controller reaches, the user identifier is
    the one given to [init] and the stored day count is that of the
    last change of the time range, 30 before any. *)
Theorem stored_days_follow_last_range (user : value) (events : list event) :
  userId (reached user events) = user
  /\ currentDays (reached user events) = VNum (Reference.last_range events).
Proof.
  induction events as [| e events [IHu IHd]] using rev_ind.
  - split; reflexivity.
  - rewrite reached_snoc, last_range_snoc, handle_userId, handle_currentDays.
    split; [exact IHu |]. by destruct e.
Qed.

(** X3.  Every event appends at most one request to those made so
    far, and the events that deliver a response append none.  The
    reload after a logged entry is made by the timer, an event of its
    own: it requests the trend of the active tab when that is the
    weight or the blood-pressure tab, and nothing otherwise. *)
Theorem events_issue_at_most_one_request (w : world) (e : event) :
  (if Reference.is_settlement e
   then requests (handle w e) = requests w
   else requests (handle w e) = requests w
        \/ exists url, requests (handle w e) = requests w ++ [url])
  /\ requests (handle w LogProgressTimeout) =
     match queryActiveTab w with
     | Some tab =>
         if bool_decide (tab = lit "weight-tab")
         then requests w ++ [apiBase ++ lit "/user/" ++ ToString (userId w)
                               ++ lit "/weight-trend?days=" ++ ToString (currentDays w)]
         else if bool_decide (tab = lit "blood-pressure-tab")
         then requests w ++ [apiBase ++ lit "/user/" ++ ToString (userId w)
                               ++ lit "/blood-pressure-trend?days="
                               ++ ToString (currentDays w)]
         else requests w
     | None => requests w
     end.
Proof.
  split.
  - destruct e; cbn [ProgressTracker.handle Reference.is_settlement];
      try (fields; fail);
      unfold logProgress_timeout, logProgress, onGoalFormSubmit, onTimeRangeChange,
        ProgressTracker.onTabClick, loadWeightTrend, loadBloodPressureTrend,
        loadHealthReport, trackGoalProgress;
      repeat match goal with
      | |- context [match ?x with _ => _ end] => destruct x
      | |- context [if ?b then _ else _] => destruct b
      end;
      first [by left | right; eexists; reflexivity].
  - cbn [ProgressTracker.handle]. unfold logProgress_timeout.
    change (ProgressTracker.queryActiveTab progressTabs w) with (queryActiveTab w).
    destruct (queryActiveTab w) as [tab |]; [| reflexivity].
    repeat case_bool_decide; reflexivity.
Qed.

Lemma onTabClick_requests (t : jstring) (w : world) :
  requests (onTabClick t w) =
    if bool_decide (t = lit "weight-tab")
    then requests w ++ [apiBase ++ lit "/user/" ++ ToString (userId w)
                          ++ lit "/weight-trend?days=" ++ ToString (currentDays w)]
    else if bool_decide (t = lit "blood-pressure-tab")
    then requests w ++ [apiBase ++ lit "/user/" ++ ToString (userId w)
                          ++ lit "/blood-pressure-trend?days="
                          ++ ToString (currentDays w)]
    else if bool_decide (t = lit "goals-tab") then requests w
    else if bool_decide (t = lit "report-tab")
    then requests w ++ [apiBase ++ lit "/user/" ++ ToString (userId w)
                          ++ lit "/health-report"]
    else requests w.
Proof.
  unfold ProgressTracker.onTabClick.
  destruct (bool_decide (t = lit "weight-tab")); [reflexivity |].
  destruct (bool_decide (t = lit "blood-pressure-tab")); [reflexivity |].
  destruct (bool_decide (t = lit "goals-tab")); [reflexivity |].
  destruct (bool_decide (t = lit "report-tab")); reflexivity.
Qed.

(** X4.  Clicking a tab of the page and then changing the time range
    to [days] issues, in this order: for the weight and the
    blood-pressure tab, the trend request with the day count stored
    before and the same request with [days]; for the report tab, the
    one report request (the range does not reload it); for the goals
    tab, nothing at all. *)
Theorem tab_click_then_range_change (w : world) (days : Z) :
  (lit "weight-tab" ∈ progressTabs ->
   requests (onTimeRangeChange progressTabs days (onTabClick (lit "weight-tab") w))
   = requests w
     ++ [apiBase ++ lit "/user/" ++ ToString (userId w)
           ++ lit "/weight-trend?days=" ++ ToString (currentDays w);
         apiBase ++ lit "/user/" ++ ToString (userId w)
           ++ lit "/weight-trend?days=" ++ decimal days])
  /\ (lit "blood-pressure-tab" ∈ progressTabs ->
   requests (onTimeRangeChange progressTabs days
               (onTabClick (lit "blood-pressure-tab") w))
   = requests w
     ++ [apiBase ++ lit "/user/" ++ ToString (userId w)
           ++ lit "/blood-pressure-trend?days=" ++ ToString (currentDays w);
         apiBase ++ lit "/user/" ++ ToString (userId w)
           ++ lit "/blood-pressure-trend?days=" ++ decimal days])
  /\ (lit "report-tab" ∈ progressTabs ->
   requests (onTimeRangeChange progressTabs days (onTabClick (lit "report-tab") w))
   = requests w
     ++ [apiBase ++ lit "/user/" ++ ToString (userId w) ++ lit "/health-report"])
  /\ (lit "goals-tab" ∈ progressTabs ->
   requests (onTimeRangeChange progressTabs days (onTabClick (lit "goals-tab") w))
   = requests w).
Proof.
  assert (forall t, t ∈ progressTabs ->
            queryActiveTab (onTabClick t w) = Some t) as Hq.
  { intros t Ht. unfold ProgressTracker.queryActiveTab.
    change (onTabClick t w) with (handle w (TabClick t)).
    rewrite handle_activeTabs, bool_decide_eq_true_2 by exact Ht.
    rewrite find_single. by rewrite bool_decide_eq_true_2. }
  assert (forall t, userId (onTabClick t w) = userId w) as Hu.
  { intros t. apply (handle_userId w (TabClick t)). }
  repeat split; intros Ht;
    rewrite ProgressTrackerFacts.onTimeRangeChange_requests, (Hq _ Ht), Hu,
      onTabClick_requests;
    match goal with
    | |- ?lhs = _ =>
        let b := fresh in
        repeat match goal with
        | |- context [bool_decide (lit ?x = lit ?y)] =>
            let v := eval vm_compute in (bool_decide (lit x = lit y)) in
            change (bool_decide (lit x = lit y)) with v
        end
    end;
    cbv iota; by rewrite <- ?app_assoc.
Qed.

End Controller.

End ControllerFacts.

Module RendererFacts.
Import ProgressTracker JsFacts.

Section Renderers.

Variable toLocaleDateString : value -> jstring.
Variable toUpperCase : jstring -> jstring.

Abbreviation renderWeightChart := (renderWeightChart toLocaleDateString).
Abbreviation loadWeightTrend_settled :=
  (loadWeightTrend_settled toLocaleDateString toUpperCase).
Abbreviation renderHealthReport_html :=
  (renderHealthReport_html toLocaleDateString toUpperCase).
Abbreviation loadHealthReport_settled :=
  (loadHealthReport_settled toLocaleDateString toUpperCase).

(** X5.  The weight chart always gets one series with as many labels
    as points: two points (first, then latest) when both measurements
    are there with different dates, a single point when their dates
    coincide, and none when a measurement is missing; whatever chart
    was there before is replaced. *)
Theorem weight_chart_points (data : WeightTrend) (w : world) :
  exists labels points,
    Reference.weight_points (renderWeightChart data w) = Some (labels, points)
    /\ length labels = length points
    /\ match first_measurement data, latest_measurement data with
       | Some first, Some latest =>
           if bool_decide (date first = date latest)
           then points = [weight_kg first]
           else points = [weight_kg first; weight_kg latest]
       | _, _ => points = []
       end.
Proof.
  unfold Reference.weight_points, ProgressTracker.renderWeightChart.
  destruct (first_measurement data) as [first |],
    (latest_measurement data) as [latest |];
    try (eexists _, _; cbn [charts set_chart]; rewrite lookup_insert_eq;
         split; [reflexivity | split; reflexivity]).
  destruct (decide (date first = date latest)) as [Heq | Hne].
  - rewrite (bool_decide_eq_false_2 (date first <> date latest)) by tauto.
    rewrite (bool_decide_eq_true_2 _ Heq).
    eexists _, _. cbn [charts set_chart]. rewrite lookup_insert_eq.
    split; [reflexivity | split; reflexivity].
  - rewrite (bool_decide_eq_true_2 (date first <> date latest)) by exact Hne.
    rewrite (bool_decide_eq_false_2 _ Hne).
    eexists _, _. cbn [charts set_chart]. rewrite lookup_insert_eq.
    split; [reflexivity | split; reflexivity].
Qed.

(** X6.  A weight payload with status 'success' whose trend is not a
    string is rendered half-way: the chart object is built, then the
    insights renderer raises, so the chart container ends up holding
    the error alert while the insights surface keeps whatever it held
    before. *)
Theorem weight_trend_without_trend_text (data : WeightTrend) (w : world) :
  wt_status data = VStr (lit "success") ->
  (forall s, wt_trend data <> VStr s) ->
  let w' := loadWeightTrend_settled (Ok data) w in
  innerHTML w' !! "#weight-chart-container"%string = Some weight_error_alert
  /\ innerHTML w' !! "#weight-insights"%string
     = innerHTML w !! "#weight-insights"%string
  /\ is_Some (charts w' !! "weightChart"%string).
Proof.
  intros Hs Htrend w'. subst w'. unfold ProgressTracker.loadWeightTrend_settled.
  rewrite Hs. cbn [is_str]. rewrite bool_decide_eq_true_2 by reflexivity.
  assert (renderWeightInsights_html toUpperCase data = Throw TypeError) as ->.
  { unfold renderWeightInsights_html. rewrite Hs. cbn [is_str].
    rewrite bool_decide_eq_true_2 by reflexivity.
    destruct (wt_trend data) eqn:Ht; try reflexivity. by destruct (Htrend s). }
  unfold ProgressTracker.renderWeightChart.
  cbn [innerHTML charts set_innerHTML set_chart].
  destruct (match first_measurement data with Some _ => _ | None => _ end)
    as [labels points].
  cbn [innerHTML charts set_innerHTML set_chart].
  rewrite lookup_insert_eq. split; [reflexivity |].
  split; [| rewrite lookup_insert_eq; by eexists].
  by rewrite !lookup_insert_ne by discriminate.
Qed.

(** X7.  A report with status 'success' that lacks the user
    information, the summary or its list of metrics, or whose weight
    analysis has a trend that is not a string, makes the renderer
    raise; the loader then shows the error alert in the report
    container and changes nothing else. *)
Theorem malformed_report_shows_error (data : HealthReport) (w : world) :
  hr_status data = VStr (lit "success") ->
  Reference.report_well_formed data = false ->
  renderHealthReport_html data = Throw TypeError
  /\ loadHealthReport_settled (Ok data) w
     = set_innerHTML "#health-report-container" report_error_alert w.
Proof.
  intros Hs Hbad.
  assert (renderHealthReport_html data = Throw TypeError) as Hthrow.
  { unfold ProgressTracker.renderHealthReport_html, Reference.report_well_formed in *.
    rewrite Hs. cbn [is_str]. rewrite bool_decide_eq_true_2 by reflexivity.
    unfold append_user_info, append_summary, append_weight_analysis.
    destruct (user_info data); [| reflexivity]. cbn [required bind].
    destruct (summary data) as [sm |]; [| reflexivity]. cbn [required bind].
    destruct (metrics_tracked sm); [| reflexivity]. cbn [required bind].
    destruct (weight_analysis data) as [wa |]; [| discriminate].
    destruct (wa_trend wa); try reflexivity. discriminate. }
  split; [exact Hthrow |].
  unfold ProgressTracker.loadHealthReport_settled. cbn [bind].
  by rewrite Hthrow.
Qed.

End Renderers.

End RendererFacts.

(** ** Further properties of the health-tips loader *)

Module CacheFacts.
Import Consultation.

Lemma inherited_truthy (c : jstring) (m : value) :
  object_prototype_member c = Some m -> truthy m = true.
Proof.
  unfold object_prototype_member.
  repeat (destruct (bool_decide _); [by intros [= <-] |]).
  discriminate.
Qed.

Lemma run_snoc (events : list event) (e : event) :
  run (events ++ [e]) = handle (run events) e.
Proof. unfold run. by rewrite fold_left_app. Qed.

Lemma fetches_snoc_other (c c' : jstring) (urls : list jstring) :
  c' <> c ->
  length (filter (fun url => url = HEALTH_TIPS ++ c) (urls ++ [HEALTH_TIPS ++ c']))
  = length (filter (fun url => url = HEALTH_TIPS ++ c) urls).
Proof.
  intros Hne. rewrite filter_app, length_app.
  rewrite filter_cons_False; [cbn; lia |].
  intros H. by apply app_inv_head in H.
Qed.

(** What a step keeps, for a name inherited from [Object.prototype]. *)
Lemma handle_inherited (p : page) (e : event) :
  (forall c, is_Some (object_prototype_member c) ->
     healthTips p !! c = None /\ (c ∉ pending p) /\ fetches c p = 0%nat) ->
  forall c, is_Some (object_prototype_member c) ->
    healthTips (handle p e) !! c = None /\ (c ∉ pending (handle p e))
    /\ fetches c (handle p e) = 0%nat.
Proof.
  intros Inv c Hc. destruct (Inv c Hc) as (Hh & Hp & Hf).
  destruct e as [c' | i resp]; cbn [handle].
  - unfold loadHealthTips.
    destruct (elements p !! "health-tips-content"%string); [| done].
    destruct (tips_truthy (cached p c')) eqn:Htruthy.
    + destruct (renderHealthTips (cached p c') p) as [p' |] eqn:Hr; [| done].
      destruct (ConsultationFacts.renderHealthTips_elements_only _ _ _ Hr)
        as (H1 & H2 & H3).
      unfold fetches. by rewrite H1, H2, H3.
    + assert (c' <> c) as Hne.
      { intros ->. destruct Hc as [m Hm]. unfold cached in Htruthy.
        rewrite Hh, Hm in Htruthy. cbn in Htruthy.
        by rewrite (inherited_truthy _ _ Hm) in Htruthy. }
      cbn [healthTips pending fetched set_element].
      split; [done |]. split.
      * rewrite elem_of_app, list_elem_of_singleton. intros [? | ?]; [done | congruence].
      * unfold fetches in *. cbn [fetched set_element].
        by rewrite fetches_snoc_other.
  - unfold loadHealthTips_settled.
    destruct (pending p !! i) as [c' |] eqn:Hi; [| done].
    assert (c' <> c) as Hne.
    { intros ->. apply Hp. by eapply list_elem_of_lookup_2. }
    assert (c ∉ delete i (pending p)) as Hp'.
    { intros Hin. apply Hp. by eapply list_elem_of_delete_inv. }
    destruct resp as [data | err]; [| done].
    destruct (renderHealthTips data _) as [p' |] eqn:Hr.
    + destruct (ConsultationFacts.renderHealthTips_elements_only _ _ _ Hr)
        as (H1 & H2 & H3).
      unfold fetches in *. rewrite H1, H2, H3. cbn [healthTips pending fetched].
      by rewrite lookup_insert_ne.
    + cbn [healthTips pending fetched set_element fetches].
      by rewrite lookup_insert_ne.
Qed.

(** X8.  A category named like a member every object inherits
    ('constructor', 'toString', '__proto__', ...) is never requested,
    never pending and never stored: the lookup in the cache object
    finds the inherited member, which counts as a cached value. *)
Theorem inherited_names_never_fetched (events : list event) (c : jstring) :
  is_Some (object_prototype_member c) ->
  fetches c (run events) = 0%nat
  /\ (c ∉ pending (run events))
  /\ healthTips (run events) !! c = None.
Proof.
  intros Hc.
  assert (forall c, is_Some (object_prototype_member c) ->
            healthTips (run events) !! c = None /\ (c ∉ pending (run events))
            /\ fetches c (run events) = 0%nat) as Hall.
  { induction events as [| e events IH] using rev_ind.
    - intros c' _. repeat split; [apply not_elem_of_nil].
    - rewrite run_snoc. by apply handle_inherited. }
  destruct (Hall c Hc) as (? & ? & ?). done.
Qed.

Lemma delete_last {A} (l : list A) (x : A) : delete (length l) (l ++ [x]) = l.
Proof.
  induction l as [| y l IH]; [reflexivity |].
  change (y :: delete (length l) (l ++ [x]) = y :: l). by rewrite IH.
Qed.

(** X9.  A failed load is not remembered: when the request for a
    category fails (or its response is not ok), the cache and the
    pending requests are as before the load, the surface shows the
    error notice, and the next load of the category issues the request
    again. *)
Theorem failed_load_is_retried (p : page) (c : jstring) (e : error) :
  is_Some (elements p !! "health-tips-content"%string) ->
  tips_truthy (cached p c) = false ->
  let p1 := loadHealthTips c p in
  let p2 := loadHealthTips_settled (length (pending p)) (Throw e) p1 in
  healthTips p2 = healthTips p
  /\ pending p2 = pending p
  /\ elements p2 !! "health-tips-content"%string = Some tips_error
  /\ fetched (loadHealthTips c p2) = fetched p ++ [HEALTH_TIPS ++ c; HEALTH_TIPS ++ c].
Proof.
  intros [old Hel] Hfalsy p1 p2.
  assert (p1 = {| elements := <["health-tips-content"%string := tips_loading]> (elements p);
                  healthTips := healthTips p;
                  fetched := fetched p ++ [HEALTH_TIPS ++ c];
                  pending := pending p ++ [c] |}) as Hp1.
  { subst p1. unfold loadHealthTips. by rewrite Hel, Hfalsy. }
  assert (p2 = {| elements := <["health-tips-content"%string := tips_error]>
                                (<["health-tips-content"%string := tips_loading]>
                                   (elements p));
                  healthTips := healthTips p;
                  fetched := fetched p ++ [HEALTH_TIPS ++ c];
                  pending := pending p |}) as Hp2.
  { subst p2. rewrite Hp1. unfold loadHealthTips_settled. cbn [pending].
    rewrite list_lookup_middle by reflexivity.
    cbn [set_element elements healthTips fetched pending].
    by rewrite delete_last. }
  rewrite Hp2. cbn [healthTips pending elements].
  split; [reflexivity |]. split; [reflexivity |].
  split; [by rewrite lookup_insert_eq |].
  unfold loadHealthTips. cbn [elements]. rewrite lookup_insert_eq.
  assert (cached {| elements := <["health-tips-content"%string := tips_error]>
                                  (<["health-tips-content"%string := tips_loading]>
                                     (elements p));
                    healthTips := healthTips p;
                    fetched := fetched p ++ [HEALTH_TIPS ++ c];
                    pending := pending p |} c = cached p c) as -> by reflexivity.
  rewrite Hfalsy. cbn [fetched set_element]. by rewrite <- app_assoc.
Qed.

(** How a step changes the cache. *)
Lemma handle_healthTips (p : page) (e : event) :
  healthTips (handle p e) =
    match e with
    | HealthTipsSettled i (Ok data) =>
        match pending p !! i with
        | Some c => <[c := data]> (healthTips p)
        | None => healthTips p
        end
    | _ => healthTips p
    end.
Proof.
  destruct e as [c | i [data | err]]; cbn [handle].
  - unfold loadHealthTips.
    destruct (elements p !! "health-tips-content"%string); [| done].
    destruct (tips_truthy (cached p c)); [| done].
    destruct (renderHealthTips (cached p c) p) as [p' |] eqn:Hr; [| done].
    by destruct (ConsultationFacts.renderHealthTips_elements_only _ _ _ Hr) as (? & _).
  - unfold loadHealthTips_settled. destruct (pending p !! i) as [c |]; [| done].
    destruct (renderHealthTips data _) as [p' |] eqn:Hr; [| done].
    by destruct (ConsultationFacts.renderHealthTips_elements_only _ _ _ Hr) as (-> & _).
  - unfold loadHealthTips_settled. by destruct (pending p !! i).
Qed.

(** X10.  Whatever the cache holds for a category was the body of a
    successful response: entries are never made up, and a failed
    response or a load alone stores nothing. *)
Theorem cache_entries_come_from_responses
  (events : list event) (c : jstring) (t : tips) :
  healthTips (run events) !! c = Some t ->
  exists i, HealthTipsSettled i (Ok t) ∈ events.
Proof.
  induction events as [| e events IH] using rev_ind.
  - discriminate.
  - rewrite run_snoc, handle_healthTips. intros H.
    assert (healthTips (run events) !! c = Some t ->
            exists i, HealthTipsSettled i (Ok t) ∈ events ++ [e]) as Hold.
    { intros H'. destruct (IH H') as [i Hi]. exists i.
      apply elem_of_app. by left. }
    destruct e as [c' | i [data | err]]; try by apply Hold.
    destruct (pending (run events) !! i) as [c' |]; [| by apply Hold].
    destruct (decide (c' = c)) as [-> | Hne].
    + rewrite lookup_insert_eq in H. injection H as ->.
      exists i. apply elem_of_app. right. by apply list_elem_of_singleton.
    + rewrite lookup_insert_ne in H by done. by apply Hold.
Qed.

End CacheFacts.

(** ** Display keys *)

Module KeyFacts.
Import Consultation.

Ltac cases_N :=
  repeat match goal with
  | |- context [N.leb ?a ?b] => destruct (N.leb_spec a b)
  | |- context [N.eqb ?a ?b] => destruct (N.eqb_spec a b)
  end.

Example formatKey_samples :
  formatKey (lit "blood_pressure") = lit "Blood Pressure"
  /\ formatKey (lit "hypertension_stage_1") = lit "Hypertension Stage 1"
  /\ formatKey (lit "bmi") = lit "Bmi"
  /\ formatKey (lit "__x") = lit "  X"
  /\ formatKey (lit "a-b c2d") = lit "A-B C2d"
  /\ formatKey [] = [].
Proof. repeat split; vm_compute; reflexivity. Qed.

Lemma word_upper (u : N) : word_unit (upper_unit u) = word_unit u.
Proof.
  unfold upper_unit.
  destruct ((97 <=? u) && (u <=? 122)) eqn:Hlow; [| reflexivity].
  apply andb_prop in Hlow as [H1%N.leb_le H2%N.leb_le].
  unfold word_unit. cases_N; cbn; try reflexivity; lia.
Qed.

Lemma upper_upper (u : N) : upper_unit (upper_unit u) = upper_unit u.
Proof.
  unfold upper_unit.
  destruct ((97 <=? u) && (u <=? 122)) eqn:Hlow; [| by rewrite Hlow].
  apply andb_prop in Hlow as [H1%N.leb_le H2%N.leb_le].
  cases_N; cbn; try reflexivity; lia.
Qed.

Lemma upper_not_underscore (u : N) : u <> 95 -> upper_unit u <> 95.
Proof.
  unfold upper_unit.
  destruct ((97 <=? u) && (u <=? 122)) eqn:Hlow; [| done].
  apply andb_prop in Hlow as [H1%N.leb_le H2%N.leb_le]. lia.
Qed.

Lemma capitalize_words_idempotent (b : bool) (s : jstring) :
  capitalize_words b (capitalize_words b s) = capitalize_words b s.
Proof.
  revert b. induction s as [| u s IH]; intros b; [reflexivity |].
  cbn [capitalize_words].
  destruct (word_unit u && negb b) eqn:Hcap.
  - rewrite word_upper, Hcap, upper_upper. f_equal. apply IH.
  - rewrite Hcap. f_equal. apply IH.
Qed.

Lemma capitalize_words_length (b : bool) (s : jstring) :
  length (capitalize_words b s) = length s.
Proof.
  revert b. induction s as [| u s IH]; intros b; [reflexivity |].
  cbn [capitalize_words length]. by rewrite IH.
Qed.

Lemma capitalize_words_no_underscore (b : bool) (s : jstring) :
  Forall (fun u => u <> 95) s -> Forall (fun u => u <> 95) (capitalize_words b s).
Proof.
  intros H. revert b. induction H as [| u s Hu _ IH]; intros b; [constructor |].
  cbn [capitalize_words]. constructor; [| apply IH].
  destruct (word_unit u && negb b); [by apply upper_not_underscore | done].
Qed.

Lemma underscores_to_spaces_clean (s : jstring) :
  Forall (fun u => u <> 95) (underscores_to_spaces s).
Proof.
  unfold underscores_to_spaces. apply Forall_fmap, Forall_true.
  intros u. cbn. destruct (N.eqb_spec u 95); [discriminate | done].
Qed.

Lemma underscores_to_spaces_fixed (s : jstring) :
  Forall (fun u => u <> 95) s -> underscores_to_spaces s = s.
Proof.
  unfold underscores_to_spaces. induction 1 as [| u s Hu _ IH]; [reflexivity |].
  cbn [map]. rewrite IH. by destruct (N.eqb_spec u 95).
Qed.

(** X11.  [formatKey] keeps the length of a key, leaves no underscore
    in it, and formatting a formatted key changes nothing. *)
Theorem formatKey_stable (key : jstring) :
  length (formatKey key) = length key
  /\ Forall (fun u => u <> 95) (formatKey key)
  /\ formatKey (formatKey key) = formatKey key.
Proof.
  pose proof (capitalize_words_no_underscore false _ (underscores_to_spaces_clean key))
    as Hclean.
  split; [| split].
  - unfold formatKey, underscores_to_spaces.
    by rewrite capitalize_words_length, length_map.
  - exact Hclean.
  - unfold formatKey. rewrite (underscores_to_spaces_fixed _ Hclean).
    apply capitalize_words_idempotent.
Qed.

End KeyFacts.

(** ** Line breaks in formatted text *)

Module BreakFacts.
Import Formatter.

Abbreviation tidy := Reference.no_adjacent_breaks.
Abbreviation starts_with_break := Reference.starts_with_break.

Lemma tidy_cons (a : N) (s : jstring) :
  tidy (a :: s) = negb (N.eqb a newline && starts_with_break s) && tidy s.
Proof. destruct s; cbn [Reference.no_adjacent_breaks Reference.starts_with_break].
  - by rewrite andb_false_r.
  - reflexivity.
Qed.

(** The two expressions, as tests on the first units. *)
Lemma match_double_break (s : jstring) :
  match_here double_break s =
    match s with
    | a :: b :: rest =>
        if N.eqb a newline && N.eqb b newline then Some ([[a]; [b]], rest) else None
    | _ => None
    end.
Proof.
  destruct s as [| a [| b rest]]; [reflexivity | |].
  - unfold double_break. rewrite FormatterFacts.match_one. unfold is_unit at 1.
    by destruct (N.eqb a newline).
  - unfold double_break. rewrite !FormatterFacts.match_one. unfold is_unit.
    by destruct (N.eqb a newline), (N.eqb b newline).
Qed.

Lemma match_single_break (s : jstring) :
  match_here single_break s =
    match s with
    | a :: b :: c :: rest =>
        if none_of [gt_] a && N.eqb b newline && none_of [lt_] c
        then Some ([[a]; [b]; [c]], rest) else None
    | _ => None
    end.
Proof.
  destruct s as [| a [| b [| c rest]]]; unfold single_break;
    rewrite ?FormatterFacts.match_one; unfold is_unit;
    try reflexivity.
  - by destruct (none_of [gt_] a).
  - by destruct (none_of [gt_] a), (N.eqb b newline).
  - by destruct (none_of [gt_] a), (N.eqb b newline), (none_of [lt_] c).
Qed.

Abbreviation drop_double := (replace_from double_break (fun _ => []) 0).
Abbreviation join_lines :=
  (replace_from single_break (fun g => seg 0 g ++ lit " " ++ seg 2 g) 0).

Lemma drop_double_step (a : N) (s : jstring) :
  drop_double (a :: s) =
    match s with
    | b :: rest =>
        if N.eqb a newline && N.eqb b newline then drop_double rest
        else a :: drop_double s
    | [] => [a]
    end.
Proof.
  cbn [replace_from]. rewrite match_double_break.
  destruct s as [| b rest]; [reflexivity |].
  destruct (N.eqb a newline && N.eqb b newline); [| reflexivity].
  cbn [length app]. replace (S (S (length rest)) - length rest - 1)%nat with 1%nat by lia.
  reflexivity.
Qed.

Lemma join_lines_step (a : N) (s : jstring) :
  join_lines (a :: s) =
    match s with
    | b :: c :: rest =>
        if none_of [gt_] a && N.eqb b newline && none_of [lt_] c
        then a :: 32 :: c :: join_lines rest
        else a :: join_lines s
    | _ => a :: join_lines s
    end.
Proof.
  cbn [replace_from]. rewrite match_single_break.
  destruct s as [| b [| c rest]]; try reflexivity.
  destruct (none_of [gt_] a && N.eqb b newline && none_of [lt_] c); [| reflexivity].
  cbn [length]. replace (S (S (S (length rest))) - length rest - 1)%nat with 2%nat by lia.
  reflexivity.
Qed.

Lemma drop_double_tidy (n : nat) (s : jstring) :
  (length s <= n)%nat -> tidy (drop_double s) = true.
Proof.
  revert s. induction n as [| n IH]; intros s Hn.
  - destruct s; [reflexivity | cbn in Hn; lia].
  - destruct s as [| a s]; [reflexivity |].
    rewrite drop_double_step. destruct s as [| b rest]; [reflexivity |].
    cbn [length] in Hn.
    destruct (N.eqb a newline && N.eqb b newline) eqn:Hab.
    + apply IH. lia.
    + rewrite tidy_cons, (IH (b :: rest)) by (cbn [length]; lia).
      rewrite andb_true_r. apply negb_true_iff.
      destruct (N.eqb a newline) eqn:Ha; [| reflexivity].
      cbn [andb] in Hab |- *.
      rewrite drop_double_step. destruct rest as [| c rest'].
      * cbn [Reference.starts_with_break]. exact Hab.
      * rewrite Hab. cbn [andb Reference.starts_with_break]. exact Hab.
Qed.

Lemma join_lines_start (s : jstring) :
  starts_with_break (join_lines s) = starts_with_break s.
Proof.
  destruct s as [| a s]; [reflexivity |]. rewrite join_lines_step.
  destruct s as [| b [| c rest]]; try reflexivity.
  by destruct (none_of [gt_] a && N.eqb b newline && none_of [lt_] c).
Qed.

Lemma join_lines_tidy (n : nat) (s : jstring) :
  (length s <= n)%nat -> tidy s = true -> tidy (join_lines s) = true.
Proof.
  revert s. induction n as [| n IH]; intros s Hn Hs.
  - destruct s; [reflexivity | cbn in Hn; lia].
  - destruct s as [| a s]; [reflexivity |].
    cbn [length] in Hn. rewrite join_lines_step.
    rewrite tidy_cons in Hs. apply andb_prop in Hs as [Ha Hs].
    assert (tidy (a :: join_lines s) = true) as Hplain.
    { rewrite tidy_cons, join_lines_start, Ha. apply IH; [lia | exact Hs]. }
    destruct s as [| b [| c rest]]; try exact Hplain.
    destruct (none_of [gt_] a && N.eqb b newline && none_of [lt_] c) eqn:Hm;
      [| exact Hplain].
    apply andb_prop in Hm as [[_ Hb]%andb_prop _].
    cbn [Reference.starts_with_break] in Ha. rewrite Hb, andb_true_r in Ha.
    rewrite tidy_cons in Hs. apply andb_prop in Hs as [Hbc Hs].
    cbn [Reference.starts_with_break] in Hbc. rewrite Hb in Hbc. cbn [andb] in Hbc.
    rewrite tidy_cons in Hs. apply andb_prop in Hs as [Hc Hs].
    cbn [length] in Hn.
    rewrite !tidy_cons, join_lines_start. cbn [Reference.starts_with_break].
    apply negb_true_iff in Ha, Hbc. rewrite Ha, Hbc.
    change (N.eqb 32 newline) with false. cbn [andb negb].
    apply IH; [lia | exact Hs].
Qed.

(** X12.  Whatever the input, the output of [formatResponse] never
    holds two line breaks in a row. *)
Theorem formatResponse_no_double_break (text : jstring) :
  Reference.no_adjacent_breaks (formatResponse text) = true.
Proof.
  unfold formatResponse, collapseBreaks, replace.
  eapply join_lines_tidy; [reflexivity |].
  eapply drop_double_tidy. reflexivity.
Qed.

End BreakFacts.

(** ** Further properties of the session module *)

Module SessionFacts.
Import Auth.

Lemma low_iff_shift (x : N) : x <= 255 <-> N.shiftr x 8 = 0.
Proof.
  rewrite N.shiftr_div_pow2. change (2 ^ 8) with 256.
  split; intros H.
  - apply N.div_small. lia.
  - apply N.div_small_iff in H; lia.
Qed.

Lemma lxor_low (u k : N) : k <= 255 -> (N.lxor u k <= 255 <-> u <= 255).
Proof.
  intros Hk. apply low_iff_shift in Hk.
  rewrite !low_iff_shift, N.shiftr_lxor, Hk, N.lxor_0_r. reflexivity.
Qed.

Lemma lxor_16 (u k : N) : u < 65536 -> k < 65536 -> N.lxor u k < 65536.
Proof.
  intros Hu Hk.
  assert (forall x, x < 65536 <-> N.shiftr x 16 = 0) as Hs.
  { intros x. rewrite N.shiftr_div_pow2. change (2 ^ 16) with 65536.
    split; intros H; [by apply N.div_small | apply N.div_small_iff in H; lia]. }
  apply Hs in Hu, Hk. apply Hs. by rewrite N.shiftr_lxor, Hu, Hk.
Qed.

Lemma key_unit_low (secretKey : jstring) (i : nat) :
  Forall (fun k => k <= 255) secretKey -> key_unit secretKey i <= 255.
Proof.
  intros Hkey. unfold key_unit.
  destruct (secretKey !! _) as [k |] eqn:Hk; [| lia].
  rewrite Forall_forall in Hkey. apply Hkey. by eapply list_elem_of_lookup_2.
Qed.

Lemma xor_unit_low (secretKey : jstring) (i : nat) (u : N) :
  Forall (fun k => k <= 255) secretKey -> u < 65536 ->
  (fromCharCode (N.lxor u (key_unit secretKey i)) <= 255 <-> u <= 255).
Proof.
  intros Hkey Hu. pose proof (key_unit_low secretKey i Hkey) as Hk.
  unfold fromCharCode. rewrite N.mod_small by (apply lxor_16; lia).
  by apply lxor_low.
Qed.

Lemma xor_units_low_iff (text secretKey : jstring) :
  Forall (fun k => k <= 255) secretKey ->
  Forall (fun u => u < 65536) text ->
  (Forall (fun u => u <= 255) (xor_units text secretKey)
   <-> Forall (fun u => u <= 255) text).
Proof.
  intros Hkey Hwf. unfold xor_units. rewrite !Forall_lookup.
  rewrite Forall_lookup in Hwf.
  split; intros H i x Hx.
  - pose proof (H i (fromCharCode (N.lxor x (key_unit secretKey i)))) as Hi.
    rewrite list_lookup_imap, Hx in Hi.
    apply (xor_unit_low secretKey i x Hkey (Hwf i x Hx)). by apply Hi.
  - rewrite list_lookup_imap in Hx.
    destruct (text !! i) as [u |] eqn:Hu; [| discriminate].
    injection Hx as <-.
    apply (xor_unit_low secretKey i u Hkey (Hwf i u Hu)). by eapply H.
Qed.

Lemma btoa_ok_iff (s : jstring) :
  (exists e, btoa s = Ok e) <-> Forall (fun u => u <= 255) s.
Proof.
  unfold btoa. destruct (forallb (fun u => u <=? 255) s) eqn:Hall.
  - split; [| by eexists]. intros _. apply Forall_forall. intros u Hu.
    rewrite forallb_forall in Hall. apply N.leb_le, Hall. by apply list_elem_of_In.
  - split; [by intros [e He] |]. intros HF. exfalso.
    assert (forallb (fun u => u <=? 255) s = true) as Ht; [| congruence].
    apply forallb_forall. intros u Hu. apply N.leb_le.
    rewrite Forall_forall in HF. by apply HF, list_elem_of_In.
Qed.

(** X13.  Under a key of Latin-1 units (such as the key of the module)
    [encrypt] returns an encoding exactly when every code unit of the
    text is at most 255, and raises otherwise. *)
Theorem encrypt_needs_latin1 (text secretKey : jstring) :
  Forall (fun k => k <= 255) secretKey ->
  Forall (fun u => u < 65536) text ->
  ((exists encoded, encrypt text secretKey = Ok encoded)
   <-> Forall (fun u => u <= 255) text)
  /\ (~ Forall (fun u => u <= 255) text ->
      encrypt text secretKey = Throw InvalidCharacterError).
Proof.
  intros Hkey Hwf.
  assert ((exists encoded, encrypt text secretKey = Ok encoded)
          <-> Forall (fun u => u <= 255) text) as Hiff.
  { unfold encrypt. rewrite btoa_ok_iff. by apply xor_units_low_iff. }
  split; [exact Hiff |].
  intros Hbad. destruct (encrypt text secretKey) as [enc | e] eqn:He.
  - destruct Hbad. apply Hiff. by eexists.
  - unfold encrypt, btoa in He. destruct (forallb _ _); [discriminate |].
    by injection He as <-.
Qed.

Lemma SECRET_KEY_low : Forall (fun k => k <= 255) SECRET_KEY.
Proof. unfold SECRET_KEY. repeat constructor; vm_compute; discriminate. Qed.

Lemma b64_encode_nonempty (l : list N) : l <> [] -> b64_encode l <> [].
Proof. destruct l as [| a [| b [| c r]]]; [done | discriminate..]. Qed.

Section Session.

Variable json : Type.
Variable JSON_parse : jstring -> result (option json).
Variable empty_array : json.

Abbreviation checkAuth := (checkAuth json JSON_parse).
Abbreviation logout := (logout json).
Abbreviation getAllUsers := (getAllUsers json JSON_parse empty_array).

(** X14.  What [login] stores is what [checkAuth] reads back: with a
    non-empty token and, as user data, the encoding [encrypt] returned
    for a non-empty text, [checkAuth] parses exactly that text; it
    answers true with the parsed user, or logs out if parsing raises. *)
Theorem stored_session_is_restored
  (a : session json) (token text encoded : jstring) :
  token <> [] ->
  text <> [] ->
  Forall (fun u => u < 65536) text ->
  encrypt text SECRET_KEY = Ok encoded ->
  localStorage json a !! AUTH_TOKEN_KEY = Some token ->
  localStorage json a !! USER_DATA_KEY = Some encoded ->
  decrypt encoded SECRET_KEY = Some text
  /\ checkAuth a =
     match JSON_parse text with
     | Ok user => (true, {| localStorage := localStorage json a;
                            isAuthenticated := true;
                            currentUser := user |})
     | Throw _ => (false, logout a)
     end.
Proof.
  intros Htok Htext Hwf Henc Hst Hsu.
  assert (Forall (fun u => u <= 255) text) as Hlow.
  { apply (xor_units_low_iff text SECRET_KEY SECRET_KEY_low Hwf), btoa_ok_iff.
    by exists encoded. }
  assert (Forall (fun u => u <= 255) (xor_units text SECRET_KEY)) as Hx.
  { by apply xor_units_low_iff; [apply SECRET_KEY_low | |]. }
  assert (encoded = b64_encode (xor_units text SECRET_KEY)) as ->.
  { unfold encrypt, btoa in Henc. destruct (forallb _ _); [| discriminate].
    by injection Henc as <-. }
  assert (decrypt (b64_encode (xor_units text SECRET_KEY)) SECRET_KEY = Some text)
    as Hdec.
  { unfold decrypt. rewrite (AuthFacts.atob_b64_encode _ Hx). f_equal.
    apply AuthFacts.xor_units_involutive; [exact Hwf |].
    intros i u Hu. apply lxor_low; [apply key_unit_low, SECRET_KEY_low |].
    rewrite Forall_lookup in Hlow. by eapply Hlow. }
  split; [exact Hdec |].
  unfold Auth.checkAuth. rewrite Hst, Hsu.
  destruct token as [| t0 token]; [done |].
  destruct (b64_encode (xor_units text SECRET_KEY)) as [| e0 enc] eqn:Hb.
  { exfalso. apply (b64_encode_nonempty (xor_units text SECRET_KEY)); [| exact Hb].
    unfold xor_units. intros Hnil. apply (f_equal length) in Hnil.
    rewrite length_imap in Hnil. by destruct text. }
  rewrite Hdec. cbn [JSON_parse_arg]. by destruct (JSON_parse text).
Qed.

(** X15.  After [logout] neither item is stored and every other item
    is untouched; [checkAuth] then answers false and changes nothing;
    logging out again changes nothing; and [checkAuth], whatever it
    finds, never touches an item other than the two. *)
Theorem logout_ends_the_session (a : session json) :
  localStorage json (logout a) !! AUTH_TOKEN_KEY = None
  /\ localStorage json (logout a) !! USER_DATA_KEY = None
  /\ (forall k, k <> AUTH_TOKEN_KEY -> k <> USER_DATA_KEY ->
        localStorage json (logout a) !! k = localStorage json a !! k
        /\ localStorage json (snd (checkAuth a)) !! k = localStorage json a !! k)
  /\ checkAuth (logout a) = (false, logout a)
  /\ logout (logout a) = logout a.
Proof.
  assert (localStorage json (logout a) !! AUTH_TOKEN_KEY = None) as H1.
  { cbn [Auth.logout localStorage].
    rewrite lookup_delete_ne by (vm_compute; discriminate).
    apply lookup_delete_eq. }
  assert (localStorage json (logout a) !! USER_DATA_KEY = None) as H2.
  { cbn [Auth.logout localStorage]. apply lookup_delete_eq. }
  assert (forall k, k <> AUTH_TOKEN_KEY -> k <> USER_DATA_KEY ->
            localStorage json (logout a) !! k = localStorage json a !! k) as H3.
  { intros k Hk1 Hk2. cbn [Auth.logout localStorage].
    by rewrite !lookup_delete_ne. }
  split; [exact H1 |]. split; [exact H2 |]. split; [| split].
  - intros k Hk1 Hk2. split; [by apply H3 |].
    unfold Auth.checkAuth.
    destruct (localStorage json a !! AUTH_TOKEN_KEY) as [[| ? ?] |]; try reflexivity.
    destruct (localStorage json a !! USER_DATA_KEY) as [[| ? ?] |]; try reflexivity.
    destruct (JSON_parse_arg _ _ _); [reflexivity | by apply H3].
  - unfold Auth.checkAuth. by rewrite H1.
  - unfold Auth.logout. cbn [localStorage]. f_equal.
    apply map_eq. intros k.
    destruct (decide (k = USER_DATA_KEY)) as [-> | Hu];
      [by rewrite !lookup_delete_eq |].
    rewrite !(lookup_delete_ne _ USER_DATA_KEY) by done.
    destruct (decide (k = AUTH_TOKEN_KEY)) as [-> | Ha];
      [by rewrite !lookup_delete_eq |].
    by rewrite !lookup_delete_ne by congruence.
Qed.

(** X16.  [getAllUsers] answers the empty array when the users item is
    missing or empty, but null, not an array, when the item is there
    and is not valid Base64: [decrypt] then returns null, which
    [JSON.parse] turns into null without raising. *)
Theorem getAllUsers_on_bad_storage (a : session json) :
  JSON_parse (lit "null") = Ok None ->
  match localStorage json a !! USERS_KEY with
  | None | Some [] => getAllUsers a = Some empty_array
  | Some usersData =>
      Reference.valid_base64 usersData = false -> getAllUsers a = None
  end.
Proof.
  intros Hnull. unfold Auth.getAllUsers.
  destruct (localStorage json a !! USERS_KEY) as [[| u0 d] |]; try reflexivity.
  intros Hbad. unfold Reference.valid_base64 in Hbad. unfold decrypt.
  destruct (atob (u0 :: d)); [discriminate |].
  cbn [JSON_parse_arg]. by rewrite Hnull.
Qed.

End Session.

End SessionFacts.

(** ** The further statements at sample inputs *)

Module MoreSamples.
Import ProgressTracker Reference.

Lemma tab_click_then_range_change_sample :
  lit "goals-tab" ∈ four_tabs
  /\ lit "blood-pressure-tab" ∈ four_tabs
  /\ requests (onTimeRangeChange four_tabs 7 (onTabClick four_tabs (lit "goals-tab") initial))
     = requests initial
  /\ length (requests (onTimeRangeChange four_tabs 7
                         (onTabClick four_tabs (lit "blood-pressure-tab") initial)))
     = 2%nat.
Proof.
  assert (lit "goals-tab" ∈ four_tabs) as Hg
    by (apply list_elem_of_In; vm_compute; tauto).
  assert (lit "blood-pressure-tab" ∈ four_tabs) as Hb
    by (apply list_elem_of_In; vm_compute; tauto).
  destruct (ControllerFacts.tab_click_then_range_change plain_date upper_ascii
              four_tabs initial 7) as (_ & Hbp & _ & Hgoals).
  split; [exact Hg |]. split; [exact Hb |].
  rewrite (Hgoals Hg), (Hbp Hb). split; reflexivity.
Defined.

Lemma weight_trend_without_trend_text_sample :
  wt_status weight_without_trend = VStr (lit "success")
  /\ (forall s, wt_trend weight_without_trend <> VStr s)
  /\ innerHTML (loadWeightTrend_settled plain_date upper_ascii
                  (Ok weight_without_trend) initial)
       !! "#weight-chart-container"%string
     = Some weight_error_alert.
Proof.
  assert (forall s, wt_trend weight_without_trend <> VStr s) as Ht by (intros s; discriminate).
  split; [reflexivity |]. split; [exact Ht |].
  exact (proj1 (RendererFacts.weight_trend_without_trend_text plain_date upper_ascii
                  weight_without_trend initial eq_refl Ht)).
Defined.

Lemma malformed_report_shows_error_sample :
  hr_status report_without_user = VStr (lit "success")
  /\ report_well_formed report_without_user = false
  /\ renderHealthReport_html plain_date upper_ascii report_without_user = Throw TypeError.
Proof.
  split; [reflexivity |]. split; [reflexivity |].
  exact (proj1 (RendererFacts.malformed_report_shows_error plain_date upper_ascii
                  report_without_user initial eq_refl eq_refl)).
Defined.

Lemma inherited_names_never_fetched_sample :
  is_Some (object_prototype_member (lit "constructor"))
  /\ Consultation.fetches (lit "constructor")
       (Consultation.run [Consultation.LoadHealthTips (lit "constructor");
                          Consultation.LoadHealthTips (lit "nutrition")])
     = 0%nat.
Proof.
  assert (is_Some (object_prototype_member (lit "constructor"))) as Hc
    by (vm_compute; by eexists).
  split; [exact Hc |].
  exact (proj1 (CacheFacts.inherited_names_never_fetched
                  [Consultation.LoadHealthTips (lit "constructor");
                   Consultation.LoadHealthTips (lit "nutrition")]
                  (lit "constructor") Hc)).
Defined.

Lemma failed_load_is_retried_sample :
  is_Some (Consultation.elements Consultation.initial !! "health-tips-content"%string)
  /\ Consultation.tips_truthy (Consultation.cached Consultation.initial (lit "sleep"))
     = false
  /\ Consultation.fetched
       (Consultation.loadHealthTips (lit "sleep")
          (Consultation.loadHealthTips_settled 0 (Throw TypeError)
             (Consultation.loadHealthTips (lit "sleep") Consultation.initial)))
     = [Consultation.HEALTH_TIPS ++ lit "sleep"; Consultation.HEALTH_TIPS ++ lit "sleep"].
Proof.
  assert (is_Some (Consultation.elements Consultation.initial
                     !! "health-tips-content"%string)) as He
    by (vm_compute; by eexists).
  split; [exact He |]. split; [reflexivity |].
  exact (proj2 (proj2 (proj2 (CacheFacts.failed_load_is_retried Consultation.initial
                                (lit "sleep") TypeError He eq_refl)))).
Defined.

Lemma cache_entries_come_from_responses_sample :
  Consultation.healthTips
    (Consultation.run [Consultation.LoadHealthTips (lit "nutrition");
                       Consultation.HealthTipsSettled 0 (Ok tips_a)])
    !! lit "nutrition" = Some tips_a
  /\ exists i, Consultation.HealthTipsSettled i (Ok tips_a)
               ∈ [Consultation.LoadHealthTips (lit "nutrition");
                  Consultation.HealthTipsSettled 0 (Ok tips_a)].
Proof.
  assert (Consultation.healthTips
            (Consultation.run [Consultation.LoadHealthTips (lit "nutrition");
                               Consultation.HealthTipsSettled 0 (Ok tips_a)])
            !! lit "nutrition" = Some tips_a) as Hc by (vm_compute; reflexivity).
  split; [exact Hc |].
  exact (CacheFacts.cache_entries_come_from_responses _ _ _ Hc).
Defined.

Lemma encrypt_needs_latin1_sample :
  Forall (fun k => k <= 255) Auth.SECRET_KEY
  /\ Forall (fun u => u < 65536) [8364]
  /\ ~ Forall (fun u => u <= 255) [8364]
  /\ Auth.encrypt [8364] Auth.SECRET_KEY = Throw InvalidCharacterError.
Proof.
  assert (Forall (fun u => u < 65536) [8364]) as Hwf by (repeat constructor).
  assert (~ Forall (fun u => u <= 255) [8364]) as Hbad.
  { intros H. inversion H as [| ? ? Hh _]. vm_compute in Hh. by apply Hh. }
  split; [exact SessionFacts.SECRET_KEY_low |]. split; [exact Hwf |].
  split; [exact Hbad |].
  exact (proj2 (SessionFacts.encrypt_needs_latin1 [8364] Auth.SECRET_KEY
                  SessionFacts.SECRET_KEY_low Hwf) Hbad).
Defined.

Lemma stored_session_is_restored_sample :
  lit "k3q9" <> []
  /\ user_text <> []
  /\ Forall (fun u => u < 65536) user_text
  /\ Auth.encrypt user_text Auth.SECRET_KEY = Ok user_encoded
  /\ Auth.localStorage Empty_set logged_in_session !! Auth.AUTH_TOKEN_KEY
      = Some (lit "k3q9")
  /\ Auth.localStorage Empty_set logged_in_session !! Auth.USER_DATA_KEY
      = Some user_encoded
  /\ Auth.decrypt user_encoded Auth.SECRET_KEY = Some user_text.
Proof.
  assert (lit "k3q9" <> []) as H1 by (vm_compute; discriminate).
  assert (user_text <> []) as H2 by (vm_compute; discriminate).
  assert (Forall (fun u => u < 65536) user_text) as H3 by (repeat constructor).
  assert (Auth.encrypt user_text Auth.SECRET_KEY = Ok user_encoded) as H4
    by (vm_compute; reflexivity).
  assert (Auth.localStorage Empty_set logged_in_session !! Auth.AUTH_TOKEN_KEY
          = Some (lit "k3q9")) as H5 by (vm_compute; reflexivity).
  assert (Auth.localStorage Empty_set logged_in_session !! Auth.USER_DATA_KEY
          = Some user_encoded) as H6 by (vm_compute; reflexivity).
  repeat (split; [assumption |]).
  exact (proj1 (SessionFacts.stored_session_is_restored Empty_set parse_null_only
                  logged_in_session (lit "k3q9") user_text user_encoded
                  H1 H2 H3 H4 H5 H6)).
Defined.

Lemma logout_ends_the_session_sample :
  Auth.USERS_KEY <> Auth.AUTH_TOKEN_KEY
  /\ Auth.USERS_KEY <> Auth.USER_DATA_KEY
  /\ Auth.localStorage Empty_set (Auth.logout Empty_set logged_in_session)
       !! Auth.USERS_KEY
     = Auth.localStorage Empty_set logged_in_session !! Auth.USERS_KEY
  /\ Auth.checkAuth Empty_set parse_null_only (Auth.logout Empty_set logged_in_session)
     = (false, Auth.logout Empty_set logged_in_session).
Proof.
  assert (Auth.USERS_KEY <> Auth.AUTH_TOKEN_KEY) as H1 by (vm_compute; discriminate).
  assert (Auth.USERS_KEY <> Auth.USER_DATA_KEY) as H2 by (vm_compute; discriminate).
  destruct (SessionFacts.logout_ends_the_session Empty_set parse_null_only
              logged_in_session) as (_ & _ & Hframe & Hcheck & _).
  split; [exact H1 |]. split; [exact H2 |].
  split; [exact (proj1 (Hframe _ H1 H2)) | exact Hcheck].
Defined.

Lemma getAllUsers_on_bad_storage_sample :
  parse_null_only_unit (lit "null") = Ok None
  /\ Auth.localStorage unit bad_users_session !! Auth.USERS_KEY = Some (lit "!")
  /\ valid_base64 (lit "!") = false
  /\ Auth.getAllUsers unit parse_null_only_unit tt bad_users_session = None.
Proof.
  assert (parse_null_only_unit (lit "null") = Ok None) as H1
    by (vm_compute; reflexivity).
  assert (valid_base64 (lit "!") = false) as H3 by (vm_compute; reflexivity).
  pose proof (SessionFacts.getAllUsers_on_bad_storage unit parse_null_only_unit tt
                bad_users_session H1) as H.
  assert (Auth.localStorage unit bad_users_session !! Auth.USERS_KEY = Some (lit "!"))
    as H2 by (vm_compute; reflexivity).
  rewrite H2 in H.
  split; [exact H1 |]. split; [exact H2 |]. split; [exact H3 | exact (H H3)].
Defined.

End MoreSamples.
